(** * The per-task dispatcher of the distributed task framework

    A shallow embedding of [disttask/framework/dispatcher/dispatcher.go]:
    the state-transition rules, the persist-with-retry primitive
    [updateTask], the construction of a driver, stage dispatch and the
    handling of the Reverting state, together with the properties the
    design document states about them.

    Go's [error] results are [option error] ([None] is [nil]); methods of
    [*dispatcher] are computations over the driver's own fields and the
    world outside it (storage, clock, the strategy's private state).
    Logging and failpoints, which are test instrumentation, are left
    out. *)

From Stdlib Require Import ZArith NArith List String Ascii Bool Lia Arith.
From Stdlib Require Import PeanoNat DecimalString.
Import ListNotations.

Local Open Scope string_scope.
Local Open Scope Z_scope.
Local Open Scope list_scope.

(** ** Package [proto] *)

Module proto.

(** Modelled from the spec: the task state constants of package [proto],
    which is not among the sources.  They are string constants in Go; the
    spec lists the thirteen of them as the task state set, and the code
    only ever compares them for equality. *)
Inductive TaskState : Set :=
| TaskStatePending
| TaskStateRunning
| TaskStateSucceed
| TaskStateReverting
| TaskStateFailed
| TaskStateRevertFailed
| TaskStateCancelling
| TaskStateCanceled
| TaskStatePausing
| TaskStatePaused
| TaskStateResuming
| TaskStateRevertPending
| TaskStateReverted.

Definition TaskState_eq_dec (a b : TaskState) : {a = b} + {a <> b}.
Proof. decide equality. Defined.

Definition state_eqb (a b : TaskState) : bool :=
  if TaskState_eq_dec a b then true else false.

End proto.
Export proto.

(** ** State-transition rules *)

(** The literal of the map [rules], in the order of the source. *)
Definition rules : list (TaskState * list TaskState) :=
  [ (TaskStatePending,
      [TaskStateRunning; TaskStateCancelling; TaskStatePausing;
       TaskStateSucceed; TaskStateFailed]);
    (TaskStateRunning,
      [TaskStateSucceed; TaskStateReverting; TaskStateFailed;
       TaskStateCancelling; TaskStatePausing]);
    (TaskStateSucceed, []);
    (TaskStateReverting, [TaskStateReverted]);
    (TaskStateFailed, []);
    (TaskStateRevertFailed, []);
    (TaskStateCancelling, [TaskStateReverting]);
    (TaskStateCanceled, []);
    (TaskStatePausing, [TaskStatePaused]);
    (TaskStatePaused, [TaskStateResuming]);
    (TaskStateResuming, [TaskStateRunning]);
    (TaskStateRevertPending, []);
    (TaskStateReverted, []) ].

(** [rules[from]]: indexing a Go map with an absent key yields the zero
    value, here the nil slice. *)
Fixpoint map_index (m : list (TaskState * list TaskState)) (k : TaskState)
  : list TaskState :=
  match m with
  | [] => []
  | (k', v) :: m' => if state_eqb k' k then v else map_index m' k
  end.

(** The loop [for _, state := range rules[from]]. *)
Fixpoint range_has (l : list TaskState) (to : TaskState) : bool :=
  match l with
  | [] => false
  | state :: l' => if state_eqb state to then true else range_has l' to
  end.

Definition VerifyTaskStateTransform (from to : TaskState) : bool :=
  if state_eqb from to then true
  else range_has (map_index rules from) to.

(** The table of section 4.1 of the design document, as it is written
    there: the successors of each state, identity left aside. *)
Definition legal_successors (from : TaskState) : list TaskState :=
  match from with
  | TaskStatePending =>
      [TaskStateRunning; TaskStateCancelling; TaskStatePausing;
       TaskStateSucceed; TaskStateFailed]
  | TaskStateRunning =>
      [TaskStateSucceed; TaskStateReverting; TaskStateFailed;
       TaskStateCancelling; TaskStatePausing]
  | TaskStateReverting => [TaskStateReverted]
  | TaskStateCancelling => [TaskStateReverting]
  | TaskStatePausing => [TaskStatePaused]
  | TaskStatePaused => [TaskStateResuming]
  | TaskStateResuming => [TaskStateRunning]
  | TaskStateSucceed | TaskStateFailed | TaskStateReverted
  | TaskStateCanceled | TaskStateRevertFailed | TaskStateRevertPending => []
  end.

Definition legal (from to : TaskState) : Prop :=
  from = to \/ In to (legal_successors from).


(** ** Data *)

(** Go's [error] values.  [errors_New msg] is [errors.New(msg)];
    [errInvalidTransform from to] stands for
    [errors.Errorf("invalid task state transform, from %s to %s", from, to)],
    kept structured because the text of the state constants is not among
    the sources. *)
Inductive error : Set :=
| errors_New (msg : string)
| errInvalidTransform (from to : TaskState).

(** A Go result [(T, error)] whose caller looks at the error first. *)
Inductive result (A : Type) : Type :=
| Ok (a : A)
| Err (e : error).
Arguments Ok {A} a.
Arguments Err {A} e.

Definition bytes : Set := list Byte.byte.

(** Modelled from the spec: [proto.Task], declared in a package that is
    not among the sources.  The fields are those of the data model
    (section 3) under the names the dispatcher uses for them; [Type_] is
    Go's [Type], [Concurrency] a [uint64], [ID] and [Step] are [int64],
    the two times are instants of the wall clock. *)
Record Task : Set := mkTask {
  ID : Z;
  Key : string;
  Type_ : string;
  State : TaskState;
  Step : Z;
  Concurrency : N;
  StartTime : Z;
  StateUpdateTime : Z;
  Meta : bytes;
  Error : option error
}.

Definition set_State (s : TaskState) (t : Task) : Task :=
  mkTask (ID t) (Key t) (Type_ t) s (Step t) (Concurrency t)
         (StartTime t) (StateUpdateTime t) (Meta t) (Error t).
Definition set_Concurrency (c : N) (t : Task) : Task :=
  mkTask (ID t) (Key t) (Type_ t) (State t) (Step t) c
         (StartTime t) (StateUpdateTime t) (Meta t) (Error t).
Definition set_StartTime (x : Z) (t : Task) : Task :=
  mkTask (ID t) (Key t) (Type_ t) (State t) (Step t) (Concurrency t)
         x (StateUpdateTime t) (Meta t) (Error t).
Definition set_StateUpdateTime (x : Z) (t : Task) : Task :=
  mkTask (ID t) (Key t) (Type_ t) (State t) (Step t) (Concurrency t)
         (StartTime t) x (Meta t) (Error t).
Definition set_Error (e : option error) (t : Task) : Task :=
  mkTask (ID t) (Key t) (Type_ t) (State t) (Step t) (Concurrency t)
         (StartTime t) (StateUpdateTime t) (Meta t) e.

(** Modelled from the spec: [proto.Subtask] (section 3).  Its field names
    carry the prefix [Subtask] where [Task] has a field of the same name.
    [SubtaskState] is [None] for Go's zero value, which is what a subtask
    holds until the storage inserts it. *)
Record Subtask : Set := mkSubtask {
  SubtaskID : Z;
  SubtaskStep : Z;
  SubtaskType : string;
  TaskID : Z;
  SubtaskState : option TaskState;
  SchedulerID : string;
  SubtaskMeta : bytes
}.

(** Modelled from the spec: [proto.NewSubtask(taskID, tp, schedulerID, meta)]
    fills the four fields it is given and leaves the others at their zero
    values; identity, step and state are the storage's to assign. *)
Definition NewSubtask (taskID : Z) (tp schedulerID : string) (meta : bytes)
  : Subtask :=
  mkSubtask 0 0 tp taskID None schedulerID meta.

(** [infosync.ServerInfo], with the three fields the dispatcher reads
    ([ServerID] is Go's [ID]). *)
Record ServerInfo : Set := mkServerInfo {
  ServerID : string;
  IP : string;
  Port : N
}.

(** ** Constants of the package *)

Definition DefaultSubtaskConcurrency : N := 16.
Definition MaxSubtaskConcurrency : N := 256.
Definition DefaultLiveNodesCheckInterval : Z := 2.
Definition nonRetrySQLTime : Z := 1.
(** [retrySQLInterval], in milliseconds. *)
Definition retrySQLInterval : Z := 500.

(** ** Storage *)

(** Modelled from the spec: [storage.TaskManager], the two tables of
    section 6.1.  The package is not among the sources. *)
Record TaskManager : Set := mkTaskManager {
  global_task : list Task;
  subtask : list Subtask
}.

(** What the driver does to the world outside it, in the order it does
    it, newest first: every call of the transactional update with its
    three arguments, every count query, every sleep between retries and
    every [OnTick] of the strategy. *)
Inductive Event : Set :=
| EvUpdateGlobalTaskAndAddSubTasks
    (gTask : Task) (subtasks : list Subtask) (prevState : TaskState)
| EvGetSubtaskInStatesCnt (taskID : Z) (states : list TaskState)
| EvSleep (ms : Z)
| EvOnTick (t : Task).

Definition is_update (e : Event) : bool :=
  match e with EvUpdateGlobalTaskAndAddSubTasks _ _ _ => true | _ => false end.

(** The number of times the transactional update was attempted. *)
Definition attempts (tr : list Event) : nat := List.length (filter is_update tr).

Definition errTransient : error := errors_New "transient storage failure".
Definition errPrecondition : error := errors_New "invalid task state transition".

(** Modelled from the spec: what a new subtask row holds once inserted.
    Section 3 has the subtasks of a Running task in Pending, Running,
    Succeed or Failed, and those of a Reverting task in RevertPending,
    Reverting or Reverted, so a fresh row starts in RevertPending when the
    task row written with it is Reverting, and in Pending otherwise; its
    step is the step of the task row, its identity the next free one. *)
Definition fresh_state (gTask : Task) : TaskState :=
  if state_eqb (State gTask) TaskStateReverting
  then TaskStateRevertPending else TaskStatePending.

Fixpoint insert_rows (next : Z) (gTask : Task) (subtasks : list Subtask)
  : list Subtask :=
  match subtasks with
  | [] => []
  | s :: rest =>
      mkSubtask next (Step gTask) (SubtaskType s) (TaskID s)
                (Some (fresh_state gTask)) (SchedulerID s) (SubtaskMeta s)
      :: insert_rows (next + 1) gTask rest
  end.

Definition row_matches (id : Z) (prevState : TaskState) (r : Task) : bool :=
  (ID r =? id) && state_eqb (State r) prevState.

(** Modelled from the spec: the write of [update_task_and_add_subtasks]
    (section 4.3) once the transaction goes through: the rows of the task
    that hold the expected previous state are replaced by the new row, and
    the subtasks are inserted. *)
Definition write_task_and_subtasks
  (gTask : Task) (subtasks : list Subtask) (prevState : TaskState)
  (tm : TaskManager) : TaskManager :=
  mkTaskManager
    (map (fun r => if row_matches (ID gTask) prevState r then gTask else r)
         (global_task tm))
    (subtask tm
     ++ insert_rows (Z.of_nat (List.length (subtask tm)) + 1) gTask subtasks).

Definition in_states (s : option TaskState) (states : list TaskState) : bool :=
  match s with
  | Some st => existsb (state_eqb st) states
  | None => false
  end.

(** Modelled from the spec: [count_subtasks_in_states(task_id, states...)]. *)
Definition count_subtasks_in_states
  (tm : TaskManager) (taskID : Z) (states : list TaskState) : Z :=
  Z.of_nat (List.length
    (filter (fun s => (TaskID s =? taskID) && in_states (SubtaskState s) states)
            (subtask tm))).

(** Modelled from the spec: [get_succeed_subtasks_by_step(task_id, step)]. *)
Definition succeed_subtasks_by_step
  (tm : TaskManager) (taskID step : Z) : list Subtask :=
  filter (fun s => (TaskID s =? taskID) && (SubtaskStep s =? step)
                   && in_states (SubtaskState s) [TaskStateSucceed])
         (subtask tm).

(** The persisted state of a task, when the task table has a row for it. *)
Definition persisted_state (tm : TaskManager) (id : Z) : option TaskState :=
  match find (fun r => ID r =? id) (global_task tm) with
  | Some r => Some (State r)
  | None => None
  end.

(** ** The strategy, the driver and the world *)

Section Driver.

(** The private state of a task-type strategy (the receiver of the
    methods of the Go interface value). *)
Context {Strat : Type}.

(** [TaskHandle], as far as a strategy can read through it. *)
Record TaskHandle : Type := mkTaskHandle {
  handle_GetPreviousSubtaskMetas : Z -> Z -> result (list bytes)
}.

(** Modelled from the spec: the interface [Dispatcher] (section 4.4),
    declared in a file that is not among the sources; the tests implement
    it.  Each method takes and returns the strategy's private state.
    [OnNextStage] receives the task by pointer and may change it (the
    tests set [Step]), so it returns the task; by their contract the other
    methods leave the task as it is. *)
Record Dispatcher : Type := mkDispatcher {
  OnTick : Strat -> Task -> Strat;
  OnNextStage :
    Strat -> TaskHandle -> Task -> Strat * Task * result (list bytes);
  OnErrStage :
    Strat -> TaskHandle -> Task -> list error -> Strat * result bytes;
  GetEligibleInstances : Strat -> Task -> Strat * result (list ServerInfo);
  IsRetryableErr : Strat -> error -> bool
}.

(** Everything outside the driver.  [faults] is the oracle of transient
    storage failures: each storage call takes the head of the list, and
    fails with a retryable error when it is [true]; an exhausted list
    means no further failure.  [clock] is what [time.Now()] reads next. *)
Record World : Type := mkWorld {
  taskMgr : TaskManager;
  faults : list bool;
  trace : list Event;
  clock : Z;
  implState : Strat
}.

Definition set_taskMgr (tm : TaskManager) (w : World) : World :=
  mkWorld tm (faults w) (trace w) (clock w) (implState w).
Definition set_faults (f : list bool) (w : World) : World :=
  mkWorld (taskMgr w) f (trace w) (clock w) (implState w).
Definition set_trace (tr : list Event) (w : World) : World :=
  mkWorld (taskMgr w) (faults w) tr (clock w) (implState w).
Definition set_clock (c : Z) (w : World) : World :=
  mkWorld (taskMgr w) (faults w) (trace w) c (implState w).
Definition set_implState (s : Strat) (w : World) : World :=
  mkWorld (taskMgr w) (faults w) (trace w) (clock w) s.

(** The struct [dispatcher].  [taskMgr] is a pointer to the shared storage
    and lives in the world; the contexts and the random source play no
    part in the methods embedded here.  [impl] is [None] for Go's nil
    interface value. *)
Record dispatcher : Type := mkDispatcherStruct {
  task : Task;
  serverID : string;
  impl : option Dispatcher;
  liveNodes : list ServerInfo;
  liveNodeFetchInterval : Z;
  liveNodeFetchTick : Z;
  taskNodes : list string
}.

Definition set_task (t : Task) (d : dispatcher) : dispatcher :=
  mkDispatcherStruct t (serverID d) (impl d) (liveNodes d)
    (liveNodeFetchInterval d) (liveNodeFetchTick d) (taskNodes d).
Definition set_taskNodes (l : list string) (d : dispatcher) : dispatcher :=
  mkDispatcherStruct (task d) (serverID d) (impl d) (liveNodes d)
    (liveNodeFetchInterval d) (liveNodeFetchTick d) l.

(** *** The monad of the driver's methods *)

(** A method either returns, leaving the driver and the world in some
    state, or panics (a call through the nil interface value). *)
Inductive Outcome (A : Type) : Type :=
| Done (a : A) (d : dispatcher) (w : World)
| Panic.
Arguments Done {A} a d w.
Arguments Panic {A}.

Definition M (A : Type) : Type := dispatcher -> World -> Outcome A.

Definition ret {A : Type} (a : A) : M A := fun d w => Done a d w.

Definition bind {A B : Type} (m : M A) (k : A -> M B) : M B :=
  fun d w =>
    match m d w with
    | Done a d' w' => k a d' w'
    | Panic => Panic
    end.

Notation "x <- m ;; k" := (bind m (fun x => k))
  (at level 61, m at next level, right associativity).
Notation "m ;; k" := (bind m (fun _ => k))
  (at level 61, right associativity).

Definition get_task : M Task := fun d w => Done (task d) d w.
Definition modify_task (f : Task -> Task) : M unit :=
  fun d w => Done tt (set_task (f (task d)) d) w.
Definition put_taskNodes (l : list string) : M unit :=
  fun d w => Done tt (set_taskNodes l d) w.
Definition get_impl : M Dispatcher :=
  fun d w => match impl d with Some i => Done i d w | None => Panic end.
Definition log_event (e : Event) : M unit :=
  fun d w => Done tt d (set_trace (e :: trace w) w).
Definition next_fault : M bool :=
  fun d w =>
    match faults w with
    | [] => Done false d w
    | f :: rest => Done f d (set_faults rest w)
    end.

(** [time.Now().UTC()] and [time.Sleep]. *)
Definition time_Now : M Z :=
  fun d w => Done (clock w) d (set_clock (clock w + 1) w).
Definition time_Sleep (ms : Z) : M unit := log_event (EvSleep ms).

(** *** The storage calls *)

(** Modelled from the spec: [update_task_and_add_subtasks(task,
    new_subtasks, expected_prev_state) -> (retryable, err)] of section
    4.3.  A transient failure is retryable and writes nothing; a persisted
    state other than the expected one is a failure that is not retryable
    and writes nothing; otherwise the task row and the subtasks are
    written in one transaction. *)
Definition UpdateGlobalTaskAndAddSubTasks
  (gTask : Task) (subtasks : list Subtask) (prevState : TaskState)
  : M (bool * option error) :=
  log_event (EvUpdateGlobalTaskAndAddSubTasks gTask subtasks prevState) ;;
  f <- next_fault ;;
  if (f : bool) then ret (true, Some errTransient)
  else fun d w =>
    if existsb (row_matches (ID gTask) prevState) (global_task (taskMgr w))
    then Done (true, None) d
           (set_taskMgr
              (write_task_and_subtasks gTask subtasks prevState (taskMgr w)) w)
    else Done (false, Some errPrecondition) d w.

(** Modelled from the spec: [count_subtasks_in_states], which may fail
    like any storage call. *)
Definition GetSubtaskInStatesCnt (taskID : Z) (states : list TaskState)
  : M (result Z) :=
  log_event (EvGetSubtaskInStatesCnt taskID states) ;;
  f <- next_fault ;;
  if (f : bool) then ret (Err errTransient)
  else fun d w => Done (Ok (count_subtasks_in_states (taskMgr w) taskID states)) d w.

(** Modelled from the spec: [get_succeed_subtasks_by_step], as a call. *)
Definition GetSucceedSubtasksByStep (taskID step : Z)
  : M (result (list Subtask)) :=
  f <- next_fault ;;
  if (f : bool) then ret (Err errTransient)
  else fun d w => Done (Ok (succeed_subtasks_by_step (taskMgr w) taskID step)) d w.

(** *** What the package takes from elsewhere *)

(** [GetTaskDispatcher]: the registry of strategies by task type, kept by
    the manager; nil for a type that was never registered. *)
Variable GetTaskDispatcher : string -> option Dispatcher.

(** [disttaskutil.GenerateExecID(ip, port)]: the canonical [ip:port] form. *)
Variable GenerateExecID : string -> N -> string.

(** [retrySQLTimes], a package variable whose initial value,
    [variable.DefTiDBDDLErrorCountLimit], is declared outside the
    sources. *)
Variable retrySQLTimes : Z.

(** *** Methods of [*dispatcher] *)

Definition GetPreviousSubtaskMetas (taskID step : Z)
  : M (result (list bytes)) :=
  r <- GetSucceedSubtasksByStep taskID step ;;
  match r with
  | Err err => ret (Err err)
  | Ok previousSubtasks => ret (Ok (map SubtaskMeta previousSubtasks))
  end.

(** The driver as the handle a strategy is given: the strategy reads the
    storage as it is at the time of the call. *)
Definition as_handle (d : dispatcher) (w : World) : TaskHandle :=
  mkTaskHandle (fun taskID step =>
    match GetPreviousSubtaskMetas taskID step d w with
    | Done r _ _ => r
    | Panic => Err errTransient
    end).

Definition isNil (e : option error) : bool :=
  match e with None => true | Some _ => false end.

(** The loop of [updateTask], [n] iterations from its end; [err] is the
    named result as the previous iteration left it. *)
Fixpoint updateTask_loop (n : nat) (newSubTasks : list Subtask)
  (prevState : TaskState) (err : option error) : M (option error) :=
  match n with
  | O => ret err
  | S n' =>
      t <- get_task ;;
      r <- UpdateGlobalTaskAndAddSubTasks t newSubTasks prevState ;;
      let '(retryable, err') := r in
      if isNil err' || negb retryable then ret err'
      else time_Sleep retrySQLInterval ;;
           updateTask_loop n' newSubTasks prevState err'
  end.

Definition updateTask (taskState : TaskState) (newSubTasks : list Subtask)
  (retryTimes : Z) : M (option error) :=
  t <- get_task ;;
  let prevState := State t in
  modify_task (set_State taskState) ;;
  if negb (VerifyTaskStateTransform prevState taskState)
  then ret (Some (errInvalidTransform prevState taskState))
  else updateTask_loop (Z.to_nat retryTimes) newSubTasks prevState None.

Definition newDispatcher (serverID : string) (task : Task)
  : World -> Outcome (option dispatcher * option error) :=
  let impl := GetTaskDispatcher (Type_ task) in
  let dsp :=
    mkDispatcherStruct task serverID impl [] DefaultLiveNodesCheckInterval 0 []
  in
  match impl with
  | None =>
      (modify_task (set_Error (Some (errors_New "unsupported task type"))) ;;
       err <- updateTask TaskStateFailed [] retrySQLTimes ;;
       ret (None, err)) dsp
  | Some _ => ret (Some dsp, None) dsp
  end.

Definition call_OnTick : M unit :=
  i <- get_impl ;;
  fun d w =>
    Done tt d
      (set_implState (OnTick i (implState w) (task d))
         (set_trace (EvOnTick (task d) :: trace w) w)).

Definition call_OnNextStage : M (result (list bytes)) :=
  i <- get_impl ;;
  fun d w =>
    let '(s', t', r) := OnNextStage i (implState w) (as_handle d w) (task d) in
    Done r (set_task t' d) (set_implState s' w).

Definition call_GetEligibleInstances : M (result (list ServerInfo)) :=
  i <- get_impl ;;
  fun d w =>
    let '(s', r) := GetEligibleInstances i (implState w) (task d) in
    Done r d (set_implState s' w).

Definition call_IsRetryableErr (err : error) : M bool :=
  i <- get_impl ;;
  fun d w => Done (IsRetryableErr i (implState w) err) d w.

Definition onReverting : M (option error) :=
  t <- get_task ;;
  r <- GetSubtaskInStatesCnt (ID t)
         [TaskStateRevertPending; TaskStateReverting] ;;
  match r with
  | Err err => ret (Some err)
  | Ok cnt =>
      let prevStageFinished := cnt =? 0 in
      if prevStageFinished
      then updateTask TaskStateReverted [] retrySQLTimes
      else call_OnTick ;; ret None
  end.

Definition zeroServerInfo : ServerInfo := mkServerInfo "" "" 0.

(** The loop [for i, meta := range metas] of [dispatchSubTask], from
    index [i] on.  [serverNodes[pos]] is within bounds whenever the slice
    is not empty, which the caller has checked. *)
Fixpoint assign_subTasks (t : Task) (serverNodes : list ServerInfo)
  (i : nat) (metas : list bytes) : list Subtask :=
  match metas with
  | [] => []
  | meta :: rest =>
      let pos := (i mod List.length serverNodes)%nat in
      let n := nth pos serverNodes zeroServerInfo in
      let instanceID := GenerateExecID (IP n) (Port n) in
      NewSubtask (ID t) (Type_ t) instanceID meta
      :: assign_subTasks t serverNodes (S i) rest
  end.

(** [dispatchSubTask(task, metas)]; its only caller passes [d.task], so
    [task] and [d.task] are the same object.  [dispatch_prepare] is its
    steps 1 and 2 (the concurrency, and the special handling of a new
    task), which leave the retry count in [retryTimes]. *)
Definition dispatch_prepare : M Z :=
  t0 <- get_task ;;
  (if (Concurrency t0 =? 0)%N
   then modify_task (set_Concurrency DefaultSubtaskConcurrency)
   else ret tt) ;;
  t1 <- get_task ;;
  (if (MaxSubtaskConcurrency <? Concurrency t1)%N
   then modify_task (set_Concurrency MaxSubtaskConcurrency)
   else ret tt) ;;
  t2 <- get_task ;;
  if state_eqb (State t2) TaskStatePending
  then nowTime <- time_Now ;;
       modify_task (set_StartTime nowTime) ;;
       modify_task (set_StateUpdateTime nowTime) ;;
       ret nonRetrySQLTime
  else ret retrySQLTimes.

Definition dispatchSubTask (metas : list bytes) : M (option error) :=
  retryTimes <- dispatch_prepare ;;
  match metas with
  | [] =>
      now <- time_Now ;;
      modify_task (set_StateUpdateTime now) ;;
      updateTask TaskStateSucceed [] retryTimes
  | _ :: _ =>
      r <- call_GetEligibleInstances ;;
      match r with
      | Err err => ret (Some err)
      | Ok serverNodes =>
          match serverNodes with
          | [] => ret (Some (errors_New
                               "no available TiDB node to dispatch subtasks"))
          | _ :: _ =>
              put_taskNodes
                (map (fun n => GenerateExecID (IP n) (Port n)) serverNodes) ;;
              t <- get_task ;;
              let subTasks := assign_subTasks t serverNodes 0 metas in
              updateTask TaskStateRunning subTasks retrySQLTimes
          end
      end
  end.

Definition handlePlanErr (err : error) : M (option error) :=
  retryable <- call_IsRetryableErr err ;;
  if (retryable : bool) then ret (Some err)
  else modify_task (set_Error (Some err)) ;;
       updateTask TaskStateFailed [] retrySQLTimes.

Definition onNextStage : M (option error) :=
  r <- call_OnNextStage ;;
  match r with
  | Err err => handlePlanErr err
  | Ok metas => dispatchSubTask metas
  end.

Definition onPending : M (option error) := onNextStage.

(** *** Vocabulary of the properties *)

(** What every event of a persist is: an attempt with the same three
    arguments, or the sleep between two attempts. *)
Definition persist_event (gTask : Task) (subtasks : list Subtask)
  (prevState : TaskState) (e : Event) : Prop :=
  e = EvUpdateGlobalTaskAndAddSubTasks gTask subtasks prevState
  \/ e = EvSleep retrySQLInterval.

(** Step 1 of [dispatchSubTask] on the task. *)
Definition adjusted (t : Task) : Task :=
  let t1 := if (Concurrency t =? 0)%N
            then set_Concurrency DefaultSubtaskConcurrency t else t in
  if (MaxSubtaskConcurrency <? Concurrency t1)%N
  then set_Concurrency MaxSubtaskConcurrency t1 else t1.

(** Steps 1 and 2 on the task, [nowTime] being the reading of the clock. *)
Definition prepared (nowTime : Z) (t : Task) : Task :=
  if state_eqb (State t) TaskStatePending
  then set_StateUpdateTime nowTime (set_StartTime nowTime (adjusted t))
  else adjusted t.

(** The world after step 2: a Pending task costs one reading of the clock. *)
Definition after_prepare (t : Task) (w : World) : World :=
  if state_eqb (State t) TaskStatePending
  then set_clock (clock w + 1) w else w.

Definition execIDs (serverNodes : list ServerInfo) : list string :=
  map (fun n => GenerateExecID (IP n) (Port n)) serverNodes.

(** The number of indices below [N] that the round-robin sends to the
    node at position [j] of [K] nodes. *)
Definition assigned_to (K N j : nat) : nat :=
  List.length (filter (fun k => (k mod K =? j)%nat) (seq 0 N)).

(** The number of subtasks whose scheduler is [id]. *)
Definition subtasks_on (id : string) (subTasks : list Subtask) : nat :=
  count_occ string_dec (map SchedulerID subTasks) id.

End Driver.

Arguments Dispatcher Strat : clear implicits.
Arguments World Strat : clear implicits.
Arguments dispatcher Strat : clear implicits.
Arguments Outcome Strat A : clear implicits.
Arguments M Strat A : clear implicits.
Arguments Done {Strat A} a d w.
Arguments Panic {Strat A}.

(** * The tests' strategies and concrete inputs *)

Module disttaskutil.

Fixpoint has_colon (s : string) : bool :=
  match s with
  | EmptyString => false
  | String c s' => Ascii.eqb c ":" || has_colon s'
  end.

(** Modelled from the spec: [disttaskutil.GenerateExecID], the canonical
    [ip:port] form with an IPv6 address wrapped in brackets (section 4.2). *)
Definition GenerateExecID (ip : string) (port : N) : string :=
  let p := NilZero.string_of_uint (N.to_uint port) in
  if has_colon ip then ("[" ++ ip ++ "]:" ++ p)%string
  else (ip ++ ":" ++ p)%string.

End disttaskutil.

(** [variable.DefTiDBDDLErrorCountLimit], the initial value of
    [retrySQLTimes]: declared outside the sources, 512 upstream.  The
    theorems hold for every retry count; the value only serves to run the
    code. *)
Definition DefTiDBDDLErrorCountLimit : Z := 512.

(** [proto.StepInit], [proto.StepOne] and [proto.StepTwo], declared
    outside the sources; the strategies only tell them apart. *)
Definition StepInit : Z := -1.
Definition StepOne : Z := 1.
Definition StepTwo : Z := 2.

Definition set_Step (x : Z) (t : Task) : Task :=
  mkTask (ID t) (Key t) (Type_ t) (State t) x (Concurrency t)
         (StartTime t) (StateUpdateTime t) (Meta t) (Error t).

(** [GenerateSchedulerNodes], on the membership it reads: every live
    server, or an error when there is none. *)
Definition GenerateSchedulerNodes (serverInfos : list ServerInfo)
  : result (list ServerInfo) :=
  match serverInfos with
  | [] => Err (errors_New "not found instance")
  | _ :: _ => Ok serverInfos
  end.

(** [testDispatcher] of dispatcher_test.go; its state is the test's
    variable [mockedAllServerInfos]. *)
Definition testDispatcher : Dispatcher (list ServerInfo) :=
  mkDispatcher
    (fun s _ => s)
    (fun s _ t => (s, t, Ok []))
    (fun s _ _ _ => (s, Ok []))
    (fun s _ => (s, Ok s))
    (fun _ _ => true).

Definition subtaskCnt : nat := 3.

(** [numberExampleDispatcher] of dispatcher_test.go; its state is the
    membership [GenerateSchedulerNodes] reads. *)
Definition numberExampleDispatcher : Dispatcher (list ServerInfo) :=
  mkDispatcher
    (fun s _ => s)
    (fun s _ t =>
       let t := if state_eqb (State t) TaskStatePending
                then set_Step StepInit t else t in
       if Step t =? StepInit
       then (s, set_Step StepOne t, Ok (repeat [Byte.x31] subtaskCnt))
       else if Step t =? StepOne then (s, t, Ok [])
       else (s, t, Err (errors_New "unknown step")))
    (fun s _ _ _ => (s, Ok []))
    (fun s _ => (s, GenerateSchedulerNodes s))
    (fun _ _ => true).

(** The two servers of [TestGetInstance]. *)
Definition mockedAllServerInfos : list ServerInfo :=
  [ mkServerInfo "ddl_id_1" "10.123.124.10" 32457;
    mkServerInfo "ddl_id_2" "ABCD:EF01:2345:6789:ABCD:EF01:2345:6789" 65535 ].

(** Modelled from the spec: [generateSchedulerNodes4Test], a helper of the
    framework tests that is not among the sources; the scenarios of
    section 8 run on two eligible nodes. *)
Definition generateSchedulerNodes4Test : result (list ServerInfo) :=
  Ok mockedAllServerInfos.

(** [planErrDispatcher] of the framework tests; its state is [callTime]. *)
Definition planErrDispatcher : Dispatcher nat :=
  mkDispatcher
    (fun callTime _ => callTime)
    (fun callTime _ gTask =>
       if state_eqb (State gTask) TaskStatePending then
         if (callTime =? 0)%nat
         then (S callTime, gTask, Err (errors_New "retryable err"))
         else (callTime, set_Step StepOne gTask,
               Ok (map list_byte_of_string ["task1"; "task2"; "task3"]))
       else if Step gTask =? StepOne
       then (callTime, set_Step StepTwo gTask,
             Ok [list_byte_of_string "task4"])
       else (callTime, gTask, Ok []))
    (fun callTime _ _ _ =>
       if (callTime =? 1)%nat
       then (S callTime, Err (errors_New "not retryable err"))
       else (callTime, Ok (list_byte_of_string "planErrTask")))
    (fun callTime _ => (callTime, generateSchedulerNodes4Test))
    (fun _ _ => true).

(** [planNotRetryableErrDispatcher] of the framework tests. *)
Definition planNotRetryableErrDispatcher : Dispatcher unit :=
  mkDispatcher
    (fun s _ => s)
    (fun s _ gTask => (s, gTask, Err (errors_New "not retryable err")))
    (fun s _ _ _ => (s, Err (errors_New "not retryable err")))
    (fun s _ => (s, generateSchedulerNodes4Test))
    (fun _ _ => false).

(** A task as [AddNewGlobalTask(key, type, 0, nil)] leaves it, in a state. *)
Definition a_task (id : Z) (tp : string) (st : TaskState) : Task :=
  mkTask id "key1" tp st StepInit 0 0 0 [] None.

(** A driver of the task, as [newDispatcher] builds it. *)
Definition a_driver {Strat : Type} (i : Dispatcher Strat) (t : Task)
  : dispatcher Strat :=
  mkDispatcherStruct t "host:port" (Some i) []
    DefaultLiveNodesCheckInterval 0 [].

(** A world whose task table holds the rows [rows]. *)
Definition a_world {Strat : Type} (s : Strat) (rows : list Task)
  (subtasks : list Subtask) (fs : list bool) : World Strat :=
  mkWorld (mkTaskManager rows subtasks) fs [] 0 s.

(** The number of attempts of the transactional update a run has made. *)
Definition attempts_of {Strat A : Type} (o : Outcome Strat A) : nat :=
  match o with
  | Done _ _ w => attempts (trace w)
  | Panic => 0
  end.

(** The result a run returns. *)
Definition returned {Strat A : Type} (o : Outcome Strat A) : option A :=
  match o with
  | Done a _ _ => Some a
  | Panic => None
  end.

(** The storage a run leaves. *)
Definition storage_of {Strat A : Type} (o : Outcome Strat A)
  : option TaskManager :=
  match o with
  | Done _ _ w => Some (taskMgr w)
  | Panic => None
  end.

(** The cases of [TestVerifyTaskStateTransform]. *)
Definition testCases : list (TaskState * TaskState * bool) :=
  [ (TaskStateRunning, TaskStateRunning, true);
    (TaskStatePending, TaskStateRunning, true);
    (TaskStatePending, TaskStateReverting, false);
    (TaskStateRunning, TaskStateReverting, true);
    (TaskStateReverting, TaskStateReverted, true);
    (TaskStateReverting, TaskStateSucceed, false);
    (TaskStateRunning, TaskStatePausing, true);
    (TaskStateRunning, TaskStateResuming, false);
    (TaskStateCancelling, TaskStateRunning, false);
    (TaskStateCanceled, TaskStateRunning, false) ].

(** ** Concrete inputs *)

Definition taskTypeExample : string := "task_example".

(** The registry after [RegisterTaskDispatcher(taskTypeExample,
    &numberExampleDispatcher{})]. *)
Definition registry (tp : string) : option (Dispatcher (list ServerInfo)) :=
  if String.eqb tp taskTypeExample then Some numberExampleDispatcher else None.

Definition pendingTask : Task := a_task 1 taskTypeExample TaskStatePending.
Definition revertingTask : Task := a_task 1 taskTypeExample TaskStateReverting.
Definition unknownTask : Task := a_task 1 "unknown" TaskStatePending.

(** A storage that holds the task and no subtask, and never fails. *)
Definition healthy {Strat : Type} (s : Strat) (t : Task) : World Strat :=
  a_world s [t] [] [].

(** A storage that holds the task and fails transiently on each of its
    next [n] calls. *)
Definition failing {Strat : Type} (s : Strat) (t : Task) (n : nat)
  : World Strat :=
  a_world s [t] [] (repeat true n).

(** The construction of a driver for a task of an unregistered type, on a
    storage that fails transiently on each of its next 512 calls. *)
Definition unsupported_run
  : Outcome (list ServerInfo)
      (option (dispatcher (list ServerInfo)) * option error) :=
  newDispatcher registry DefTiDBDDLErrorCountLimit "host:port" unknownTask
    (failing [] unknownTask 512).

(** * The rest of the driver: rollback, the Running state, liveness *)

(** Modelled from the spec: [disttaskutil.MatchServerInfo], true iff the
    ID is the canonical [ip:port] of one of the servers (section 4.2).
    The canonical form is the one [GenerateExecID] gives. *)
Definition MatchServerInfo (GenerateExecID : string -> N -> string)
  (serverInfos : list ServerInfo) (schedulerID : string) : bool :=
  existsb (fun serverInfo =>
             String.eqb (GenerateExecID (IP serverInfo) (Port serverInfo))
                        schedulerID)
          serverInfos.

(** Modelled from the spec: [scheduler_ids_for_task(task_id)] of section
    4.3, the node IDs present on the subtask rows of the task, each
    once. *)
Definition scheduler_ids_for_task (tm : TaskManager) (taskID : Z)
  : list string :=
  nodup string_dec
    (map SchedulerID (filter (fun s => TaskID s =? taskID) (subtask tm))).

(** A Go [map[string]string] as the list of its entries, one per key.
    [map_set] is the assignment [m[k] = v]. *)
Definition gomap : Set := list (string * string).

Fixpoint map_set (k v : string) (m : gomap) : gomap :=
  match m with
  | [] => [(k, v)]
  | (k', v') :: m' =>
      if String.eqb k' k then (k, v) :: m' else (k', v') :: map_set k v m'
  end.

(** The loop [for m, n := range d.taskNodes] with its [break]: the first
    entry equal to [k] becomes [v]. *)
Fixpoint replace_first (k v : string) (taskNodes : list string)
  : list string :=
  match taskNodes with
  | [] => []
  | n :: rest =>
      if String.eqb n k then v :: rest else n :: replace_first k v rest
  end.

(** Go's [int], 64 bits wide: the value an arithmetic result wraps to. *)
Definition wrap_int (z : Z) : Z := (z + 2 ^ 63) mod 2 ^ 64 - 2 ^ 63.

Definition is_sleep (e : Event) : bool :=
  match e with EvSleep _ => true | _ => false end.

(** The number of sleeps between retries. *)
Definition sleeps (tr : list Event) : nat := List.length (filter is_sleep tr).

Definition is_on_tick (e : Event) : bool :=
  match e with EvOnTick _ => true | _ => false end.

(** The number of calls of [OnTick]. *)
Definition ticks (tr : list Event) : nat := List.length (filter is_on_tick tr).


(** The count of the subtasks of a task in some states, over rows. *)
Definition count_rows (taskID : Z) (states : list TaskState)
  (rows : list Subtask) : Z :=
  Z.of_nat (List.length
    (filter (fun s => (TaskID s =? taskID) && in_states (SubtaskState s) states)
            rows)).

(** The revert subtasks of [dispatchSubTask4Revert]. *)
Definition revert_subTasks (t : Task) (meta : bytes) (ids : list string)
  : list Subtask :=
  map (fun id => NewSubtask (ID t) (Type_ t) id meta) ids.

(** *** Histories of a task *)

Definition all_states : list TaskState :=
  [TaskStatePending; TaskStateRunning; TaskStateSucceed; TaskStateReverting;
   TaskStateFailed; TaskStateRevertFailed; TaskStateCancelling;
   TaskStateCanceled; TaskStatePausing; TaskStatePaused; TaskStateResuming;
   TaskStateRevertPending; TaskStateReverted].

(** [reachable a b]: a history of transitions, each accepted by
    [VerifyTaskStateTransform], leads from [a] to [b]. *)
Inductive reachable : TaskState -> TaskState -> Prop :=
| reach_refl (s : TaskState) : reachable s s
| reach_step (a b c : TaskState) :
    reachable a b -> VerifyTaskStateTransform b c = true -> reachable a c.

Definition successors (s : TaskState) : list TaskState :=
  filter (VerifyTaskStateTransform s) all_states.

(** The states some history of at most [n] transitions leads to. *)
Fixpoint reach_set (n : nat) (a : TaskState) : list TaskState :=
  match n with
  | O => [a]
  | S n' =>
      let l := reach_set n' a in
      nodup TaskState_eq_dec (l ++ flat_map successors l)
  end.

Definition reachb (a b : TaskState) : bool :=
  existsb (state_eqb b) (reach_set (List.length all_states) a).

Section Rollback.

Context {Strat : Type}.

Notation "x <- m ;; k" := (bind m (fun x => k))
  (at level 61, m at next level, right associativity).
Notation "m ;; k" := (bind m (fun _ => k))
  (at level 61, right associativity).

Variable GenerateExecID : string -> N -> string.
Variable retrySQLTimes : Z.

(** The error column of the subtask table is not part of the storage
    model: what [collect_subtask_errors(task_id)] reads off a storage is
    a parameter. *)
Variable collect_subtask_errors : TaskManager -> Z -> list error.

(** What [update_failed_scheduler_ids(task_id, map)] writes is a
    parameter as well: the spec gives its signature only. *)
Variable update_failed_scheduler_ids :
  Z -> gomap -> TaskManager -> TaskManager.

(** What the membership source answers during the call at hand:
    [infosync.GetAllServerInfo], the values of its map in the order the
    iteration visits them. *)
Variable GetAllServerInfo : result (list ServerInfo).

(** The draws of [d.rand.Int()] during the call at hand, in order. *)
Variable rand_Int : nat -> nat.

(** The order in which [range] visits the entries of a map. *)
Variable range_order : gomap -> gomap.

Definition get_driver : M Strat (dispatcher Strat) := fun d w => Done d d w.

Definition set_liveNodes (l : list ServerInfo) (d : dispatcher Strat)
  : dispatcher Strat :=
  mkDispatcherStruct (task d) (serverID d) (impl d) l
    (liveNodeFetchInterval d) (liveNodeFetchTick d) (taskNodes d).
Definition set_liveNodeFetchTick (n : Z) (d : dispatcher Strat)
  : dispatcher Strat :=
  mkDispatcherStruct (task d) (serverID d) (impl d) (liveNodes d)
    (liveNodeFetchInterval d) n (taskNodes d).
Definition modify_driver (f : dispatcher Strat -> dispatcher Strat)
  : M Strat unit :=
  fun d w => Done tt (f d) w.

(** *** More storage calls *)

(** Modelled from the spec: [scheduler_ids_for_task], as a call. *)
Definition GetSchedulerIDsByTaskID (taskID : Z)
  : M Strat (result (list string)) :=
  f <- next_fault ;;
  if (f : bool) then ret (Err errTransient)
  else fun d w => Done (Ok (scheduler_ids_for_task (taskMgr w) taskID)) d w.

(** Modelled from the spec: [collect_subtask_errors], as a call. *)
Definition CollectSubTaskError (taskID : Z) : M Strat (result (list error)) :=
  f <- next_fault ;;
  if (f : bool) then ret (Err errTransient)
  else fun d w => Done (Ok (collect_subtask_errors (taskMgr w) taskID)) d w.

(** Modelled from the spec: [update_failed_scheduler_ids], as a call. *)
Definition UpdateFailedSchedulerIDs (taskID : Z) (replaceNodes : gomap)
  : M Strat (option error) :=
  f <- next_fault ;;
  if (f : bool) then ret (Some errTransient)
  else fun d w =>
    Done None d
      (set_taskMgr
         (update_failed_scheduler_ids taskID replaceNodes (taskMgr w)) w).

(** *** Rollback *)

Definition call_OnErrStage (receiveErr : list error) : M Strat (result bytes) :=
  i <- get_impl ;;
  fun d w =>
    let '(s', r) :=
      OnErrStage i (implState w) (as_handle d w) (task d) receiveErr in
    Done r d (set_implState s' w).

(** [d.impl.GetEligibleInstances(ctx, task)] for a task the caller names. *)
Definition call_GetEligibleInstances_of (t : Task)
  : M Strat (result (list ServerInfo)) :=
  i <- get_impl ;;
  fun d w =>
    let '(s', r) := GetEligibleInstances i (implState w) t in
    Done r d (set_implState s' w).

Definition GetAllSchedulerIDs (t : Task) : M Strat (result (list string)) :=
  r <- call_GetEligibleInstances_of t ;;
  match r with
  | Err err => ret (Err err)
  | Ok serverInfos =>
      match serverInfos with
      | [] => ret (Ok [])
      | _ :: _ =>
          r2 <- GetSchedulerIDsByTaskID (ID t) ;;
          match r2 with
          | Err err => ret (Err err)
          | Ok schedulerIDs =>
              ret (Ok (filter (MatchServerInfo GenerateExecID serverInfos)
                              schedulerIDs))
          end
      end
  end.

Definition dispatchSubTask4Revert (t : Task) (meta : bytes)
  : M Strat (option error) :=
  r <- GetAllSchedulerIDs t ;;
  match r with
  | Err err => ret (Some err)
  | Ok instanceIDs =>
      let subTasks :=
        map (fun id => NewSubtask (ID t) (Type_ t) id meta) instanceIDs in
      updateTask TaskStateReverting subTasks retrySQLTimes
  end.

Definition onErrHandlingStage (receiveErr : list error)
  : M Strat (option error) :=
  r <- call_OnErrStage receiveErr ;;
  match r with
  | Err err => ret (Some err)
  | Ok meta =>
      t <- get_task ;;
      dispatchSubTask4Revert t meta
  end.

Definition onCancelling : M Strat (option error) :=
  let errs := [errors_New "cancel"] in
  onErrHandlingStage errs.

(** *** Liveness *)

(** [GenerateSchedulerNodes(ctx)] on the answer of the membership source. *)
Definition call_GenerateSchedulerNodes : result (list ServerInfo) :=
  match GetAllServerInfo with
  | Err err => Err err
  | Ok serverInfos => GenerateSchedulerNodes serverInfos
  end.

(** The refresh of [d.liveNodes]: the servers whose [ID] is the [ID] of an
    eligible instance, in the order of the membership. *)
Definition eligible_live (serverInfos eligibleServerInfos : list ServerInfo)
  : list ServerInfo :=
  filter (fun m =>
            existsb (fun n => String.eqb (ServerID m) (ServerID n))
                    eligibleServerInfos)
         serverInfos.

(** The loop [for _, nodeID := range d.taskNodes] that fills
    [replaceNodes]; [k] counts the draws made so far. *)
Fixpoint collect_replaceNodes (live : list ServerInfo) (k : nat)
  (taskNodes : list string) (replaceNodes : gomap) : gomap :=
  match taskNodes with
  | [] => replaceNodes
  | nodeID :: rest =>
      if MatchServerInfo GenerateExecID live nodeID
      then collect_replaceNodes live k rest replaceNodes
      else
        let n := nth (rand_Int k mod List.length live) live zeroServerInfo in
        collect_replaceNodes live (S k) rest
          (map_set nodeID (GenerateExecID (IP n) (Port n)) replaceNodes)
  end.

(** The loop [for k, v := range replaceNodes] over the local cache. *)
Definition replace_local (replaceNodes : gomap) (taskNodes : list string)
  : list string :=
  fold_left (fun tn kv => replace_first (fst kv) (snd kv) tn)
            (range_order replaceNodes) taskNodes.

Definition replaceDeadNodesIfAny : M Strat (option error) :=
  d0 <- get_driver ;;
  match taskNodes d0 with
  | [] =>
      ret (Some (errors_New
        "len(d.taskNodes) == 0, onNextStage is not invoked before onRunning"))
  | _ :: _ =>
      modify_driver
        (fun d => set_liveNodeFetchTick (wrap_int (liveNodeFetchTick d + 1)) d) ;;
      d1 <- get_driver ;;
      e <-
        (if liveNodeFetchTick d1 =? liveNodeFetchInterval d1
         then
           modify_driver (set_liveNodeFetchTick 0) ;;
           match call_GenerateSchedulerNodes with
           | Err err => ret (Some err)
           | Ok serverInfos =>
               r <- call_GetEligibleInstances ;;
               match r with
               | Err err => ret (Some err)
               | Ok eligibleServerInfos =>
                   modify_driver
                     (set_liveNodes
                        (eligible_live serverInfos eligibleServerInfos)) ;;
                   ret None
               end
           end
         else ret None) ;;
      match e with
      | Some err => ret (Some err)
      | None =>
          d2 <- get_driver ;;
          match liveNodes d2 with
          | [] => ret None
          | _ :: _ =>
              let replaceNodes :=
                collect_replaceNodes (liveNodes d2) 0 (taskNodes d2) [] in
              e2 <- UpdateFailedSchedulerIDs (ID (task d2)) replaceNodes ;;
              match e2 with
              | Some err => ret (Some err)
              | None =>
                  put_taskNodes (replace_local replaceNodes (taskNodes d2)) ;;
                  ret None
              end
          end
      end
  end.

(** *** The Running state *)

Definition onRunning : M Strat (option error) :=
  t <- get_task ;;
  r <- CollectSubTaskError (ID t) ;;
  match r with
  | Err err => ret (Some err)
  | Ok subTaskErrs =>
      match subTaskErrs with
      | _ :: _ => onErrHandlingStage subTaskErrs
      | [] =>
          r2 <- GetSubtaskInStatesCnt (ID t)
                  [TaskStatePending; TaskStateRunning] ;;
          match r2 with
          | Err err => ret (Some err)
          | Ok cnt =>
              let prevStageFinished := cnt =? 0 in
              if prevStageFinished
              then onNextStage GenerateExecID retrySQLTimes
              else
                e <- replaceDeadNodesIfAny ;;
                match e with
                | Some err => ret (Some err)
                | None => call_OnTick ;; ret None
                end
          end
      end
  end.

(** *** Vocabulary of the further properties *)

(** The second half of [replaceDeadNodesIfAny], from [if len(d.liveNodes)
    > 0] on, as one step on the driver and the world. *)
Definition replace_step (d2 : dispatcher Strat) (w2 : World Strat)
  : Outcome Strat (option error) :=
  match liveNodes d2 with
  | [] => Done None d2 w2
  | _ :: _ =>
      let replaceNodes :=
        collect_replaceNodes (liveNodes d2) 0 (taskNodes d2) [] in
      let w3 := set_faults (tl (faults w2)) w2 in
      if hd false (faults w2) then Done (Some errTransient) d2 w3
      else
        Done None
          (set_taskNodes (replace_local replaceNodes (taskNodes d2)) d2)
          (set_taskMgr
             (update_failed_scheduler_ids (ID (task d2)) replaceNodes
                (taskMgr w2)) w3)
  end.

End Rollback.


(** [range] over a map visits exactly the entries of the map, in an order
    the language does not fix. *)
Definition visits_the_entries (order : gomap -> gomap) : Prop :=
  forall m kv, In kv (order m) <-> In kv m.

(** The error of [replaceDeadNodesIfAny] on a driver without task nodes. *)
Definition errNoTaskNodes : error :=
  errors_New
    "len(d.taskNodes) == 0, onNextStage is not invoked before onRunning".

(** ** Concrete inputs of the further properties *)

Definition runningTask : Task := a_task 1 taskTypeExample TaskStateRunning.
Definition cancellingTask : Task :=
  a_task 1 taskTypeExample TaskStateCancelling.

(** A subtask table whose rows report no error. *)
Definition no_subtask_errors (tm : TaskManager) (taskID : Z) : list error :=
  [].

(** A storage that moves the subtask rows of the task from an old node to
    its replacement. *)
Definition move_subtasks (taskID : Z) (replaceNodes : gomap)
  (tm : TaskManager) : TaskManager :=
  mkTaskManager (global_task tm)
    (map (fun s =>
            if TaskID s =? taskID then
              match find (fun kv => String.eqb (fst kv) (SchedulerID s))
                         replaceNodes with
              | Some kv =>
                  mkSubtask (SubtaskID s) (SubtaskStep s) (SubtaskType s)
                    (TaskID s) (SubtaskState s) (snd kv) (SubtaskMeta s)
              | None => s
              end
            else s)
         (subtask tm)).

(** Two Pending subtasks of task 1, one on each server of
    [TestGetInstance]. *)
Definition in_flight_rows : list Subtask :=
  [ mkSubtask 1 StepInit taskTypeExample 1 (Some TaskStatePending)
      "10.123.124.10:32457" [Byte.x31];
    mkSubtask 2 StepInit taskTypeExample 1 (Some TaskStatePending)
      "[ABCD:EF01:2345:6789:ABCD:EF01:2345:6789]:65535" [Byte.x31] ].

(** A storage that holds the task with these two subtasks and never
    fails, in a cluster of the two servers. *)
Definition in_flight (t : Task) : World (list ServerInfo) :=
  a_world mockedAllServerInfos [t] in_flight_rows [].

(** A driver of the Running task whose stage went to both servers and
    that has since seen the first of them leave. *)
Definition running_driver : dispatcher (list ServerInfo) :=
  mkDispatcherStruct runningTask "host:port" (Some numberExampleDispatcher)
    (tl mockedAllServerInfos) DefaultLiveNodesCheckInterval 0
    (execIDs disttaskutil.GenerateExecID mockedAllServerInfos).

(** A [range] that visits the entries in the order of their insertion. *)
Definition in_insertion_order (m : gomap) : gomap := m.

(** A membership that lists the server at 10.0.0.1:4000 under two IDs. *)
Definition reregistered : list ServerInfo :=
  [ mkServerInfo "ddl_id_1" "10.0.0.1" 4000;
    mkServerInfo "ddl_id_2" "10.0.0.2" 4000;
    mkServerInfo "ddl_id_3" "10.0.0.1" 4000 ].
(** * Properties *)

Section Properties.

Context {Strat : Type}.
Variable GetTaskDispatcher : string -> option (Dispatcher Strat).
Variable GenerateExecID : string -> N -> string.
Variable retrySQLTimes : Z.

(** ** The state-transition rules *)

Lemma state_eqb_eq (a b : TaskState) : state_eqb a b = true <-> a = b.
Proof.
  unfold state_eqb. destruct (TaskState_eq_dec a b); split; congruence.
Qed.

Lemma state_eqb_refl (a : TaskState) : state_eqb a a = true.
Proof. now apply state_eqb_eq. Qed.

Lemma range_has_In (l : list TaskState) (to : TaskState) :
  range_has l to = true <-> In to l.
Proof.
  induction l as [|s l IH]; simpl.
  - split; [discriminate | contradiction].
  - destruct (state_eqb s to) eqn:E.
    + apply state_eqb_eq in E. tauto.
    + rewrite IH. split; [tauto | intros [->|H]; [|exact H]].
      rewrite state_eqb_refl in E. discriminate.
Qed.

Lemma rules_successors (from : TaskState) :
  map_index rules from = legal_successors from.
Proof. destruct from; reflexivity. Qed.

(** C1: the predicate accepts every identity pair and exactly the pairs of
    the table of section 4.1; every other pair of distinct states is
    rejected, and the six states Succeed, Failed, Reverted, Canceled,
    RevertFailed and RevertPending have no outgoing transition. *)
Theorem VerifyTaskStateTransform_table :
  (forall s, VerifyTaskStateTransform s s = true) /\
  (forall from to, VerifyTaskStateTransform from to = true <-> legal from to) /\
  (forall from to, from <> to -> ~ In to (legal_successors from) ->
     VerifyTaskStateTransform from to = false) /\
  (forall from to,
     In from [TaskStateSucceed; TaskStateFailed; TaskStateReverted;
              TaskStateCanceled; TaskStateRevertFailed;
              TaskStateRevertPending] ->
     from <> to -> VerifyTaskStateTransform from to = false).
Proof.
  assert (Hiff : forall from to,
             VerifyTaskStateTransform from to = true <-> legal from to).
  { intros from to. unfold VerifyTaskStateTransform, legal.
    rewrite rules_successors.
    destruct (state_eqb from to) eqn:E.
    - apply state_eqb_eq in E. tauto.
    - rewrite range_has_In. split; [tauto | intros [->|H]; [|exact H]].
      rewrite state_eqb_refl in E. discriminate. }
  repeat split.
  - intro s. apply Hiff. now left.
  - apply Hiff.
  - apply Hiff.
  - intros from to Hne Hnot.
    destruct (VerifyTaskStateTransform from to) eqn:E; [|reflexivity].
    apply Hiff in E. destruct E; contradiction.
  - intros from to Hin Hne.
    destruct (VerifyTaskStateTransform from to) eqn:E; [|reflexivity].
    apply Hiff in E. destruct E as [E|E]; [contradiction|].
    simpl in Hin.
    repeat (destruct Hin as [<-|Hin]; [simpl in E; contradiction|]).
    contradiction.
Qed.

(** ** The retry loop of [updateTask] *)

Lemma attempts_app (a b : list Event) :
  attempts (a ++ b) = (attempts a + attempts b)%nat.
Proof. unfold attempts. now rewrite filter_app, length_app. Qed.

Lemma updateTask_loop_shape (n : nat) (subs : list Subtask)
  (prev : TaskState) (err : option error) (d : dispatcher Strat) (w : World Strat) :
  exists err' w' evs,
    updateTask_loop n subs prev err d w = Done err' d w'
    /\ trace w' = evs ++ trace w
    /\ Forall (persist_event (task d) subs prev) evs
    /\ (attempts evs <= n)%nat
    /\ (0 < n -> 0 < attempts evs)%nat
    /\ clock w' = clock w
    /\ implState w' = implState w
    /\ (taskMgr w' = taskMgr w
        \/ (err' = None
            /\ taskMgr w'
               = write_task_and_subtasks (task d) subs prev (taskMgr w))).
Proof.
  revert err w. induction n as [|n IH]; intros err w.
  - exists err, w, []. simpl. repeat split; auto; lia.
  - cbn [updateTask_loop].
    unfold bind, get_task, UpdateGlobalTaskAndAddSubTasks, bind, log_event,
      next_fault, ret.
    cbn [faults set_trace].
    set (ev := EvUpdateGlobalTaskAndAddSubTasks (task d) subs prev).
    assert (Hone : Forall (persist_event (task d) subs prev) [ev])
      by (constructor; [now left | constructor]).
    destruct (faults w) as [|[|] fs] eqn:Hf; cbn [taskMgr set_trace set_faults].
    + destruct (existsb _ _) eqn:Hrow; cbn;
        (eexists _, _, [ev]; split; [reflexivity|]; cbn;
         repeat split; auto; try lia).
    + cbn. unfold time_Sleep, log_event. cbn.
      match goal with
      | |- context [updateTask_loop n subs prev ?e ?d0 ?w0] =>
          destruct (IH e w0) as (err' & w' & evs & Hrun & Htr & Hall & Hcnt
                                 & _ & Hclk & Hst & Hmgr)
      end.
      exists err', w', (evs ++ [EvSleep retrySQLInterval; ev]).
      split; [exact Hrun|]. cbn in *.
      repeat split; auto.
      * rewrite Htr, <- app_assoc. reflexivity.
      * apply Forall_app. split; [exact Hall|].
        constructor; [now right | exact Hone].
      * rewrite attempts_app. cbn. lia.
      * rewrite attempts_app. cbn. lia.
    + destruct (existsb _ _) eqn:Hrow; cbn;
        (eexists _, _, [ev]; split; [reflexivity|]; cbn;
         repeat split; auto; try lia).
Qed.

Lemma updateTask_legal (st : TaskState) (subs : list Subtask) (rt : Z)
  (d : dispatcher Strat) (w : World Strat) :
  VerifyTaskStateTransform (State (task d)) st = true ->
  updateTask st subs rt d w
  = updateTask_loop (Z.to_nat rt) subs (State (task d)) None
      (set_task (set_State st (task d)) d) w.
Proof.
  intro H. unfold updateTask, bind, get_task, modify_task.
  now rewrite H.
Qed.

Lemma updateTask_illegal (st : TaskState) (subs : list Subtask) (rt : Z)
  (d : dispatcher Strat) (w : World Strat) :
  VerifyTaskStateTransform (State (task d)) st = false ->
  updateTask st subs rt d w
  = Done (Some (errInvalidTransform (State (task d)) st))
      (set_task (set_State st (task d)) d) w.
Proof.
  intro H. unfold updateTask, bind, get_task, modify_task.
  now rewrite H.
Qed.

(** [updateTask] always returns; it leaves the target state in the
    in-memory task, touches the storage only through attempts of the one
    write it was asked for, and makes at most [retryTimes] of them. *)
Lemma updateTask_shape (st : TaskState) (subs : list Subtask) (rt : Z)
  (d : dispatcher Strat) (w : World Strat) :
  exists err w' evs,
    updateTask st subs rt d w
    = Done err (set_task (set_State st (task d)) d) w'
    /\ trace w' = evs ++ trace w
    /\ Forall (persist_event (set_State st (task d)) subs (State (task d))) evs
    /\ (attempts evs <= Z.to_nat rt)%nat
    /\ (VerifyTaskStateTransform (State (task d)) st = true ->
        0 < rt -> (0 < attempts evs)%nat)
    /\ clock w' = clock w
    /\ implState w' = implState w
    /\ (taskMgr w' = taskMgr w
        \/ (err = None
            /\ taskMgr w'
               = write_task_and_subtasks (set_State st (task d)) subs
                   (State (task d)) (taskMgr w))).
Proof.
  destruct (VerifyTaskStateTransform (State (task d)) st) eqn:Hv.
  - rewrite updateTask_legal by exact Hv.
    destruct (updateTask_loop_shape (Z.to_nat rt) subs (State (task d)) None
                (set_task (set_State st (task d)) d) w)
      as (err & w' & evs & Hrun & Htr & Hall & Hle & Hpos & Hrest).
    exists err, w', evs. cbn [task set_task] in *.
    repeat split; try tauto.
    intros _ Hrt. apply Hpos. lia.
  - rewrite updateTask_illegal by exact Hv.
    exists (Some (errInvalidTransform (State (task d)) st)), w, [].
    cbn. repeat split; auto; try lia; discriminate.
Qed.

(** One attempt on a storage that does not fail and holds the task in the
    expected state: the row and the subtasks are written. *)
Lemma updateTask_loop_first_ok (n : nat) (subs : list Subtask)
  (prev : TaskState) (err : option error) (d : dispatcher Strat) (w : World Strat) :
  faults w = [] ->
  existsb (row_matches (ID (task d)) prev) (global_task (taskMgr w)) = true ->
  updateTask_loop (S n) subs prev err d w
  = Done None d
      (set_taskMgr
         (write_task_and_subtasks (task d) subs prev (taskMgr w))
         (set_trace
            (EvUpdateGlobalTaskAndAddSubTasks (task d) subs prev :: trace w)
            w)).
Proof.
  intros Hf Hrow. cbn [updateTask_loop].
  unfold bind, get_task, UpdateGlobalTaskAndAddSubTasks, bind, log_event,
    next_fault, ret.
  cbn [faults set_trace]. rewrite Hf. cbn [taskMgr set_trace].
  now rewrite Hrow.
Qed.

(** When the storage fails transiently on each of the next [n] calls, the
    loop goes through all of its [n] iterations. *)
Lemma updateTask_loop_all_faults (n : nat) (subs : list Subtask)
  (prev : TaskState) (err : option error) (d : dispatcher Strat) (w : World Strat)
  (rest : list bool) :
  faults w = repeat true n ++ rest ->
  exists w',
    updateTask_loop n subs prev err d w
    = Done (match n with O => err | S _ => Some errTransient end) d w'
    /\ attempts (trace w') = (attempts (trace w) + n)%nat
    /\ taskMgr w' = taskMgr w
    /\ faults w' = rest.
Proof.
  revert err w. induction n as [|n IH]; intros err w Hf.
  - exists w. cbn in *. repeat split; auto.
  - cbn [updateTask_loop].
    unfold bind, get_task, UpdateGlobalTaskAndAddSubTasks, bind, log_event,
      next_fault, ret.
    cbn [faults set_trace]. rewrite Hf. cbn.
    unfold time_Sleep, log_event. cbn.
    match goal with
    | |- context [updateTask_loop n subs prev ?e ?d0 ?w0] =>
        destruct (IH e w0) as (w' & Hrun & Hatt & Hmgr & Hfs); [reflexivity|]
    end.
    exists w'. rewrite Hrun. cbn in *.
    repeat split; auto.
    + destruct n; reflexivity.
    + rewrite Hatt. unfold attempts. cbn. lia.
Qed.

Lemma find_replaced (gTask : Task) (prev : TaskState) (rows : list Task) :
  match find (fun r => ID r =? ID gTask) rows with
  | Some r => State r = prev
  | None => False
  end ->
  find (fun r => ID r =? ID gTask)
    (map (fun r => if row_matches (ID gTask) prev r then gTask else r) rows)
  = Some gTask
  /\ existsb (row_matches (ID gTask) prev) rows = true.
Proof.
  induction rows as [|r rows IH]; cbn; [contradiction|].
  destruct (row_matches (ID gTask) prev r) eqn:Hm.
  - rewrite Z.eqb_refl. auto.
  - unfold row_matches in Hm.
    destruct (ID r =? ID gTask) eqn:E; cbn in Hm |- *.
    + intro H. apply state_eqb_eq in H. congruence.
    + exact IH.
Qed.

(** The persisted state after the write, for a task whose row held the
    expected previous state. *)
Lemma persisted_state_written (gTask : Task) (subs : list Subtask)
  (prev : TaskState) (tm : TaskManager) :
  persisted_state tm (ID gTask) = Some prev ->
  persisted_state (write_task_and_subtasks gTask subs prev tm) (ID gTask)
  = Some (State gTask)
  /\ existsb (row_matches (ID gTask) prev) (global_task tm) = true.
Proof.
  unfold persisted_state, write_task_and_subtasks. cbn [global_task].
  intro H.
  destruct (find_replaced gTask prev (global_task tm)) as [-> ->]; auto.
  destruct (find _ _); [congruence | discriminate].
Qed.

(** ** Stage dispatch, unfolded *)

Ltac case_ifs :=
  repeat match goal with
         | |- context [if ?b then _ else _] => destruct b
         end.

Lemma State_adjusted (t : Task) : State (adjusted t) = State t.
Proof. unfold adjusted. case_ifs; reflexivity. Qed.

Lemma State_prepared (nowTime : Z) (t : Task) :
  State (prepared nowTime t) = State t.
Proof.
  unfold prepared. destruct (state_eqb (State t) TaskStatePending);
    apply State_adjusted.
Qed.

Lemma ID_prepared (nowTime : Z) (t : Task) : ID (prepared nowTime t) = ID t.
Proof.
  unfold prepared, adjusted. case_ifs; reflexivity.
Qed.

Lemma dispatch_prepare_eq (d : dispatcher Strat) (w : World Strat) :
  dispatch_prepare retrySQLTimes d w
  = Done (if state_eqb (State (task d)) TaskStatePending
          then nonRetrySQLTime else retrySQLTimes)
      (set_task (prepared (clock w) (task d)) d)
      (after_prepare (task d) w).
Proof.
  unfold dispatch_prepare, prepared, after_prepare, adjusted, bind, get_task,
    modify_task, ret, time_Now.
  destruct d as [t sid im ln li lt tn]. cbn [task set_task].
  destruct (Concurrency t =? 0)%N; cbn [task set_task];
    match goal with |- context [(MaxSubtaskConcurrency <? ?c)%N] =>
      destruct (MaxSubtaskConcurrency <? c)%N end;
    cbn [task set_task set_Concurrency State];
    destruct (state_eqb (State t) TaskStatePending); reflexivity.
Qed.

Lemma dispatchSubTask_empty (d : dispatcher Strat) (w : World Strat) :
  dispatchSubTask GenerateExecID retrySQLTimes [] d w
  = let w1 := after_prepare (task d) w in
    updateTask TaskStateSucceed []
      (if state_eqb (State (task d)) TaskStatePending
       then nonRetrySQLTime else retrySQLTimes)
      (set_task (set_StateUpdateTime (clock w1)
                   (prepared (clock w) (task d))) d)
      (set_clock (clock w1 + 1) w1).
Proof.
  unfold dispatchSubTask, bind. rewrite dispatch_prepare_eq.
  destruct d; reflexivity.
Qed.

Lemma dispatchSubTask_nonempty (i : Dispatcher Strat) (meta : bytes)
  (rest : list bytes) (d : dispatcher Strat) (w : World Strat) :
  impl d = Some i ->
  dispatchSubTask GenerateExecID retrySQLTimes (meta :: rest) d w
  = let w1 := after_prepare (task d) w in
    let t := prepared (clock w) (task d) in
    let '(s', r) := GetEligibleInstances i (implState w1) t in
    match r with
    | Err err => Done (Some err) (set_task t d) (set_implState s' w1)
    | Ok [] =>
        Done (Some (errors_New "no available TiDB node to dispatch subtasks"))
          (set_task t d) (set_implState s' w1)
    | Ok (n :: ns) =>
        updateTask TaskStateRunning
          (assign_subTasks GenerateExecID t (n :: ns) 0 (meta :: rest)) retrySQLTimes
          (set_taskNodes (execIDs GenerateExecID (n :: ns)) (set_task t d))
          (set_implState s' w1)
    end.
Proof.
  intro Hi. unfold dispatchSubTask, bind. rewrite dispatch_prepare_eq.
  unfold call_GetEligibleInstances, bind, get_impl.
  destruct d as [t sid im ln li lt tn]. cbn [task set_task impl] in *.
  subst im. cbv zeta.
  destruct (GetEligibleInstances i _ _) as [s' [[|n ns]|err]]; reflexivity.
Qed.

(** A legal transition on a storage that does not fail and holds the task
    in its previous state is persisted by the first attempt. *)
Lemma updateTask_healthy (st : TaskState) (subs : list Subtask) (rt : Z)
  (d : dispatcher Strat) (w : World Strat) :
  VerifyTaskStateTransform (State (task d)) st = true ->
  0 < rt ->
  faults w = [] ->
  persisted_state (taskMgr w) (ID (task d)) = Some (State (task d)) ->
  let gTask := set_State st (task d) in
  let tm := write_task_and_subtasks gTask subs (State (task d)) (taskMgr w) in
  updateTask st subs rt d w
  = Done None (set_task gTask d)
      (set_taskMgr tm
         (set_trace
            (EvUpdateGlobalTaskAndAddSubTasks gTask subs (State (task d))
             :: trace w) w))
  /\ persisted_state tm (ID (task d)) = Some st
  /\ find (fun r => ID r =? ID (task d)) (global_task tm) = Some gTask.
Proof.
  intros Hv Hrt Hf Hrow gTask tm.
  assert (Hid : ID gTask = ID (task d)) by reflexivity.
  rewrite <- Hid in Hrow.
  destruct (persisted_state_written gTask subs (State (task d)) (taskMgr w) Hrow)
    as [Hps Hex].
  rewrite updateTask_legal by exact Hv.
  destruct (Z.to_nat rt) as [|n] eqn:Hn; [lia|].
  rewrite updateTask_loop_first_ok; auto.
  repeat split; auto.
  unfold persisted_state in Hrow.
  destruct (find_replaced gTask (State (task d)) (global_task (taskMgr w)))
    as [Hfind _].
  - destruct (find _ _); [congruence | discriminate].
  - exact Hfind.
Qed.

Lemma implState_after_prepare (t : Task) (w : World Strat) :
  implState (after_prepare t w) = implState w.
Proof. unfold after_prepare. case_ifs; reflexivity. Qed.

Lemma taskMgr_after_prepare (t : Task) (w : World Strat) :
  taskMgr (after_prepare t w) = taskMgr w.
Proof. unfold after_prepare. case_ifs; reflexivity. Qed.

Lemma trace_after_prepare (t : Task) (w : World Strat) :
  trace (after_prepare t w) = trace w.
Proof. unfold after_prepare. case_ifs; reflexivity. Qed.

Lemma faults_after_prepare (t : Task) (w : World Strat) :
  faults (after_prepare t w) = faults w.
Proof. unfold after_prepare. case_ifs; reflexivity. Qed.

Lemma Concurrency_prepared (nowTime : Z) (t : Task) :
  Concurrency (prepared nowTime t) = Concurrency (adjusted t).
Proof. unfold prepared. case_ifs; reflexivity. Qed.

(** The concurrency after step 1, by cases on the concurrency before. *)
Lemma Concurrency_adjusted (t : Task) :
  let c := Concurrency t in
  let c' := Concurrency (adjusted t) in
  (c = 0 -> c' = 16)%N
  /\ (256 < c -> c' = 256)%N
  /\ (0 < c <= 256 -> c' = c)%N.
Proof.
  unfold adjusted, DefaultSubtaskConcurrency, MaxSubtaskConcurrency.
  destruct (N.eqb_spec (Concurrency t) 0) as [E|E].
  - rewrite E. cbn. repeat split; intros; lia.
  - destruct (N.ltb_spec 256 (Concurrency t)); cbn; repeat split; intros; lia.
Qed.

(** ** The claims *)

(** C10: [updateTask] writes the target state into the in-memory task
    before it checks the transition.  When the transition is rejected it
    returns an error and leaves the world as it was (no storage call, no
    write), yet the in-memory task holds the rejected target state, not
    the previous one. *)
Theorem updateTask_rejected_keeps_target
  (taskState : TaskState) (newSubTasks : list Subtask) (retryTimes : Z)
  (d : dispatcher Strat) (w : World Strat) :
  VerifyTaskStateTransform (State (task d)) taskState = false ->
  exists d',
    updateTask taskState newSubTasks retryTimes d w
    = Done (Some (errInvalidTransform (State (task d)) taskState)) d' w
    /\ State (task d') = taskState
    /\ State (task d') <> State (task d).
Proof.
  intro Hv. rewrite updateTask_illegal by exact Hv.
  eexists. split; [reflexivity|]. cbn. split; [reflexivity|].
  intro E. unfold VerifyTaskStateTransform in Hv.
  rewrite <- E, state_eqb_refl in Hv. discriminate.
Qed.

(** C8: dispatch normalizes the concurrency of the task before anything
    else: 0 becomes [DefaultSubtaskConcurrency] (16), a value above
    [MaxSubtaskConcurrency] becomes 256, any other value stays.  The
    in-memory task holds the normalized value when dispatch returns, and
    so does every task row dispatch tries to write. *)
Theorem dispatchSubTask_normalizes_concurrency
  (i : Dispatcher Strat) (metas : list bytes) (d : dispatcher Strat) (w : World Strat) :
  impl d = Some i ->
  exists err d' w' evs,
    dispatchSubTask GenerateExecID retrySQLTimes metas d w = Done err d' w'
    /\ (Concurrency (task d) = 0 -> Concurrency (task d') = 16)%N
    /\ (256 < Concurrency (task d) -> Concurrency (task d') = 256)%N
    /\ (0 < Concurrency (task d) <= 256 ->
        Concurrency (task d') = Concurrency (task d))%N
    /\ trace w' = evs ++ trace w
    /\ (forall gTask subs prev,
          In (EvUpdateGlobalTaskAndAddSubTasks gTask subs prev) evs ->
          Concurrency gTask = Concurrency (task d')).
Proof.
  intro Hi.
  assert (Hin : forall gTask0 subs0 prev0 evs gTask subs prev,
             Forall (persist_event gTask0 subs0 prev0) evs ->
             In (EvUpdateGlobalTaskAndAddSubTasks gTask subs prev) evs ->
             gTask = gTask0).
  { intros * Hall Hin. rewrite Forall_forall in Hall.
    destruct (Hall _ Hin) as [E|E]; congruence. }
  pose proof (Concurrency_adjusted (task d)) as (H0 & H1 & H2).
  destruct metas as [|meta rest].
  - rewrite dispatchSubTask_empty. cbv zeta.
    match goal with
    | |- context [updateTask ?st ?subs ?rt ?d0 ?w0] =>
        destruct (updateTask_shape st subs rt d0 w0)
          as (err & w' & evs & Hrun & Htr & Hall & _)
    end.
    exists err. eexists. exists w', evs. split; [exact Hrun|].
    cbn [task set_task set_State set_StateUpdateTime Concurrency] in *.
    rewrite Concurrency_prepared.
    repeat split; auto.
    + rewrite Htr. cbn. now rewrite trace_after_prepare.
    + intros * Hev. rewrite (Hin _ _ _ _ _ _ _ Hall Hev). cbn.
      now rewrite Concurrency_prepared.
  - rewrite (dispatchSubTask_nonempty i) by exact Hi. cbv zeta.
    destruct (GetEligibleInstances i _ _) as [s' [[|n ns]|e]].
    + eexists _, _, _, []. split; [reflexivity|].
      cbn [task set_task]. rewrite Concurrency_prepared.
      repeat split; auto.
      * cbn. now rewrite trace_after_prepare.
      * intros * [].
    + match goal with
      | |- context [updateTask ?st ?subs ?rt ?d0 ?w0] =>
          destruct (updateTask_shape st subs rt d0 w0)
            as (err & w' & evs & Hrun & Htr & Hall & _)
      end.
      exists err. eexists. exists w', evs. split; [exact Hrun|].
      cbn [task set_task set_taskNodes set_State Concurrency] in *.
      rewrite Concurrency_prepared.
      repeat split; auto.
      * rewrite Htr. cbn. now rewrite trace_after_prepare.
      * intros * Hev. rewrite (Hin _ _ _ _ _ _ _ Hall Hev). cbn.
        now rewrite Concurrency_prepared.
    + eexists _, _, _, []. split; [reflexivity|].
      cbn [task set_task]. rewrite Concurrency_prepared.
      repeat split; auto.
      * cbn. now rewrite trace_after_prepare.
      * intros * [].
Qed.

(** C7: when the strategy has no eligible instance for a dispatch of at
    least one meta, dispatch returns the error "no available TiDB node to
    dispatch subtasks" (the spec's "no available node") to its caller
    without a single storage call: the task table and the subtask table
    are as they were, and a task persisted as Pending is still persisted
    as Pending. *)
Theorem dispatchSubTask_no_available_node
  (i : Dispatcher Strat) (meta : bytes) (rest : list bytes)
  (d : dispatcher Strat) (w : World Strat) (s' : Strat) :
  impl d = Some i ->
  GetEligibleInstances i (implState w) (prepared (clock w) (task d))
  = (s', Ok []) ->
  exists d' w',
    dispatchSubTask GenerateExecID retrySQLTimes (meta :: rest) d w
    = Done (Some (errors_New "no available TiDB node to dispatch subtasks"))
        d' w'
    /\ taskMgr w' = taskMgr w
    /\ trace w' = trace w
    /\ State (task d') = State (task d)
    /\ (persisted_state (taskMgr w) (ID (task d)) = Some TaskStatePending ->
        persisted_state (taskMgr w') (ID (task d')) = Some TaskStatePending).
Proof.
  intros Hi Hel.
  rewrite (dispatchSubTask_nonempty i) by exact Hi. cbv zeta.
  rewrite implState_after_prepare, Hel.
  eexists _, _. split; [reflexivity|].
  cbn [task set_task taskMgr trace set_implState].
  rewrite taskMgr_after_prepare, trace_after_prepare, State_prepared,
    ID_prepared.
  repeat split; auto.
Qed.

Lemma call_OnNextStage_eq (i : Dispatcher Strat) (d : dispatcher Strat) (w : World Strat)
  (s' : Strat) (t' : Task) (r : result (list bytes)) :
  impl d = Some i ->
  OnNextStage i (implState w) (as_handle d w) (task d) = (s', t', r) ->
  call_OnNextStage d w = Done r (set_task t' d) (set_implState s' w).
Proof.
  intros Hi Hr. unfold call_OnNextStage, bind, get_impl.
  now rewrite Hi, Hr.
Qed.

(** C6: when [OnNextStage] returns no meta and no error, for a task that
    is Pending or Running, the driver persists Succeed (Pending -> Succeed
    or Running -> Succeed): it attempts the write of the task row in state
    Succeed, expecting the state the task was in, at least once and with
    no subtask; the subtask table is not touched; and on a storage that
    does not fail and holds the task in that state the row ends up
    Succeed.  From Running the retry count is [retrySQLTimes], taken to
    be positive. *)
Theorem onNextStage_empty_persists_Succeed
  (i : Dispatcher Strat) (d : dispatcher Strat) (w : World Strat) (s' : Strat) (t' : Task) :
  impl d = Some i ->
  OnNextStage i (implState w) (as_handle d w) (task d) = (s', t', Ok []) ->
  State t' = TaskStatePending
  \/ (State t' = TaskStateRunning /\ 0 < retrySQLTimes) ->
  exists err d' w' evs,
    onNextStage GenerateExecID retrySQLTimes d w = Done err d' w'
    /\ State (task d') = TaskStateSucceed
    /\ trace w' = evs ++ trace w
    /\ Forall (persist_event (task d') [] (State t')) evs
    /\ (0 < attempts evs)%nat
    /\ subtask (taskMgr w') = subtask (taskMgr w)
    /\ (faults w = [] ->
        persisted_state (taskMgr w) (ID t') = Some (State t') ->
        err = None
        /\ persisted_state (taskMgr w') (ID t') = Some TaskStateSucceed).
Proof.
  intros Hi Hr Hst.
  unfold onNextStage, bind.
  rewrite (call_OnNextStage_eq i d w s' t' (Ok [])) by assumption.
  rewrite dispatchSubTask_empty. cbv zeta. cbn [task set_task].
  set (rt := if state_eqb (State t') TaskStatePending
             then nonRetrySQLTime else retrySQLTimes).
  assert (Hrtpos : 0 < rt)
    by (subst rt; destruct Hst as [-> | [-> Hrt]]; cbn;
        [reflexivity | exact Hrt]).
  set (d0 := set_task _ _). set (w0 := set_clock _ _).
  assert (Hs0 : State (task d0) = State t')
    by (subst d0; cbn; apply State_prepared).
  assert (Hid0 : ID (task d0) = ID t')
    by (subst d0; cbn; apply ID_prepared).
  assert (Hv : VerifyTaskStateTransform (State (task d0)) TaskStateSucceed
               = true)
    by (rewrite Hs0; destruct Hst as [-> | [-> _]]; reflexivity).
  destruct (updateTask_shape TaskStateSucceed [] rt d0 w0)
    as (err & w' & evs & Hrun & Htr & Hall & _ & Hpos & _ & _ & Hmgr).
  exists err, (set_task (set_State TaskStateSucceed (task d0)) d0), w', evs.
  split; [exact Hrun|]. cbn [task set_task].
  assert (Htm0 : taskMgr w0 = taskMgr w)
    by (subst w0; cbn; rewrite taskMgr_after_prepare; reflexivity).
  assert (Htr0 : trace w0 = trace w)
    by (subst w0; cbn; rewrite trace_after_prepare; reflexivity).
  repeat split.
  - now rewrite Htr, Htr0.
  - now rewrite <- Hs0.
  - now apply Hpos.
  - destruct Hmgr as [-> | [_ ->]]; rewrite Htm0; cbn; [reflexivity|].
    apply app_nil_r.
  - assert (Hf0 : faults w0 = [])
      by (subst w0; cbn; rewrite faults_after_prepare; assumption).
    rewrite <- Htm0, <- Hid0, <- Hs0 in H0.
    destruct (updateTask_healthy TaskStateSucceed [] rt d0 w0 Hv Hrtpos Hf0 H0)
      as (Hrun' & _). cbv zeta in Hrun'. congruence.
  - assert (Hf0 : faults w0 = [])
      by (subst w0; cbn; rewrite faults_after_prepare; assumption).
    rewrite <- Htm0, <- Hid0, <- Hs0 in H0.
    destruct (updateTask_healthy TaskStateSucceed [] rt d0 w0 Hv Hrtpos Hf0 H0)
      as (Hrun' & Hps & _). cbv zeta in Hrun', Hps.
    rewrite Hrun in Hrun'. injection Hrun' as _ ->.
    rewrite <- Hid0. exact Hps.
Qed.

(** C4: when [OnNextStage] returns an error, a retryable one is returned
    to the caller and the driver changes nothing (the world and the task
    are as the strategy left them, the storage is not called); one that is
    not retryable is stamped into the in-memory task and the transition to
    Failed is persisted: attempted at least once with no subtask, and, on
    a storage that does not fail, written with the error in the row. *)
Theorem onNextStage_plan_error
  (i : Dispatcher Strat) (d : dispatcher Strat) (w : World Strat)
  (s' : Strat) (t' : Task) (err : error) :
  impl d = Some i ->
  OnNextStage i (implState w) (as_handle d w) (task d) = (s', t', Err err) ->
  (IsRetryableErr i s' err = true ->
   onNextStage GenerateExecID retrySQLTimes d w = Done (Some err) (set_task t' d) (set_implState s' w))
  /\ (IsRetryableErr i s' err = false ->
      State t' = TaskStatePending \/ State t' = TaskStateRunning ->
      0 < retrySQLTimes ->
      exists e d' w' evs,
        onNextStage GenerateExecID retrySQLTimes d w = Done e d' w'
        /\ task d' = set_State TaskStateFailed (set_Error (Some err) t')
        /\ trace w' = evs ++ trace w
        /\ Forall (persist_event (task d') [] (State t')) evs
        /\ (0 < attempts evs)%nat
        /\ (faults w = [] ->
            persisted_state (taskMgr w) (ID t') = Some (State t') ->
            e = None
            /\ find (fun r => ID r =? ID t') (global_task (taskMgr w'))
               = Some (task d'))).
Proof.
  intros Hi Hr.
  assert (Hunfold : onNextStage GenerateExecID retrySQLTimes d w
                    = handlePlanErr retrySQLTimes err (set_task t' d) (set_implState s' w)).
  { unfold onNextStage, bind.
    now rewrite (call_OnNextStage_eq i d w s' t' (Err err)). }
  rewrite Hunfold.
  unfold handlePlanErr, bind, call_IsRetryableErr, bind, get_impl.
  cbn [impl set_task]. rewrite Hi. cbn [implState set_implState].
  split; intro Hretry; rewrite Hretry; [reflexivity|].
  intros Hst Hrt. unfold modify_task. cbn [task set_task].
  match goal with
  | |- context [updateTask _ _ _ ?dd ?ww] => set (d0 := dd); set (w0 := ww)
  end.
  assert (Hv : VerifyTaskStateTransform (State (task d0)) TaskStateFailed
               = true)
    by (subst d0; cbn; destruct Hst as [-> | ->]; reflexivity).
  destruct (updateTask_shape TaskStateFailed [] retrySQLTimes d0 w0)
    as (e & w' & evs & Hrun & Htr & Hall & _ & Hpos & _ & _ & _).
  exists e, (set_task (set_State TaskStateFailed (task d0)) d0), w', evs.
  split; [exact Hrun|]. cbn [task set_task] in *.
  repeat split; auto.
  - destruct (updateTask_healthy TaskStateFailed [] retrySQLTimes d0 w0
                Hv Hrt H H0) as (Hrun' & _). cbv zeta in Hrun'. congruence.
  - destruct (updateTask_healthy TaskStateFailed [] retrySQLTimes d0 w0
                Hv Hrt H H0) as (Hrun' & _ & Hfind).
    cbv zeta in Hrun', Hfind. rewrite Hrun in Hrun'.
    injection Hrun' as _ ->. exact Hfind.
Qed.

Lemma GetSubtaskInStatesCnt_eq (taskID : Z) (states : list TaskState)
  (d : dispatcher Strat) (w : World Strat) :
  GetSubtaskInStatesCnt taskID states d w
  = Done (if hd false (faults w) then Err errTransient
          else Ok (count_subtasks_in_states (taskMgr w) taskID states)) d
      (set_faults (tl (faults w))
         (set_trace (EvGetSubtaskInStatesCnt taskID states :: trace w) w)).
Proof.
  unfold GetSubtaskInStatesCnt, bind, log_event, next_fault, ret.
  cbn [faults set_trace].
  destruct w as [tm [|[|] fs] tr c s]; reflexivity.
Qed.

(** C9: in the Reverting state the driver attempts the persist of
    Reverting -> Reverted if and only if the count query goes through and
    finds no subtask of the task in RevertPending or Reverting.  With a
    count of zero every attempt is the write of the Reverted row with no
    subtask, and it goes through on a storage that does not fail and
    holds the task as Reverting; with any other count the driver calls
    [OnTick] once, leaves the storage and the task untouched and returns
    nil, to be called again on the next tick; when the query fails it
    returns the error and does nothing else. *)
Theorem onReverting_persists_iff_drained
  (i : Dispatcher Strat) (d : dispatcher Strat) (w : World Strat) :
  impl d = Some i ->
  State (task d) = TaskStateReverting ->
  0 < retrySQLTimes ->
  let states := [TaskStateRevertPending; TaskStateReverting] in
  let cnt := count_subtasks_in_states (taskMgr w) (ID (task d)) states in
  let query := EvGetSubtaskInStatesCnt (ID (task d)) states in
  let answered := hd false (faults w) = false in
  exists err d' w' evs,
    onReverting retrySQLTimes d w = Done err d' w'
    /\ trace w' = evs ++ query :: trace w
    /\ ((0 < attempts evs)%nat <-> answered /\ cnt = 0)
    /\ (answered -> cnt = 0 ->
        task d' = set_State TaskStateReverted (task d)
        /\ Forall (persist_event (task d') [] TaskStateReverting) evs
        /\ (faults w = [] ->
            persisted_state (taskMgr w) (ID (task d))
            = Some TaskStateReverting ->
            err = None
            /\ persisted_state (taskMgr w') (ID (task d))
               = Some TaskStateReverted))
    /\ (answered -> cnt <> 0 ->
        err = None
        /\ d' = d
        /\ taskMgr w' = taskMgr w
        /\ evs = [EvOnTick (task d)]
        /\ implState w' = OnTick i (implState w) (task d))
    /\ (~ answered ->
        err = Some errTransient
        /\ d' = d
        /\ taskMgr w' = taskMgr w
        /\ evs = []).
Proof.
  intros Hi Hst Hrt states cnt query answered.
  unfold onReverting, bind, get_task.
  rewrite GetSubtaskInStatesCnt_eq.
  fold states. fold cnt. fold query. subst answered.
  set (w0 := set_faults _ _).
  destruct (hd false (faults w)) eqn:Hhd.
  - eexists _, _, _, []. split; [reflexivity|]. cbn.
    repeat split; auto; try discriminate; try (intros; lia).
  - destruct (Z.eqb_spec cnt 0) as [Hc|Hc].
    + assert (Hv : VerifyTaskStateTransform (State (task d))
                     TaskStateReverted = true) by now rewrite Hst.
      destruct (updateTask_shape TaskStateReverted [] retrySQLTimes d w0)
        as (err & w' & evs & Hrun & Htr & Hall & _ & Hpos & _ & _ & _).
      exists err, (set_task (set_State TaskStateReverted (task d)) d), w', evs.
      split; [exact Hrun|]. rewrite Hst in Hall. cbn [task set_task].
      assert (Hhealthy :
                faults w = [] ->
                persisted_state (taskMgr w) (ID (task d))
                = Some TaskStateReverting ->
                err = None
                /\ persisted_state (taskMgr w') (ID (task d))
                   = Some TaskStateReverted).
      { intros Hf Hrow.
        assert (Hf0 : faults w0 = []) by (subst w0; cbn; now rewrite Hf).
        assert (Hrow0 : persisted_state (taskMgr w0) (ID (task d))
                        = Some (State (task d))) by now rewrite Hst.
        destruct (updateTask_healthy TaskStateReverted [] retrySQLTimes d w0
                    Hv Hrt Hf0 Hrow0) as (Hrun' & Hps & _).
        cbv zeta in Hrun', Hps. rewrite Hrun in Hrun'.
        injection Hrun' as -> ->. split; [reflexivity | exact Hps]. }
      repeat split; auto; try contradiction; try discriminate;
        now apply Hhealthy.
    + unfold call_OnTick, bind, get_impl, ret. rewrite Hi.
      eexists _, _, _, [EvOnTick (task d)]. split; [reflexivity|].
      cbn. repeat split; auto; try contradiction; try discriminate.
      * unfold attempts. cbn. lia.
      * intros [_ Hc0]. contradiction.
Qed.

(** ** Round-robin assignment *)

Lemma assigned_to_formula (K N j : nat) :
  (0 < K)%nat -> (j < K)%nat ->
  assigned_to K N j = (N / K + (if (j <? N mod K)%nat then 1 else 0))%nat.
Proof.
  intros HK Hj. unfold assigned_to. induction N as [|N IH].
  - cbn. rewrite Nat.Div0.div_0_l, Nat.Div0.mod_0_l by lia.
    destruct (Nat.ltb_spec j 0); lia.
  - rewrite seq_S, filter_app, length_app, IH. cbn [filter seq Nat.add].
    pose proof (Nat.div_mod_eq N K) as HN.
    pose proof (Nat.mod_upper_bound N K ltac:(lia)) as HNr.
    pose proof (Nat.div_mod_eq (S N) K) as HS.
    pose proof (Nat.mod_upper_bound (S N) K ltac:(lia)) as HSr.
    set (q := (N / K)%nat) in *. set (r := (N mod K)%nat) in *.
    set (q' := (S N / K)%nat) in *. set (r' := (S N mod K)%nat) in *.
    assert (Hcase : (r + 1 < K /\ q' = q /\ r' = r + 1)%nat
                    \/ (r + 1 = K /\ q' = q + 1 /\ r' = 0)%nat).
    { destruct (Nat.lt_ge_cases (r + 1) K) as [Hlt|Hge].
      - left. split; [exact Hlt|].
        assert (q' = q) by nia. split; [assumption|]. subst q'. nia.
      - right. assert (r + 1 = K)%nat by lia. split; [assumption|].
        assert (q' = q + 1)%nat by nia. split; [assumption|]. nia. }
    destruct (Nat.eqb_spec r j) as [E|E];
      destruct (Nat.ltb_spec j r); destruct (Nat.ltb_spec j r');
      cbn [List.length]; lia.
Qed.

(** Round-robin fairness by position: any two of the [K] nodes receive
    numbers of subtasks that differ by at most one. *)
Lemma assigned_to_fair (K N a b : nat) :
  (a < K)%nat -> (b < K)%nat ->
  (assigned_to K N a <= assigned_to K N b + 1)%nat.
Proof.
  intros Ha Hb. rewrite !assigned_to_formula by lia.
  destruct (a <? N mod K)%nat; destruct (b <? N mod K)%nat; lia.
Qed.

Lemma Type_prepared (nowTime : Z) (t : Task) :
  Type_ (prepared nowTime t) = Type_ t.
Proof. unfold prepared, adjusted. case_ifs; reflexivity. Qed.

Lemma assign_subTasks_length (t : Task) (serverNodes : list ServerInfo)
  (i : nat) (metas : list bytes) :
  List.length (assign_subTasks GenerateExecID t serverNodes i metas) = List.length metas.
Proof.
  revert i. induction metas as [|m ms IH]; intro i; cbn; [reflexivity|].
  now rewrite IH.
Qed.

Lemma execIDs_nth (serverNodes : list ServerInfo) (p : nat) :
  (p < List.length serverNodes)%nat ->
  GenerateExecID (IP (nth p serverNodes zeroServerInfo))
                 (Port (nth p serverNodes zeroServerInfo))
  = nth p (execIDs GenerateExecID serverNodes) "".
Proof.
  intro Hp. unfold execIDs.
  rewrite <- (map_nth (fun n => GenerateExecID (IP n) (Port n))).
  apply nth_indep. now rewrite length_map.
Qed.

Lemma assign_subTasks_nth (t : Task) (serverNodes : list ServerInfo)
  (metas : list bytes) (i k : nat) :
  (0 < List.length serverNodes)%nat ->
  (k < List.length metas)%nat ->
  nth_error (assign_subTasks GenerateExecID t serverNodes i metas) k
  = Some (NewSubtask (ID t) (Type_ t)
            (nth ((i + k) mod List.length serverNodes)
                 (execIDs GenerateExecID serverNodes) "")
            (nth k metas [])).
Proof.
  intro HK. revert i k.
  induction metas as [|m ms IH]; intros i k Hk; cbn in Hk; [lia|].
  destruct k as [|k]; cbn [assign_subTasks nth_error nth].
  - rewrite Nat.add_0_r, execIDs_nth; [reflexivity|].
    apply Nat.mod_upper_bound. lia.
  - rewrite IH by lia. now replace (S i + k)%nat with (i + S k)%nat by lia.
Qed.

Lemma assign_subTasks_schedulers (t : Task) (serverNodes : list ServerInfo)
  (metas : list bytes) (i : nat) :
  (0 < List.length serverNodes)%nat ->
  map SchedulerID (assign_subTasks GenerateExecID t serverNodes i metas)
  = map (fun k => nth (k mod List.length serverNodes) (execIDs GenerateExecID serverNodes) "")
        (seq i (List.length metas)).
Proof.
  intro HK. revert i.
  induction metas as [|m ms IH]; intro i; cbn; [reflexivity|].
  rewrite IH, execIDs_nth; [reflexivity|].
  apply Nat.mod_upper_bound. lia.
Qed.

(** With pairwise distinct exec IDs, the subtasks on the node at position
    [j] are those of the indices the round-robin sends there. *)
Lemma subtasks_on_assigned (ids : list string) (j i n : nat) :
  NoDup ids -> (j < List.length ids)%nat ->
  count_occ string_dec
    (map (fun k => nth (k mod List.length ids) ids "") (seq i n))
    (nth j ids "")
  = List.length (filter (fun k => (k mod List.length ids =? j)%nat) (seq i n)).
Proof.
  intros Hnd Hj. revert i.
  induction n as [|n IH]; intro i; cbn [seq map filter count_occ];
    [reflexivity|].
  assert (Hlt : (i mod List.length ids < List.length ids)%nat)
    by (apply Nat.mod_upper_bound; lia).
  destruct (string_dec (nth (i mod List.length ids) ids "") (nth j ids ""))
    as [E|E].
  - apply (proj1 (NoDup_nth ids "") Hnd) in E; [|assumption|assumption].
    rewrite E, Nat.eqb_refl. cbn. now rewrite IH.
  - destruct (Nat.eqb_spec (i mod List.length ids) j) as [E'|E'];
      [rewrite E' in E; contradiction|].
    apply IH.
Qed.

(** ** Construction of a driver *)

(** C3, as the code has it: for a Pending task whose type has no
    registered strategy, [newDispatcher] records the error "unsupported
    task type" on the task and persists Pending -> Failed through
    [updateTask] with the configured retry count [retrySQLTimes]: at most
    that many attempts, all of them made when the storage keeps failing
    transiently, the first one enough on a storage that does not fail.  It
    returns no driver, so that no schedule loop is entered. *)
Theorem newDispatcher_unsupported_type
  (serverID : string) (task0 : Task) (w : World Strat) :
  GetTaskDispatcher (Type_ task0) = None ->
  State task0 = TaskStatePending ->
  exists err d' w' evs,
    newDispatcher GetTaskDispatcher retrySQLTimes serverID task0 w = Done (None, err) d' w'
    /\ task d'
       = set_State TaskStateFailed
           (set_Error (Some (errors_New "unsupported task type")) task0)
    /\ trace w' = evs ++ trace w
    /\ Forall (persist_event (task d') [] TaskStatePending) evs
    /\ (attempts evs <= Z.to_nat retrySQLTimes)%nat
    /\ (forall rest,
          faults w = repeat true (Z.to_nat retrySQLTimes) ++ rest ->
          attempts evs = Z.to_nat retrySQLTimes)
    /\ (0 < retrySQLTimes ->
        faults w = [] ->
        persisted_state (taskMgr w) (ID task0) = Some TaskStatePending ->
        err = None
        /\ attempts evs = 1%nat
        /\ find (fun r => ID r =? ID task0) (global_task (taskMgr w'))
           = Some (task d')).
Proof.
  intros Hnil Hst. unfold newDispatcher. rewrite Hnil.
  unfold bind, modify_task, ret. cbn [task set_task].
  match goal with
  | |- context [updateTask _ _ _ ?dd ?ww] => set (d0 := dd)
  end.
  assert (Hs0 : State (task d0) = TaskStatePending) by exact Hst.
  assert (Hv : VerifyTaskStateTransform (State (task d0)) TaskStateFailed
               = true) by now rewrite Hs0.
  destruct (updateTask_shape TaskStateFailed [] retrySQLTimes d0 w)
    as (err & w' & evs & Hrun & Htr & Hall & Hle & _).
  rewrite Hrun.
  exists err, (set_task (set_State TaskStateFailed (task d0)) d0), w', evs.
  split; [reflexivity|]. rewrite Hs0 in Hall. cbn [task set_task] in *.
  repeat split; auto.
  - intros rest Hf.
    rewrite updateTask_legal in Hrun by exact Hv.
    destruct (updateTask_loop_all_faults (Z.to_nat retrySQLTimes) []
                (State (task d0)) None
                (set_task (set_State TaskStateFailed (task d0)) d0) w rest Hf)
      as (w1 & Hrun1 & Hatt & _).
    rewrite Hrun in Hrun1. injection Hrun1 as _ <-.
    rewrite Htr, attempts_app in Hatt. lia.
  - rewrite <- Hs0 in H1.
    destruct (updateTask_healthy TaskStateFailed [] retrySQLTimes d0 w
                Hv H H0 H1) as (Hrun' & _). cbv zeta in Hrun'. congruence.
  - rewrite <- Hs0 in H1.
    destruct (updateTask_healthy TaskStateFailed [] retrySQLTimes d0 w
                Hv H H0 H1) as (Hrun' & _). cbv zeta in Hrun'.
    rewrite Hrun in Hrun'. injection Hrun' as _ ->.
    cbn [trace set_taskMgr set_trace] in Htr.
    assert (E : evs = [EvUpdateGlobalTaskAndAddSubTasks
                         (set_State TaskStateFailed (task d0)) []
                         (State (task d0))]).
    { apply (app_inv_tail (trace w)). now rewrite <- Htr. }
    now rewrite E.
  - rewrite <- Hs0 in H1.
    destruct (updateTask_healthy TaskStateFailed [] retrySQLTimes d0 w
                Hv H H0 H1) as (Hrun' & _ & Hfind). cbv zeta in Hrun', Hfind.
    rewrite Hrun in Hrun'. injection Hrun' as _ ->. exact Hfind.
Qed.

(** The persist of Pending -> Running in [dispatchSubTask] goes through
    all of [retrySQLTimes] attempts when the storage keeps failing
    transiently: the retry count of step 2 is not the one it is given. *)
Lemma dispatchSubTask_Running_retries
  (i : Dispatcher Strat) (meta : bytes) (rest : list bytes)
  (d : dispatcher Strat) (w : World Strat) (s' : Strat)
  (n : ServerInfo) (ns : list ServerInfo) (fs : list bool) :
  impl d = Some i ->
  State (task d) = TaskStatePending ->
  GetEligibleInstances i (implState w) (prepared (clock w) (task d))
  = (s', Ok (n :: ns)) ->
  faults w = repeat true (Z.to_nat retrySQLTimes) ++ fs ->
  exists err d' w',
    dispatchSubTask GenerateExecID retrySQLTimes (meta :: rest) d w = Done err d' w'
    /\ attempts (trace w')
       = (attempts (trace w) + Z.to_nat retrySQLTimes)%nat
    /\ taskMgr w' = taskMgr w.
Proof.
  intros Hi Hst Hel Hf.
  rewrite (dispatchSubTask_nonempty i) by exact Hi. cbv zeta.
  rewrite implState_after_prepare, Hel.
  rewrite updateTask_legal
    by (cbn [task set_task set_taskNodes]; now rewrite State_prepared, Hst).
  match goal with
  | |- context [updateTask_loop ?k ?subs ?prev ?e ?d0 ?w0] =>
      destruct (updateTask_loop_all_faults k subs prev e d0 w0 fs)
        as (w' & Hrun & Hatt & Hmgr & _)
  end.
  { cbn [faults set_implState]. now rewrite faults_after_prepare. }
  eexists _, _, w'. split; [exact Hrun|].
  cbn [trace taskMgr set_implState] in Hatt, Hmgr.
  now rewrite Hatt, Hmgr, trace_after_prepare, taskMgr_after_prepare.
Qed.

End Properties.

(** * The tests and the claims at concrete inputs *)

Example TestVerifyTaskStateTransform :
  forallb (fun '(oldState, newState, expect) =>
             Bool.eqb (VerifyTaskStateTransform oldState newState) expect)
          testCases = true.
Proof. reflexivity. Qed.

(** The server IDs [TestGetInstance] expects of its two servers. *)
Example TestGetInstance_serverIDs :
  execIDs disttaskutil.GenerateExecID mockedAllServerInfos
  = ["10.123.124.10:32457";
     "[ABCD:EF01:2345:6789:ABCD:EF01:2345:6789]:65535"].
Proof. reflexivity. Qed.

(** ** The claims at concrete inputs *)

(** C10 on the third case of the transition test: a Pending task asked to
    go to Reverting. *)
Lemma updateTask_rejected_keeps_target_witness :
  exists d',
    updateTask TaskStateReverting [] DefTiDBDDLErrorCountLimit
      (a_driver testDispatcher pendingTask) (healthy [] pendingTask)
    = Done (Some (errInvalidTransform TaskStatePending TaskStateReverting))
        d' (healthy [] pendingTask)
    /\ State (task d') = TaskStateReverting
    /\ State (task d') <> TaskStatePending.
Proof.
  apply (updateTask_rejected_keeps_target TaskStateReverting []
           DefTiDBDDLErrorCountLimit
           (a_driver testDispatcher pendingTask) (healthy [] pendingTask)).
  reflexivity.
Defined.

(** C8 on a task submitted with concurrency 0. *)
Lemma dispatchSubTask_normalizes_concurrency_witness :
  exists err d' w',
    dispatchSubTask disttaskutil.GenerateExecID DefTiDBDDLErrorCountLimit []
      (a_driver testDispatcher pendingTask) (healthy [] pendingTask)
    = Done err d' w'
    /\ Concurrency (task d') = 16%N.
Proof.
  destruct (dispatchSubTask_normalizes_concurrency disttaskutil.GenerateExecID
              DefTiDBDDLErrorCountLimit testDispatcher []
              (a_driver testDispatcher pendingTask) (healthy [] pendingTask)
              eq_refl)
    as (err & d' & w' & evs & Hrun & H0 & _).
  exists err, d', w'. split; [exact Hrun|]. apply H0. reflexivity.
Defined.

(** C7 on [testDispatcher] before any server is mocked. *)
Lemma dispatchSubTask_no_available_node_witness :
  exists d' w',
    dispatchSubTask disttaskutil.GenerateExecID DefTiDBDDLErrorCountLimit
      [[Byte.x31]]
      (a_driver testDispatcher pendingTask) (healthy [] pendingTask)
    = Done (Some (errors_New "no available TiDB node to dispatch subtasks"))
        d' w'
    /\ taskMgr w' = mkTaskManager [pendingTask] []
    /\ persisted_state (taskMgr w') 1 = Some TaskStatePending.
Proof.
  destruct (dispatchSubTask_no_available_node disttaskutil.GenerateExecID
              DefTiDBDDLErrorCountLimit testDispatcher [Byte.x31] []
              (a_driver testDispatcher pendingTask) (healthy [] pendingTask)
              [] eq_refl eq_refl)
    as (d' & w' & Hrun & Hmgr & _ & _ & Hps).
  exists d', w'. split; [exact Hrun|]. split; [exact Hmgr|].
  rewrite Hmgr. reflexivity.
Defined.

(** C6 on [testDispatcher], whose [OnNextStage] returns no meta. *)
Lemma onNextStage_empty_persists_Succeed_witness :
  exists d' w',
    onNextStage disttaskutil.GenerateExecID DefTiDBDDLErrorCountLimit
      (a_driver testDispatcher pendingTask) (healthy [] pendingTask)
    = Done None d' w'
    /\ State (task d') = TaskStateSucceed
    /\ persisted_state (taskMgr w') 1 = Some TaskStateSucceed
    /\ subtask (taskMgr w') = [].
Proof.
  destruct (onNextStage_empty_persists_Succeed disttaskutil.GenerateExecID
              DefTiDBDDLErrorCountLimit testDispatcher
              (a_driver testDispatcher pendingTask) (healthy [] pendingTask)
              [] pendingTask eq_refl eq_refl (or_introl eq_refl))
    as (err & d' & w' & evs & Hrun & Hst & _ & _ & _ & Hsub & Hok).
  destruct (Hok eq_refl eq_refl) as [-> Hps].
  exists d', w'. repeat split; assumption.
Defined.

(** C4 on [planNotRetryableErrDispatcher] (scenario S5 of section 8): the
    task ends Failed with the error "not retryable err". *)
Lemma onNextStage_plan_error_witness :
  exists d' w',
    onNextStage disttaskutil.GenerateExecID DefTiDBDDLErrorCountLimit
      (a_driver planNotRetryableErrDispatcher pendingTask)
      (healthy tt pendingTask)
    = Done None d' w'
    /\ task d'
       = set_State TaskStateFailed
           (set_Error (Some (errors_New "not retryable err")) pendingTask)
    /\ find (fun r => ID r =? 1) (global_task (taskMgr w')) = Some (task d').
Proof.
  destruct (onNextStage_plan_error disttaskutil.GenerateExecID
              DefTiDBDDLErrorCountLimit planNotRetryableErrDispatcher
              (a_driver planNotRetryableErrDispatcher pendingTask)
              (healthy tt pendingTask) tt pendingTask
              (errors_New "not retryable err") eq_refl eq_refl)
    as [_ Hfail].
  destruct (Hfail eq_refl (or_introl eq_refl) eq_refl)
    as (e & d' & w' & evs & Hrun & Htask & _ & _ & _ & Hok).
  destruct (Hok eq_refl eq_refl) as [-> Hfind].
  exists d', w'. repeat split; assumption.
Defined.

(** C9 on a Reverting task with no subtask left to revert. *)
Lemma onReverting_persists_iff_drained_witness :
  exists d' w',
    onReverting DefTiDBDDLErrorCountLimit
      (a_driver testDispatcher revertingTask) (healthy [] revertingTask)
    = Done None d' w'
    /\ task d' = set_State TaskStateReverted revertingTask
    /\ persisted_state (taskMgr w') 1 = Some TaskStateReverted.
Proof.
  destruct (onReverting_persists_iff_drained DefTiDBDDLErrorCountLimit
              testDispatcher
              (a_driver testDispatcher revertingTask)
              (healthy [] revertingTask) eq_refl eq_refl eq_refl)
    as (err & d' & w' & evs & Hrun & _ & _ & Hzero & _).
  destruct (Hzero eq_refl eq_refl) as (Htask & _ & Hok).
  destruct (Hok eq_refl eq_refl) as [-> Hps].
  exists d', w'. repeat split; assumption.
Defined.

(** The two servers of [TestGetInstance] have distinct exec IDs. *)
Lemma mockedAllServerInfos_distinct :
  NoDup (execIDs disttaskutil.GenerateExecID mockedAllServerInfos).
Proof.
  repeat constructor; cbn; intuition discriminate.
Defined.

(** C3, as the code has it, on a task of a type that was never
    registered and a storage that does not fail. *)
Lemma newDispatcher_unsupported_type_witness :
  exists d' w',
    newDispatcher registry DefTiDBDDLErrorCountLimit "host:port" unknownTask
      (healthy [] unknownTask)
    = Done (None, None) d' w'
    /\ task d'
       = set_State TaskStateFailed
           (set_Error (Some (errors_New "unsupported task type")) unknownTask)
    /\ attempts (trace w') = 1%nat
    /\ find (fun r => ID r =? 1) (global_task (taskMgr w')) = Some (task d').
Proof.
  destruct (newDispatcher_unsupported_type registry DefTiDBDDLErrorCountLimit
              "host:port" unknownTask (healthy [] unknownTask)
              eq_refl eq_refl)
    as (err & d' & w' & evs & Hrun & Htask & Htr & _ & _ & _ & Hok).
  destruct (Hok eq_refl eq_refl eq_refl) as (-> & Hone & Hfind).
  exists d', w'. split; [exact Hrun|]. split; [exact Htask|].
  split; [|exact Hfind].
  rewrite Htr, attempts_app, Hone. reflexivity.
Defined.

(** C3, as the spec has it, fails: on a storage that keeps failing
    transiently the write of Pending -> Failed for a task of an
    unregistered type is attempted [retrySQLTimes] times, 512 with the
    default, not once; and the error recorded on the task is "unsupported
    task type". *)
Lemma newDispatcher_unsupported_type_retries :
  returned unsupported_run = Some (None, Some errTransient)
  /\ attempts_of unsupported_run = 512%nat
  /\ ~ (attempts_of unsupported_run <= 1)%nat.
Proof.
  assert (E : attempts_of unsupported_run = 512%nat)
    by (vm_compute; reflexivity).
  split; [vm_compute; reflexivity|]. split; [exact E|]. rewrite E. lia.
Qed.

(** C2 on the code: a Pending task, three metas, two eligible nodes and a
    storage that fails transiently on every call.  The persist of Pending
    -> Running is attempted [retrySQLTimes] = 512 times and nothing is
    written, where the design document has a single attempt; the persist
    of Pending -> Succeed of the same function, on the same storage, is
    attempted once. *)
Theorem dispatchSubTask_Pending_Running_is_retried :
  attempts_of
    (onPending disttaskutil.GenerateExecID DefTiDBDDLErrorCountLimit
       (a_driver numberExampleDispatcher pendingTask)
       (failing mockedAllServerInfos pendingTask 512)) = 512%nat
  /\ storage_of
       (onPending disttaskutil.GenerateExecID DefTiDBDDLErrorCountLimit
          (a_driver numberExampleDispatcher pendingTask)
          (failing mockedAllServerInfos pendingTask 512))
     = Some (mkTaskManager [pendingTask] [])
  /\ attempts_of
       (onPending disttaskutil.GenerateExecID DefTiDBDDLErrorCountLimit
          (a_driver testDispatcher pendingTask)
          (failing [] pendingTask 512)) = 1%nat.
Proof. vm_compute. repeat split; reflexivity. Qed.

(** Scenario S1 of section 8, up to the first dispatch: three metas on two
    eligible nodes are split two and one, and the task is Running. *)
Example scenario_S1_dispatch :
  let run :=
    onPending disttaskutil.GenerateExecID DefTiDBDDLErrorCountLimit
      (a_driver numberExampleDispatcher pendingTask)
      (healthy mockedAllServerInfos pendingTask) in
  returned run = Some None
  /\ option_map (fun tm => map SchedulerID (subtask tm)) (storage_of run)
     = Some ["10.123.124.10:32457";
             "[ABCD:EF01:2345:6789:ABCD:EF01:2345:6789]:65535";
             "10.123.124.10:32457"]
  /\ option_map (fun tm => persisted_state tm 1) (storage_of run)
     = Some (Some TaskStateRunning).
Proof. vm_compute. repeat split; reflexivity. Qed.

(** Scenario S4: the first plan fails with a retryable error and leaves
    the task Pending; the second dispatches three subtasks. *)
Example scenario_S4_retryable :
  let run1 :=
    onPending disttaskutil.GenerateExecID DefTiDBDDLErrorCountLimit
      (a_driver planErrDispatcher pendingTask) (healthy 0%nat pendingTask) in
  returned run1 = Some (Some (errors_New "retryable err"))
  /\ storage_of run1 = Some (mkTaskManager [pendingTask] [])
  /\ match run1 with
     | Done _ d1 w1 =>
         let run2 :=
           onPending disttaskutil.GenerateExecID DefTiDBDDLErrorCountLimit
             d1 w1 in
         returned run2 = Some None
         /\ option_map (fun tm => List.length (subtask tm)) (storage_of run2)
            = Some 3%nat
         /\ option_map (fun tm => persisted_state tm 1) (storage_of run2)
            = Some (Some TaskStateRunning)
     | Panic => False
     end.
Proof. vm_compute. repeat split; reflexivity. Qed.

(** * Further properties of the driver *)

(** ** Histories under the transition rules *)

Lemma in_all_states (s : TaskState) : In s all_states.
Proof. destruct s; cbn; tauto. Qed.

Lemma reachable_step_first (a b c : TaskState) :
  VerifyTaskStateTransform a b = true -> reachable b c -> reachable a c.
Proof.
  intros Hab Hbc. induction Hbc as [s | b m c _ IH Hmc].
  - apply (reach_step a a s); [apply reach_refl | exact Hab].
  - apply (reach_step a m c); [apply IH; exact Hab | exact Hmc].
Qed.

Lemma reach_set_sound (n : nat) (a b : TaskState) :
  In b (reach_set n a) -> reachable a b.
Proof.
  revert b. induction n as [|n IH]; intros b; cbn [reach_set].
  - intros [<- | []]. apply reach_refl.
  - intro H. apply nodup_In, in_app_or in H. destruct H as [H | H].
    + now apply IH.
    + apply in_flat_map in H. destruct H as (m & Hm & Hb).
      unfold successors in Hb. apply filter_In in Hb.
      apply (reach_step a m b); [now apply IH | tauto].
Qed.

(** The decided relation is closed under one more transition. *)
Lemma reach_set_closed :
  forallb (fun a =>
    let R := reach_set (List.length all_states) a in
    forallb (fun b =>
      forallb (fun c =>
        implb (existsb (state_eqb b) R && VerifyTaskStateTransform b c)
              (existsb (state_eqb c) R))
        all_states) all_states) all_states = true.
Proof. vm_compute. reflexivity. Qed.

Lemma reachb_step (a b c : TaskState) :
  reachb a b = true -> VerifyTaskStateTransform b c = true ->
  reachb a c = true.
Proof.
  unfold reachb. intros Hab Hbc. pose proof reach_set_closed as H.
  rewrite forallb_forall in H. specialize (H a (in_all_states a)).
  cbv zeta in H.
  rewrite forallb_forall in H. specialize (H b (in_all_states b)).
  rewrite forallb_forall in H. specialize (H c (in_all_states c)).
  rewrite Hab, Hbc in H.
  destruct (existsb (state_eqb c) _); [reflexivity | discriminate H].
Qed.

(** [reachb] decides [reachable]. *)
Lemma reachb_spec (a b : TaskState) : reachb a b = true <-> reachable a b.
Proof.
  split.
  - unfold reachb. intro H. apply existsb_exists in H.
    destruct H as (c & Hc & E). apply state_eqb_eq in E. subst c.
    apply (reach_set_sound (List.length all_states)). exact Hc.
  - intro H. induction H as [s | a b c _ IH Hbc].
    + destruct s; vm_compute; reflexivity.
    + now apply (reachb_step a b c).
Qed.

(** X1: rollback is one-way.  Once a task is Cancelling, Reverting or
    Reverted, no history of accepted transitions takes it out of these
    three states: a cancelled or reverting task never ends Succeed or
    Failed, and never runs again. *)
Theorem rollback_is_one_way (a b : TaskState) :
  In a [TaskStateCancelling; TaskStateReverting; TaskStateReverted] ->
  reachable a b ->
  In b [TaskStateCancelling; TaskStateReverting; TaskStateReverted].
Proof.
  intros Ha H. apply reachb_spec in H.
  cbn in Ha. destruct Ha as [<- | [<- | [<- | []]]];
    destruct b; vm_compute in H; try discriminate; cbn; tauto.
Qed.

(** X2: the states without successor are absorbing.  From Succeed,
    Failed, Reverted, Canceled, RevertFailed or RevertPending every
    history of accepted transitions stays where it is. *)
Theorem sink_states_are_absorbing (a b : TaskState) :
  In a [TaskStateSucceed; TaskStateFailed; TaskStateReverted;
        TaskStateCanceled; TaskStateRevertFailed; TaskStateRevertPending] ->
  reachable a b ->
  b = a.
Proof.
  intros Ha H. apply reachb_spec in H.
  cbn in Ha.
  repeat (destruct Ha as [<- | Ha];
          [destruct b; vm_compute in H; (discriminate || reflexivity)|]).
  contradiction.
Qed.

(** X3: the only way back is the pause loop.  Two distinct states that
    can each be reached from the other are both among Running, Pausing,
    Paused and Resuming. *)
Theorem only_cycle_is_the_pause_loop (a b : TaskState) :
  a <> b -> reachable a b -> reachable b a ->
  In a [TaskStateRunning; TaskStatePausing; TaskStatePaused;
        TaskStateResuming]
  /\ In b [TaskStateRunning; TaskStatePausing; TaskStatePaused;
           TaskStateResuming].
Proof.
  intros Hne Hab Hba. apply reachb_spec in Hab, Hba.
  destruct a, b; vm_compute in Hab, Hba;
    try discriminate; try (exfalso; apply Hne; reflexivity);
    cbn; tauto.
Qed.

(** X4: no accepted transition enters Pending, Canceled, RevertFailed or
    RevertPending: a history that ends in one of them started there. *)
Theorem never_entered (a b : TaskState) :
  In b [TaskStatePending; TaskStateCanceled; TaskStateRevertFailed;
        TaskStateRevertPending] ->
  reachable a b ->
  a = b.
Proof.
  intros Hb H. apply reachb_spec in H.
  cbn in Hb.
  repeat (destruct Hb as [<- | Hb];
          [destruct a; vm_compute in H; (discriminate || reflexivity)|]).
  contradiction.
Qed.

Section MoreProperties.

Context {Strat : Type}.
Variable GenerateExecID : string -> N -> string.
Variable retrySQLTimes : Z.
Variable collect_subtask_errors : TaskManager -> Z -> list error.
Variable update_failed_scheduler_ids :
  Z -> gomap -> TaskManager -> TaskManager.
Variable GetAllServerInfo : result (list ServerInfo).
Variable rand_Int : nat -> nat.
Variable range_order : gomap -> gomap.

(** ** More on [updateTask] *)

Lemma sleeps_app (a b : list Event) :
  sleeps (a ++ b) = (sleeps a + sleeps b)%nat.
Proof using Type. unfold sleeps. now rewrite filter_app, length_app. Qed.

(** One iteration of the loop, by what the storage does. *)
Lemma updateTask_loop_S (n : nat) (subs : list Subtask) (prev : TaskState)
  (err : option error) (d : dispatcher Strat) (w : World Strat) :
  updateTask_loop (S n) subs prev err d w
  = let ev := EvUpdateGlobalTaskAndAddSubTasks (task d) subs prev in
    let w1 := set_faults (tl (faults w)) (set_trace (ev :: trace w) w) in
    if hd false (faults w)
    then updateTask_loop n subs prev (Some errTransient) d
           (set_trace (EvSleep retrySQLInterval :: trace w1) w1)
    else if existsb (row_matches (ID (task d)) prev)
                    (global_task (taskMgr w))
         then Done None d
                (set_taskMgr
                   (write_task_and_subtasks (task d) subs prev (taskMgr w))
                   w1)
         else Done (Some errPrecondition) d w1.
Proof using Type.
  cbn [updateTask_loop].
  unfold bind, get_task, UpdateGlobalTaskAndAddSubTasks, bind, log_event,
    next_fault, ret, time_Sleep, log_event.
  cbn [faults set_trace].
  destruct w as [tm [|[|] fs] tr c s]; cbn;
    try (destruct (existsb _ _)); reflexivity.
Qed.

Lemma updateTask_loop_outcome (n : nat) (subs : list Subtask)
  (prev : TaskState) (err : option error)
  (d : dispatcher Strat) (w : World Strat) :
  exists err' w',
    updateTask_loop n subs prev err d w = Done err' d w'
    /\ (err' = None ->
        (n = 0%nat /\ err = None /\ w' = w)
        \/ (existsb (row_matches (ID (task d)) prev)
                    (global_task (taskMgr w)) = true
            /\ taskMgr w'
               = write_task_and_subtasks (task d) subs prev (taskMgr w)))
    /\ (err' <> None -> taskMgr w' = taskMgr w).
Proof using Type.
  revert err w. induction n as [|n IH]; intros err w.
  - exists err, w. cbn. repeat split; auto.
  - rewrite updateTask_loop_S. cbv zeta.
    destruct (hd false (faults w)).
    + match goal with
      | |- context [updateTask_loop n subs prev ?e d ?w0] =>
          destruct (IH e w0) as (err' & w' & Hrun & Hnil & Herr)
      end.
      exists err', w'. split; [exact Hrun|]. cbn in *. split.
      * intro E. destruct (Hnil E) as [(_ & Habs & _) | H];
          [discriminate | right; exact H].
      * exact Herr.
    + destruct (existsb _ _) eqn:Hrow.
      * eexists _, _. split; [reflexivity|]. cbn.
        split; [intros _; right; auto | intro H; contradiction].
      * eexists _, _. split; [reflexivity|]. cbn.
        split; [discriminate | reflexivity].
Qed.

(** X5: a nil result of [updateTask] means the write is in the storage,
    in the one transaction that found the task in its previous state,
    unless the retry count was not positive, in which case nothing was
    attempted; an error means the storage is as it was.  Either way the
    in-memory task holds the target state. *)
Theorem updateTask_nil_means_written
  (taskState : TaskState) (newSubTasks : list Subtask) (retryTimes : Z)
  (d : dispatcher Strat) (w : World Strat) :
  exists err w',
    updateTask taskState newSubTasks retryTimes d w
    = Done err (set_task (set_State taskState (task d)) d) w'
    /\ (err = None ->
        (retryTimes <= 0 /\ w' = w)
        \/ (existsb (row_matches (ID (task d)) (State (task d)))
                    (global_task (taskMgr w)) = true
            /\ taskMgr w'
               = write_task_and_subtasks (set_State taskState (task d))
                   newSubTasks (State (task d)) (taskMgr w)))
    /\ (err <> None -> taskMgr w' = taskMgr w).
Proof using Type.
  destruct (VerifyTaskStateTransform (State (task d)) taskState) eqn:Hv.
  - rewrite updateTask_legal by exact Hv.
    destruct (updateTask_loop_outcome (Z.to_nat retryTimes) newSubTasks
                (State (task d)) None
                (set_task (set_State taskState (task d)) d) w)
      as (err & w' & Hrun & Hnil & Herr).
    exists err, w'. split; [exact Hrun|]. cbn [task set_task ID] in *.
    split; [|exact Herr].
    intro E. destruct (Hnil E) as [(Hn & _ & ->) | H].
    + left. split; [lia | reflexivity].
    + right. exact H.
  - rewrite updateTask_illegal by exact Hv.
    eexists _, _. split; [reflexivity|].
    split; [discriminate | reflexivity].
Qed.

(** X6: with a retry count that is not positive, [updateTask] on an
    accepted transition reports success without calling the storage: it
    returns nil, the world is as it was, and the in-memory task is in the
    target state although no row was written. *)
Theorem updateTask_without_attempt
  (taskState : TaskState) (newSubTasks : list Subtask) (retryTimes : Z)
  (d : dispatcher Strat) (w : World Strat) :
  VerifyTaskStateTransform (State (task d)) taskState = true ->
  retryTimes <= 0 ->
  updateTask taskState newSubTasks retryTimes d w
  = Done None (set_task (set_State taskState (task d)) d) w.
Proof using Type.
  intros Hv Hrt. rewrite updateTask_legal by exact Hv.
  replace (Z.to_nat retryTimes) with 0%nat by lia. reflexivity.
Qed.

(** X7: a state conflict ends the loop at once.  When the storage answers
    and holds no row of the task in the expected previous state, there is
    one attempt, no sleep and no write, whatever the retry count, and the
    error of the storage is returned. *)
Theorem updateTask_stops_on_state_conflict
  (taskState : TaskState) (newSubTasks : list Subtask) (retryTimes : Z)
  (d : dispatcher Strat) (w : World Strat) :
  VerifyTaskStateTransform (State (task d)) taskState = true ->
  0 < retryTimes ->
  hd false (faults w) = false ->
  existsb (row_matches (ID (task d)) (State (task d)))
          (global_task (taskMgr w)) = false ->
  updateTask taskState newSubTasks retryTimes d w
  = Done (Some errPrecondition)
      (set_task (set_State taskState (task d)) d)
      (set_faults (tl (faults w))
         (set_trace
            (EvUpdateGlobalTaskAndAddSubTasks
               (set_State taskState (task d)) newSubTasks (State (task d))
             :: trace w) w)).
Proof using Type.
  intros Hv Hrt Hf Hrow. rewrite updateTask_legal by exact Hv.
  destruct (Z.to_nat retryTimes) as [|n] eqn:Hn; [lia|].
  rewrite updateTask_loop_S. cbv zeta. cbn [task set_task ID set_State].
  now rewrite Hf, Hrow.
Qed.

Lemma updateTask_loop_retries (k n : nat) (subs : list Subtask)
  (prev : TaskState) (err : option error)
  (d : dispatcher Strat) (w : World Strat) (fs : list bool) :
  faults w = repeat true k ++ fs ->
  hd false fs = false ->
  (k < n)%nat ->
  existsb (row_matches (ID (task d)) prev) (global_task (taskMgr w)) = true ->
  exists w',
    updateTask_loop n subs prev err d w = Done None d w'
    /\ taskMgr w' = write_task_and_subtasks (task d) subs prev (taskMgr w)
    /\ attempts (trace w') = (attempts (trace w) + k + 1)%nat
    /\ sleeps (trace w') = (sleeps (trace w) + k)%nat
    /\ faults w' = tl fs.
Proof using Type.
  revert n err w. induction k as [|k IH]; intros n err w Hf Hhd Hk Hrow;
    (destruct n as [|n]; [lia|]); rewrite updateTask_loop_S; cbv zeta;
    rewrite Hf; cbn [repeat app hd tl].
  - rewrite Hhd, Hrow. eexists. split; [reflexivity|]. cbn.
    unfold attempts, sleeps. cbn. repeat split; lia.
  - match goal with
    | |- context [updateTask_loop n subs prev ?e d ?w0] =>
        destruct (IH n e w0) as (w' & Hrun & Hmgr & Hatt & Hsl & Hfs);
          [reflexivity | exact Hhd | lia | exact Hrow |]
    end.
    exists w'. split; [exact Hrun|]. cbn in *.
    unfold attempts, sleeps in *. cbn in *. repeat split; auto; lia.
Qed.

(** X8: [updateTask] retries through transient failures.  When the
    storage fails transiently [k] times, fewer than the retry count, and
    then answers, holding the task in its previous state, the write goes
    through on attempt [k + 1], after [k] sleeps, and nil is returned. *)
Theorem updateTask_retries_until_success
  (taskState : TaskState) (newSubTasks : list Subtask) (retryTimes : Z)
  (d : dispatcher Strat) (w : World Strat) (k : nat) (fs : list bool) :
  VerifyTaskStateTransform (State (task d)) taskState = true ->
  faults w = repeat true k ++ fs ->
  hd false fs = false ->
  (k < Z.to_nat retryTimes)%nat ->
  existsb (row_matches (ID (task d)) (State (task d)))
          (global_task (taskMgr w)) = true ->
  exists w',
    updateTask taskState newSubTasks retryTimes d w
    = Done None (set_task (set_State taskState (task d)) d) w'
    /\ taskMgr w'
       = write_task_and_subtasks (set_State taskState (task d)) newSubTasks
           (State (task d)) (taskMgr w)
    /\ attempts (trace w') = (attempts (trace w) + k + 1)%nat
    /\ sleeps (trace w') = (sleeps (trace w) + k)%nat.
Proof using Type.
  intros Hv Hf Hhd Hk Hrow. rewrite updateTask_legal by exact Hv.
  destruct (updateTask_loop_retries k (Z.to_nat retryTimes) newSubTasks
              (State (task d)) None
              (set_task (set_State taskState (task d)) d) w fs
              Hf Hhd Hk Hrow) as (w' & Hrun & Hmgr & Hatt & Hsl & _).
  exists w'. repeat split; assumption.
Qed.

Lemma updateTask_loop_exhausted (n : nat) (subs : list Subtask)
  (prev : TaskState) (err : option error)
  (d : dispatcher Strat) (w : World Strat) (fs : list bool) :
  faults w = repeat true n ++ fs ->
  exists w',
    updateTask_loop n subs prev err d w
    = Done (match n with O => err | S _ => Some errTransient end) d w'
    /\ taskMgr w' = taskMgr w
    /\ attempts (trace w') = (attempts (trace w) + n)%nat
    /\ sleeps (trace w') = (sleeps (trace w) + n)%nat.
Proof using Type.
  revert err w. induction n as [|n IH]; intros err w Hf.
  - exists w. cbn. repeat split; lia.
  - rewrite updateTask_loop_S. cbv zeta. rewrite Hf. cbn [repeat app hd tl].
    match goal with
    | |- context [updateTask_loop n subs prev ?e d ?w0] =>
        destruct (IH e w0) as (w' & Hrun & Hmgr & Hatt & Hsl);
          [reflexivity|]
    end.
    exists w'. rewrite Hrun. cbn in *.
    unfold attempts, sleeps in *. cbn in *.
    repeat split; auto; try lia. destruct n; reflexivity.
Qed.

(** X9: when the storage fails transiently on every attempt, [updateTask]
    gives up after [retryTimes] attempts with the last error and nothing
    written; it has slept after every attempt, the last one included. *)
Theorem updateTask_gives_up
  (taskState : TaskState) (newSubTasks : list Subtask) (retryTimes : Z)
  (d : dispatcher Strat) (w : World Strat) (fs : list bool) :
  VerifyTaskStateTransform (State (task d)) taskState = true ->
  0 < retryTimes ->
  faults w = repeat true (Z.to_nat retryTimes) ++ fs ->
  exists w',
    updateTask taskState newSubTasks retryTimes d w
    = Done (Some errTransient) (set_task (set_State taskState (task d)) d) w'
    /\ taskMgr w' = taskMgr w
    /\ attempts (trace w') = (attempts (trace w) + Z.to_nat retryTimes)%nat
    /\ sleeps (trace w') = (sleeps (trace w) + Z.to_nat retryTimes)%nat.
Proof using Type.
  intros Hv Hrt Hf. rewrite updateTask_legal by exact Hv.
  destruct (updateTask_loop_exhausted (Z.to_nat retryTimes) newSubTasks
              (State (task d)) None
              (set_task (set_State taskState (task d)) d) w fs Hf)
    as (w' & Hrun & Hrest).
  exists w'. split; [|exact Hrest].
  rewrite Hrun. destruct (Z.to_nat retryTimes) eqn:E; [lia | reflexivity].
Qed.


(** ** More on stage dispatch *)

Lemma insert_rows_length (next : Z) (gTask : Task) (subs : list Subtask) :
  List.length (insert_rows next gTask subs) = List.length subs.
Proof using Type.
  revert next. induction subs as [|s subs IH]; intro next; cbn;
    [reflexivity | now rewrite IH].
Qed.

Lemma insert_rows_fields (next : Z) (gTask : Task) (subs : list Subtask) :
  map SubtaskMeta (insert_rows next gTask subs) = map SubtaskMeta subs
  /\ map TaskID (insert_rows next gTask subs) = map TaskID subs
  /\ map SchedulerID (insert_rows next gTask subs) = map SchedulerID subs
  /\ Forall (fun s => SubtaskStep s = Step gTask
                      /\ SubtaskState s = Some (fresh_state gTask))
            (insert_rows next gTask subs).
Proof using Type.
  revert next. induction subs as [|s subs IH]; intro next; cbn.
  - repeat split; constructor.
  - destruct (IH (next + 1)) as (-> & -> & -> & Hall).
    repeat split; try reflexivity. constructor; [split; reflexivity | exact Hall].
Qed.

Lemma assign_subTasks_fields (t : Task) (serverNodes : list ServerInfo)
  (i : nat) (metas : list bytes) :
  map SubtaskMeta (assign_subTasks GenerateExecID t serverNodes i metas) = metas
  /\ map TaskID (assign_subTasks GenerateExecID t serverNodes i metas)
     = repeat (ID t) (List.length metas).
Proof using Type.
  revert i. induction metas as [|m ms IH]; intro i; cbn.
  - split; reflexivity.
  - destruct (IH (S i)) as [-> ->]. split; reflexivity.
Qed.

Lemma count_rows_app (taskID : Z) (states : list TaskState)
  (a b : list Subtask) :
  count_rows taskID states (a ++ b)
  = count_rows taskID states a + count_rows taskID states b.
Proof using Type. unfold count_rows. rewrite filter_app, length_app. lia. Qed.

Lemma count_rows_uniform (taskID : Z) (states : list TaskState)
  (st : TaskState) (rows : list Subtask) :
  Forall (fun s => TaskID s = taskID /\ SubtaskState s = Some st) rows ->
  count_rows taskID states rows
  = if existsb (state_eqb st) states then Z.of_nat (List.length rows) else 0.
Proof using Type.
  unfold count_rows. induction 1 as [|s rows [Hid Hst] _ IH].
  - cbn. now destruct (existsb _ _).
  - cbn [filter]. rewrite Hid, Hst, Z.eqb_refl. cbn [andb in_states].
    destruct (existsb (state_eqb st) states); cbn [List.length] in *; lia.
Qed.

Lemma Step_prepared (nowTime : Z) (t : Task) :
  Step (prepared nowTime t) = Step t.
Proof using Type.
  unfold prepared, adjusted.
  repeat match goal with
         | |- context [if ?b then _ else _] => destruct b
         end; reflexivity.
Qed.

(** Dispatch on a storage that does not fail and holds the task in the
    state the driver has it in. *)
Lemma dispatchSubTask_healthy
  (i : Dispatcher Strat) (meta : bytes) (rest : list bytes)
  (d : dispatcher Strat) (w : World Strat) (s' : Strat)
  (n : ServerInfo) (ns : list ServerInfo) :
  impl d = Some i ->
  State (task d) = TaskStatePending \/ State (task d) = TaskStateRunning ->
  0 < retrySQLTimes ->
  faults w = [] ->
  persisted_state (taskMgr w) (ID (task d)) = Some (State (task d)) ->
  GetEligibleInstances i (implState w) (prepared (clock w) (task d))
  = (s', Ok (n :: ns)) ->
  let t := prepared (clock w) (task d) in
  let gTask := set_State TaskStateRunning t in
  let subTasks := assign_subTasks GenerateExecID t (n :: ns) 0 (meta :: rest) in
  exists d' w',
    dispatchSubTask GenerateExecID retrySQLTimes (meta :: rest) d w
    = Done None d' w'
    /\ task d' = gTask
    /\ taskNodes d' = execIDs GenerateExecID (n :: ns)
    /\ faults w' = []
    /\ taskMgr w'
       = write_task_and_subtasks gTask subTasks (State (task d)) (taskMgr w)
    /\ persisted_state (taskMgr w') (ID (task d)) = Some TaskStateRunning.
Proof using Type.
  intros Hi Hst Hrt Hf Hrow Hel t gTask subTasks.
  rewrite (dispatchSubTask_nonempty GenerateExecID retrySQLTimes i)
    by exact Hi.
  cbv zeta. rewrite implState_after_prepare, Hel.
  fold t. fold subTasks.
  set (d0 := set_taskNodes _ _). set (w0 := set_implState _ _).
  assert (Hs0 : State (task d0) = State (task d))
    by (subst d0 t; cbn; apply State_prepared).
  assert (Hid0 : ID (task d0) = ID (task d))
    by (subst d0 t; cbn; apply ID_prepared).
  assert (Hv : VerifyTaskStateTransform (State (task d0)) TaskStateRunning
               = true)
    by (rewrite Hs0; destruct Hst as [-> | ->]; reflexivity).
  assert (Hf0 : faults w0 = [])
    by (subst w0; cbn [faults set_implState];
        rewrite faults_after_prepare; exact Hf).
  assert (Hrow0 : persisted_state (taskMgr w0) (ID (task d0))
                  = Some (State (task d0)))
    by (subst w0; cbn [taskMgr set_implState];
        rewrite taskMgr_after_prepare, Hid0, Hs0; exact Hrow).
  destruct (updateTask_healthy TaskStateRunning subTasks retrySQLTimes d0 w0
              Hv Hrt Hf0 Hrow0) as (Hrun & Hps & _).
  cbv zeta in Hrun, Hps. rewrite Hrun.
  eexists _, _. split; [reflexivity|].
  cbn [task set_task taskNodes faults taskMgr set_taskMgr set_trace].
  rewrite Hs0, Hid0 in *.
  subst d0 w0. cbn [task set_task set_taskNodes taskNodes taskMgr
                      set_implState faults] in *.
  rewrite taskMgr_after_prepare, faults_after_prepare in *.
  repeat split; auto.
Qed.

(** The rows a dispatch that goes through adds to the subtask table. *)
Lemma dispatchSubTask_rows
  (i : Dispatcher Strat) (meta : bytes) (rest : list bytes)
  (d : dispatcher Strat) (w : World Strat) (s' : Strat)
  (n : ServerInfo) (ns : list ServerInfo) :
  impl d = Some i ->
  State (task d) = TaskStatePending \/ State (task d) = TaskStateRunning ->
  0 < retrySQLTimes ->
  faults w = [] ->
  persisted_state (taskMgr w) (ID (task d)) = Some (State (task d)) ->
  GetEligibleInstances i (implState w) (prepared (clock w) (task d))
  = (s', Ok (n :: ns)) ->
  exists d' w' rows,
    dispatchSubTask GenerateExecID retrySQLTimes (meta :: rest) d w
    = Done None d' w'
    /\ faults w' = []
    /\ persisted_state (taskMgr w') (ID (task d)) = Some TaskStateRunning
    /\ subtask (taskMgr w') = subtask (taskMgr w) ++ rows
    /\ map SubtaskMeta rows = meta :: rest
    /\ Forall (fun s => TaskID s = ID (task d)
                        /\ SubtaskStep s = Step (task d)
                        /\ SubtaskState s = Some TaskStatePending) rows.
Proof using Type.
  intros Hi Hst Hrt Hf Hrow Hel.
  destruct (dispatchSubTask_healthy i meta rest d w s' n ns
              Hi Hst Hrt Hf Hrow Hel)
    as (d' & w' & Hrun & _ & _ & Hf' & Hmgr & Hps).
  cbv zeta in Hmgr.
  set (t := prepared (clock w) (task d)) in *.
  set (gTask := set_State TaskStateRunning t) in *.
  set (subTasks := assign_subTasks GenerateExecID t (n :: ns) 0 (meta :: rest))
    in *.
  set (rows := insert_rows (Z.of_nat (List.length (subtask (taskMgr w))) + 1)
                 gTask subTasks).
  exists d', w', rows. split; [exact Hrun|]. split; [exact Hf'|].
  split; [exact Hps|].
  destruct (insert_rows_fields
              (Z.of_nat (List.length (subtask (taskMgr w))) + 1) gTask subTasks)
    as (Hmeta & Htid & _ & Hall).
  destruct (assign_subTasks_fields t (n :: ns) 0 (meta :: rest))
    as (Hmeta0 & Htid0).
  fold subTasks in Hmeta0, Htid0. fold rows in Hmeta, Htid, Hall.
  split; [rewrite Hmgr; reflexivity|]. split; [now rewrite Hmeta|].
  apply Forall_forall. intros s Hs.
  rewrite Forall_forall in Hall. destruct (Hall s Hs) as [Hstep Hstate].
  assert (Hin : In (TaskID s) (map TaskID rows)) by now apply in_map.
  rewrite Htid, Htid0 in Hin. apply repeat_spec in Hin.
  subst gTask t. cbn in Hstep, Hstate.
  rewrite Step_prepared in Hstep. rewrite ID_prepared in Hin.
  repeat split; assumption.
Qed.

(** C5, as the code has it: a dispatch of [N] metas to [K > 0] eligible
    nodes builds one subtask per meta, the one of meta [k] scheduled on
    the node at index [k mod K] of the eligible list, and these subtasks
    are what it persists: every attempt of the update carries exactly
    them, a Pending or Running task gets at least one attempt, and on a
    storage that does not fail their rows, with these schedulers and
    metas, are appended to the subtask table.  Hence every scheduler is
    the exec ID of an eligible node, and the numbers of subtasks of any
    two nodes differ by at most one when the eligible nodes have pairwise
    distinct exec IDs. *)
Theorem dispatchSubTask_round_robin
  (i : Dispatcher Strat) (meta : bytes) (rest : list bytes)
  (d : dispatcher Strat) (w : World Strat) (s' : Strat)
  (n : ServerInfo) (ns : list ServerInfo) :
  impl d = Some i ->
  GetEligibleInstances i (implState w) (prepared (clock w) (task d))
  = (s', Ok (n :: ns)) ->
  let metas := meta :: rest in
  let serverNodes := n :: ns in
  let K := List.length serverNodes in
  let N := List.length metas in
  exists subTasks err d' w' evs,
    dispatchSubTask GenerateExecID retrySQLTimes metas d w = Done err d' w'
    /\ trace w' = evs ++ trace w
    /\ Forall (persist_event (task d') subTasks (State (task d))) evs
    /\ (0 < retrySQLTimes ->
        State (task d) = TaskStatePending
        \/ State (task d) = TaskStateRunning ->
        (0 < attempts evs)%nat)
    /\ taskNodes d' = execIDs GenerateExecID serverNodes
    /\ List.length subTasks = N
    /\ (forall k, (k < N)%nat ->
          let node := nth (k mod K) serverNodes zeroServerInfo in
          nth_error subTasks k
          = Some (NewSubtask (ID (task d)) (Type_ (task d))
                    (GenerateExecID (IP node) (Port node)) (nth k metas [])))
    /\ Forall (fun s => In (SchedulerID s)
                           (execIDs GenerateExecID serverNodes)) subTasks
    /\ (NoDup (execIDs GenerateExecID serverNodes) ->
        forall a b,
          In a (execIDs GenerateExecID serverNodes) ->
          In b (execIDs GenerateExecID serverNodes) ->
          (subtasks_on a subTasks <= subtasks_on b subTasks + 1)%nat)
    /\ (0 < retrySQLTimes ->
        State (task d) = TaskStatePending
        \/ State (task d) = TaskStateRunning ->
        faults w = [] ->
        persisted_state (taskMgr w) (ID (task d)) = Some (State (task d)) ->
        err = None
        /\ exists rows,
             subtask (taskMgr w') = subtask (taskMgr w) ++ rows
             /\ map SchedulerID rows = map SchedulerID subTasks
             /\ map SubtaskMeta rows = metas
             /\ map TaskID rows = repeat (ID (task d)) N
             /\ forall a, subtasks_on a rows = subtasks_on a subTasks).
Proof using Type.
  intros Hi Hel metas serverNodes K N.
  assert (HK : (0 < List.length serverNodes)%nat) by (cbn; lia).
  pose proof (dispatchSubTask_healthy i meta rest d w s' n ns Hi) as Hhealthy.
  pose proof (dispatchSubTask_nonempty GenerateExecID retrySQLTimes
                i meta rest d w Hi) as Hrun0.
  cbv zeta in Hrun0, Hhealthy.
  rewrite implState_after_prepare, Hel in Hrun0.
  rewrite Hrun0 in Hhealthy.
  fold serverNodes in Hrun0, Hhealthy. fold metas in Hrun0, Hhealthy.
  rewrite Hrun0. clear Hrun0.
  set (t := prepared (clock w) (task d)) in *.
  set (subTasks := assign_subTasks GenerateExecID t serverNodes 0 metas) in *.
  match goal with
  | |- context [updateTask ?st ?subs ?rt ?d0 ?w0] =>
      destruct (updateTask_shape st subs rt d0 w0)
        as (err & w' & evs & Hrun & Htr & Hall & _ & Hpos & _)
  end.
  rewrite Hrun in Hhealthy.
  exists subTasks, err. eexists. exists w', evs.
  split; [exact Hrun|].
  cbn [task set_task set_taskNodes taskNodes trace set_implState] in *.
  assert (Hsched : map SchedulerID subTasks
                   = map (fun k => nth (k mod K)
                                     (execIDs GenerateExecID serverNodes) "")
                         (seq 0 N))
    by (apply assign_subTasks_schedulers; exact HK).
  assert (HKids : List.length (execIDs GenerateExecID serverNodes) = K)
    by (unfold execIDs; apply length_map).
  split; [now rewrite Htr, trace_after_prepare|].
  split; [subst t; now rewrite State_prepared in Hall|].
  split.
  { intros Hrt Hst. apply Hpos; [|exact Hrt].
    subst t. rewrite State_prepared.
    destruct Hst as [-> | ->]; reflexivity. }
  split; [reflexivity|].
  split; [apply assign_subTasks_length|].
  split.
  { intros k Hk. unfold subTasks.
    rewrite assign_subTasks_nth by assumption.
    subst t. rewrite ID_prepared, Type_prepared. cbn [Nat.add].
    rewrite execIDs_nth; [reflexivity|].
    apply Nat.mod_upper_bound. lia. }
  split.
  { apply Forall_forall. intros s Hs.
    apply (in_map SchedulerID) in Hs. rewrite Hsched in Hs.
    apply in_map_iff in Hs. destruct Hs as (k & <- & _).
    apply nth_In. rewrite HKids. apply Nat.mod_upper_bound. lia. }
  split.
  { intros Hnd a b Ha Hb.
    destruct (In_nth _ _ "" Ha) as (ja & Hja & <-).
    destruct (In_nth _ _ "" Hb) as (jb & Hjb & <-).
    unfold subtasks_on. rewrite Hsched. rewrite <- HKids.
    rewrite !subtasks_on_assigned by assumption.
    rewrite HKids. apply assigned_to_fair; lia. }
  intros Hrt Hst Hf Hrow.
  destruct (Hhealthy Hst Hrt Hf Hrow Hel)
    as (d1 & w1 & Hr1 & _ & _ & _ & Hmgr & _).
  injection Hr1 as -> _ ->.
  split; [reflexivity|].
  eexists. rewrite Hmgr. split; [reflexivity|].
  destruct (insert_rows_fields
              (Z.of_nat (List.length (subtask (taskMgr w))) + 1)
              (set_State TaskStateRunning t) subTasks)
    as (Hmeta & Htid & Hsid & _).
  destruct (assign_subTasks_fields t serverNodes 0 metas) as (Hmeta0 & Htid0).
  fold subTasks in Hmeta0, Htid0.
  split; [exact Hsid|].
  split; [now rewrite Hmeta|].
  split; [rewrite Htid, Htid0; subst t; now rewrite ID_prepared|].
  intro a. unfold subtasks_on. now rewrite Hsid.
Qed.

(** X10: a dispatch that goes through adds one Pending subtask row per
    meta, at the step of the task, and nothing else to the subtask table:
    for any set of states, the count of the subtasks of the task in these
    states grows by the number of metas when Pending is among them, and
    does not change otherwise; the task is persisted as Running. *)
Theorem dispatchSubTask_adds_pending_subtasks
  (i : Dispatcher Strat) (meta : bytes) (rest : list bytes)
  (d : dispatcher Strat) (w : World Strat) (s' : Strat)
  (n : ServerInfo) (ns : list ServerInfo) :
  impl d = Some i ->
  State (task d) = TaskStatePending \/ State (task d) = TaskStateRunning ->
  0 < retrySQLTimes ->
  faults w = [] ->
  persisted_state (taskMgr w) (ID (task d)) = Some (State (task d)) ->
  GetEligibleInstances i (implState w) (prepared (clock w) (task d))
  = (s', Ok (n :: ns)) ->
  exists d' w' rows,
    dispatchSubTask GenerateExecID retrySQLTimes (meta :: rest) d w
    = Done None d' w'
    /\ persisted_state (taskMgr w') (ID (task d)) = Some TaskStateRunning
    /\ subtask (taskMgr w') = subtask (taskMgr w) ++ rows
    /\ map SubtaskMeta rows = meta :: rest
    /\ Forall (fun s => TaskID s = ID (task d)
                        /\ SubtaskStep s = Step (task d)
                        /\ SubtaskState s = Some TaskStatePending) rows
    /\ (forall states,
          count_subtasks_in_states (taskMgr w') (ID (task d)) states
          = count_subtasks_in_states (taskMgr w) (ID (task d)) states
            + if existsb (state_eqb TaskStatePending) states
              then Z.of_nat (List.length (meta :: rest)) else 0).
Proof using Type.
  clear update_failed_scheduler_ids.
  intros Hi Hst Hrt Hf Hrow Hel.
  destruct (dispatchSubTask_rows i meta rest d w s' n ns
              Hi Hst Hrt Hf Hrow Hel)
    as (d' & w' & rows & Hrun & _ & Hps & Hsub & Hmeta & Hrows).
  exists d', w', rows. split; [exact Hrun|]. split; [exact Hps|].
  split; [exact Hsub|]. split; [exact Hmeta|]. split; [exact Hrows|].
  intro states.
  change (count_rows (ID (task d)) states (subtask (taskMgr w'))
          = count_rows (ID (task d)) states (subtask (taskMgr w))
            + if existsb (state_eqb TaskStatePending) states
              then Z.of_nat (List.length (meta :: rest)) else 0).
  rewrite Hsub, count_rows_app. f_equal.
  rewrite (count_rows_uniform (ID (task d)) states TaskStatePending rows).
  - rewrite <- Hmeta, length_map. reflexivity.
  - eapply Forall_impl; [|exact Hrows]. cbn. tauto.
Qed.




(** ** Rollback *)

Lemma MatchServerInfo_In (serverInfos : list ServerInfo) (id : string) :
  MatchServerInfo GenerateExecID serverInfos id = true
  <-> In id (execIDs GenerateExecID serverInfos).
Proof using Type.
  unfold MatchServerInfo, execIDs. rewrite existsb_exists, in_map_iff.
  split; intros (n & H1 & H2).
  - apply String.eqb_eq in H2. eauto.
  - exists n. split; [exact H2 | now apply String.eqb_eq].
Qed.

Lemma scheduler_ids_for_task_In (tm : TaskManager) (taskID : Z) (id : string) :
  In id (scheduler_ids_for_task tm taskID)
  <-> exists s, In s (subtask tm) /\ TaskID s = taskID /\ SchedulerID s = id.
Proof using Type.
  unfold scheduler_ids_for_task. rewrite nodup_In, in_map_iff.
  split.
  - intros (s & Hid & Hs). apply filter_In in Hs. destruct Hs as [Hs E].
    apply Z.eqb_eq in E. eauto.
  - intros (s & Hs & E & Hid). exists s. split; [exact Hid|].
    apply filter_In. split; [exact Hs | now apply Z.eqb_eq].
Qed.

Lemma call_GetEligibleInstances_of_eq (i : Dispatcher Strat) (t : Task)
  (d : dispatcher Strat) (w : World Strat)
  (s' : Strat) (r : result (list ServerInfo)) :
  impl d = Some i ->
  GetEligibleInstances i (implState w) t = (s', r) ->
  call_GetEligibleInstances_of t d w = Done r d (set_implState s' w).
Proof using Type.
  intros Hi Hr. unfold call_GetEligibleInstances_of, bind, get_impl.
  now rewrite Hi, Hr.
Qed.

Lemma GetAllSchedulerIDs_eq (i : Dispatcher Strat) (t : Task)
  (d : dispatcher Strat) (w : World Strat)
  (s' : Strat) (r : result (list ServerInfo)) :
  impl d = Some i ->
  GetEligibleInstances i (implState w) t = (s', r) ->
  GetAllSchedulerIDs GenerateExecID t d w
  = match r with
    | Err err => Done (Err err) d (set_implState s' w)
    | Ok [] => Done (Ok []) d (set_implState s' w)
    | Ok (n :: ns) =>
        Done (if hd false (faults w) then Err errTransient
              else Ok (filter (MatchServerInfo GenerateExecID (n :: ns))
                              (scheduler_ids_for_task (taskMgr w) (ID t))))
             d (set_faults (tl (faults w)) (set_implState s' w))
    end.
Proof using Type.
  intros Hi Hr. unfold GetAllSchedulerIDs, bind.
  rewrite (call_GetEligibleInstances_of_eq i t d w s' r Hi Hr).
  destruct r as [[|n ns]|err]; try reflexivity.
  unfold GetSchedulerIDsByTaskID, bind, next_fault, ret.
  cbn [faults set_implState].
  destruct w as [tm [|[|] fs] tr c s]; reflexivity.
Qed.

(** X12: [GetAllSchedulerIDs] returns, each once, exactly the IDs that are
    both the scheduler of some subtask row of the task and the exec ID of
    an eligible instance; it leaves the storage as it is, and with no
    eligible instance it returns no ID without calling the storage. *)
Theorem GetAllSchedulerIDs_spec (i : Dispatcher Strat) (t : Task)
  (d : dispatcher Strat) (w : World Strat)
  (s' : Strat) (serverInfos : list ServerInfo) :
  impl d = Some i ->
  GetEligibleInstances i (implState w) t = (s', Ok serverInfos) ->
  hd false (faults w) = false ->
  exists ids w',
    GetAllSchedulerIDs GenerateExecID t d w = Done (Ok ids) d w'
    /\ taskMgr w' = taskMgr w
    /\ trace w' = trace w
    /\ NoDup ids
    /\ (forall id,
          In id ids
          <-> In id (execIDs GenerateExecID serverInfos)
              /\ exists s, In s (subtask (taskMgr w))
                           /\ TaskID s = ID t /\ SchedulerID s = id)
    /\ (serverInfos = [] -> ids = [] /\ faults w' = faults w).
Proof using Type.
  clear retrySQLTimes update_failed_scheduler_ids.
  intros Hi Hel Hf.
  rewrite (GetAllSchedulerIDs_eq i t d w s' (Ok serverInfos) Hi Hel).
  destruct serverInfos as [|n ns].
  - eexists _, _. split; [reflexivity|]. cbn.
    repeat split; auto; try constructor; tauto.
  - rewrite Hf. eexists _, _. split; [reflexivity|]. cbn [taskMgr trace
      set_faults set_implState].
    split; [reflexivity|]. split; [reflexivity|].
    split; [apply NoDup_filter; apply NoDup_nodup|].
    split; [|discriminate].
    intro id.
    rewrite filter_In, scheduler_ids_for_task_In, MatchServerInfo_In. tauto.
Qed.

Lemma call_OnErrStage_eq (i : Dispatcher Strat) (errs : list error)
  (d : dispatcher Strat) (w : World Strat) (s' : Strat) (r : result bytes) :
  impl d = Some i ->
  OnErrStage i (implState w) (as_handle d w) (task d) errs = (s', r) ->
  call_OnErrStage errs d w = Done r d (set_implState s' w).
Proof using Type.
  intros Hi Hr. unfold call_OnErrStage, bind, get_impl.
  now rewrite Hi, Hr.
Qed.

Lemma onErrHandlingStage_eq (i : Dispatcher Strat) (errs : list error)
  (d : dispatcher Strat) (w : World Strat)
  (s1 s2 : Strat) (r : result bytes) (r2 : result (list ServerInfo)) :
  impl d = Some i ->
  OnErrStage i (implState w) (as_handle d w) (task d) errs = (s1, r) ->
  GetEligibleInstances i s1 (task d) = (s2, r2) ->
  onErrHandlingStage GenerateExecID retrySQLTimes errs d w
  = match r with
    | Err err => Done (Some err) d (set_implState s1 w)
    | Ok meta =>
        match r2 with
        | Err err => Done (Some err) d (set_implState s2 w)
        | Ok [] =>
            updateTask TaskStateReverting (revert_subTasks (task d) meta [])
              retrySQLTimes d (set_implState s2 w)
        | Ok (n :: ns) =>
            let w2 := set_faults (tl (faults w)) (set_implState s2 w) in
            if hd false (faults w) then Done (Some errTransient) d w2
            else
              updateTask TaskStateReverting
                (revert_subTasks (task d) meta
                   (filter (MatchServerInfo GenerateExecID (n :: ns))
                      (scheduler_ids_for_task (taskMgr w) (ID (task d)))))
                retrySQLTimes d w2
        end
    end.
Proof using Type.
  intros Hi Hr Hel. unfold onErrHandlingStage, bind.
  rewrite (call_OnErrStage_eq i errs d w s1 r Hi Hr).
  destruct r as [meta|err]; [|reflexivity].
  unfold get_task, dispatchSubTask4Revert, bind.
  rewrite (GetAllSchedulerIDs_eq i (task d) d (set_implState s1 w) s2 r2 Hi)
    by exact Hel.
  destruct w as [tm fs tr c s].
  destruct r2 as [[|n ns]|err]; try reflexivity.
  cbn [faults set_implState taskMgr].
  destruct (hd false fs); reflexivity.
Qed.

(** X13: rollback handling writes nothing but Reverting.  Whatever the
    strategy and the storage do, every task row [onErrHandlingStage]
    tries to write is the task in state Reverting, expected in the state
    the driver has it in; and when [OnErrStage] fails, its error is
    returned, nothing is written and the task is left as it is: it is not
    marked Failed. *)
Theorem onErrHandlingStage_only_Reverting
  (i : Dispatcher Strat) (errs : list error)
  (d : dispatcher Strat) (w : World Strat) :
  impl d = Some i ->
  exists err d' w' evs,
    onErrHandlingStage GenerateExecID retrySQLTimes errs d w = Done err d' w'
    /\ trace w' = evs ++ trace w
    /\ (forall gTask subs prev,
          In (EvUpdateGlobalTaskAndAddSubTasks gTask subs prev) evs ->
          gTask = set_State TaskStateReverting (task d)
          /\ prev = State (task d))
    /\ (forall s1 e,
          OnErrStage i (implState w) (as_handle d w) (task d) errs
          = (s1, Err e) ->
          err = Some e /\ d' = d /\ taskMgr w' = taskMgr w /\ evs = []).
Proof using Type.
  intro Hi.
  destruct (OnErrStage i (implState w) (as_handle d w) (task d) errs)
    as [s1 r] eqn:Hr.
  destruct (GetEligibleInstances i s1 (task d)) as [s2 r2] eqn:Hel.
  rewrite (onErrHandlingStage_eq i errs d w s1 s2 r r2 Hi Hr Hel).
  assert (Hin : forall gTask0 subs0 prev0 evs gTask subs prev,
             Forall (persist_event gTask0 subs0 prev0) evs ->
             In (EvUpdateGlobalTaskAndAddSubTasks gTask subs prev) evs ->
             gTask = gTask0 /\ prev = prev0).
  { intros * Hall Hin. rewrite Forall_forall in Hall.
    destruct (Hall _ Hin) as [E|E]; [injection E as -> _ ->; auto
                                    | discriminate]. }
  destruct r as [meta|e0].
  - assert (Hno : forall (s1' : Strat) (e : error) (P : Prop),
               (s1, @Ok bytes meta) = (s1', Err e) -> P)
      by (intros ? ? ? E; discriminate E).
    destruct r2 as [[|n ns]|e2].
    + destruct (updateTask_shape TaskStateReverting
                  (revert_subTasks (task d) meta []) retrySQLTimes d
                  (set_implState s2 w))
        as (err & w' & evs & Hrun & Htr & Hall & _).
      exists err. eexists. exists w', evs. split; [exact Hrun|].
      split; [exact Htr|]. split; [|intros; eapply Hno; eassumption].
      intros * Hev. eapply Hin; eassumption.
    + cbv zeta. destruct (hd false (faults w)).
      * eexists _, _, _, []. split; [reflexivity|].
        split; [reflexivity|]. split; [intros * []|].
        intros; eapply Hno; eassumption.
      * match goal with
        | |- context [updateTask ?st ?subs ?rt ?d0 ?w0] =>
            destruct (updateTask_shape st subs rt d0 w0)
              as (err & w' & evs & Hrun & Htr & Hall & _)
        end.
        exists err. eexists. exists w', evs. split; [exact Hrun|].
        split; [exact Htr|]. split; [|intros; eapply Hno; eassumption].
        intros * Hev. eapply Hin; eassumption.
    + eexists _, _, _, []. split; [reflexivity|].
      split; [reflexivity|]. split; [intros * []|].
      intros; eapply Hno; eassumption.
  - eexists _, _, _, []. split; [reflexivity|].
    split; [reflexivity|]. split; [intros * []|].
    intros s1' e E. injection E as _ ->. repeat split; reflexivity.
Qed.

Lemma MatchServerInfo_nil (ids : list string) :
  filter (MatchServerInfo GenerateExecID []) ids = [].
Proof using Type. induction ids as [|id ids IH]; [reflexivity | exact IH]. Qed.

(** Rollback handling on a storage that does not fail and holds the task
    in the state the driver has it in. *)
Lemma onErrHandlingStage_healthy
  (i : Dispatcher Strat) (errs : list error)
  (d : dispatcher Strat) (w : World Strat)
  (s1 s2 : Strat) (meta : bytes) (serverInfos : list ServerInfo) :
  impl d = Some i ->
  State (task d) = TaskStateRunning \/ State (task d) = TaskStateCancelling ->
  0 < retrySQLTimes ->
  faults w = [] ->
  persisted_state (taskMgr w) (ID (task d)) = Some (State (task d)) ->
  OnErrStage i (implState w) (as_handle d w) (task d) errs = (s1, Ok meta) ->
  GetEligibleInstances i s1 (task d) = (s2, Ok serverInfos) ->
  let ids := filter (MatchServerInfo GenerateExecID serverInfos)
               (scheduler_ids_for_task (taskMgr w) (ID (task d))) in
  let gTask := set_State TaskStateReverting (task d) in
  exists w',
    onErrHandlingStage GenerateExecID retrySQLTimes errs d w
    = Done None (set_task gTask d) w'
    /\ faults w' = []
    /\ implState w' = s2
    /\ taskMgr w'
       = write_task_and_subtasks gTask (revert_subTasks (task d) meta ids)
           (State (task d)) (taskMgr w)
    /\ persisted_state (taskMgr w') (ID (task d)) = Some TaskStateReverting.
Proof using Type.
  intros Hi Hst Hrt Hf Hrow Hr Hel ids gTask.
  rewrite (onErrHandlingStage_eq i errs d w s1 s2 (Ok meta) (Ok serverInfos)
             Hi Hr Hel).
  assert (Hv : VerifyTaskStateTransform (State (task d)) TaskStateReverting
               = true) by (destruct Hst as [-> | ->]; reflexivity).
  assert (Hgo : forall w0,
             faults w0 = [] -> taskMgr w0 = taskMgr w -> implState w0 = s2 ->
             exists w',
               updateTask TaskStateReverting (revert_subTasks (task d) meta ids)
                 retrySQLTimes d w0
               = Done None (set_task gTask d) w'
               /\ faults w' = []
               /\ implState w' = s2
               /\ taskMgr w'
                  = write_task_and_subtasks gTask
                      (revert_subTasks (task d) meta ids)
                      (State (task d)) (taskMgr w)
               /\ persisted_state (taskMgr w') (ID (task d))
                  = Some TaskStateReverting).
  { intros w0 Hf0 Hm0 Hs0.
    assert (Hrow0 : persisted_state (taskMgr w0) (ID (task d))
                    = Some (State (task d))) by now rewrite Hm0.
    destruct (updateTask_healthy TaskStateReverting
                (revert_subTasks (task d) meta ids) retrySQLTimes d w0
                Hv Hrt Hf0 Hrow0) as (Hrun & Hps & _).
    cbv zeta in Hrun, Hps. rewrite Hrun. eexists. split; [reflexivity|].
    cbn [faults implState taskMgr set_taskMgr set_trace].
    rewrite Hm0 in *. repeat split; assumption. }
  destruct serverInfos as [|n ns].
  - subst ids. rewrite MatchServerInfo_nil in *.
    apply Hgo; destruct w; cbn in *; auto.
  - cbv zeta. rewrite Hf. cbn [hd tl].
    apply Hgo; destruct w; cbn in *; auto.
Qed.

Lemma insert_rows_type (next : Z) (gTask : Task) (subs : list Subtask) :
  map SubtaskType (insert_rows next gTask subs) = map SubtaskType subs.
Proof using Type.
  revert next. induction subs as [|s subs IH]; intro next; cbn;
    [reflexivity | now rewrite IH].
Qed.

(** X14: the fan-out of a rollback.  On a storage that does not fail,
    for a task that is Running or Cancelling, when [OnErrStage] gives a
    meta, the task is persisted as Reverting together with exactly one
    new subtask row per node that ran a subtask of the task and is still
    eligible; each of these rows is RevertPending, at the step of the
    task, and carries that one meta. *)
Theorem onErrHandlingStage_fans_out
  (i : Dispatcher Strat) (errs : list error)
  (d : dispatcher Strat) (w : World Strat)
  (s1 s2 : Strat) (meta : bytes) (serverInfos : list ServerInfo) :
  impl d = Some i ->
  State (task d) = TaskStateRunning \/ State (task d) = TaskStateCancelling ->
  0 < retrySQLTimes ->
  faults w = [] ->
  persisted_state (taskMgr w) (ID (task d)) = Some (State (task d)) ->
  OnErrStage i (implState w) (as_handle d w) (task d) errs = (s1, Ok meta) ->
  GetEligibleInstances i s1 (task d) = (s2, Ok serverInfos) ->
  exists d' w' rows,
    onErrHandlingStage GenerateExecID retrySQLTimes errs d w
    = Done None d' w'
    /\ task d' = set_State TaskStateReverting (task d)
    /\ persisted_state (taskMgr w') (ID (task d)) = Some TaskStateReverting
    /\ subtask (taskMgr w') = subtask (taskMgr w) ++ rows
    /\ map SchedulerID rows
       = filter (MatchServerInfo GenerateExecID serverInfos)
           (scheduler_ids_for_task (taskMgr w) (ID (task d)))
    /\ Forall (fun s => TaskID s = ID (task d)
                        /\ SubtaskType s = Type_ (task d)
                        /\ SubtaskStep s = Step (task d)
                        /\ SubtaskState s = Some TaskStateRevertPending
                        /\ SubtaskMeta s = meta) rows.
Proof using Type.
  intros Hi Hst Hrt Hf Hrow Hr Hel.
  destruct (onErrHandlingStage_healthy i errs d w s1 s2 meta serverInfos
              Hi Hst Hrt Hf Hrow Hr Hel)
    as (w' & Hrun & _ & _ & Hmgr & Hps).
  cbv zeta in Hmgr.
  set (ids := filter (MatchServerInfo GenerateExecID serverInfos)
                (scheduler_ids_for_task (taskMgr w) (ID (task d)))) in *.
  set (gTask := set_State TaskStateReverting (task d)) in *.
  set (subs := revert_subTasks (task d) meta ids) in *.
  set (next := Z.of_nat (List.length (subtask (taskMgr w))) + 1).
  exists (set_task gTask d), w', (insert_rows next gTask subs).
  split; [exact Hrun|]. split; [reflexivity|]. split; [exact Hps|].
  split; [rewrite Hmgr; reflexivity|].
  destruct (insert_rows_fields next gTask subs) as (Hmeta & Htid & Hsid & Hall).
  pose proof (insert_rows_type next gTask subs) as Htype.
  split.
  - rewrite Hsid. subst subs. unfold revert_subTasks.
    rewrite map_map. cbn. apply map_id.
  - apply Forall_forall. intros s Hs.
    rewrite Forall_forall in Hall. destruct (Hall s Hs) as [Hstep Hstate].
    assert (H1 : In (TaskID s) (map TaskID subs))
      by (rewrite <- Htid; now apply in_map).
    assert (H2 : In (SubtaskType s) (map SubtaskType subs))
      by (rewrite <- Htype; now apply in_map).
    assert (H3 : In (SubtaskMeta s) (map SubtaskMeta subs))
      by (rewrite <- Hmeta; now apply in_map).
    subst subs. unfold revert_subTasks in H1, H2, H3.
    rewrite map_map in H1, H2, H3. cbn in H1, H2, H3.
    apply in_map_iff in H1, H2, H3.
    destruct H1 as (? & <- & _), H2 as (? & <- & _), H3 as (? & <- & _).
    repeat split; assumption.
Qed.

(** X15: a cancel with nothing to revert.  When no node that ran a
    subtask of a Cancelling task is eligible (or no node ran one, or no
    instance is eligible at all), [onCancelling] persists Reverting
    without a single revert subtask and returns nil, where a stage
    dispatch would fail for want of a node; if no subtask is left in
    RevertPending or Reverting, the next [onReverting] persists Reverted.
    The subtask table is never touched. *)
Theorem onCancelling_with_nothing_to_revert
  (i : Dispatcher Strat) (d : dispatcher Strat) (w : World Strat)
  (s1 s2 : Strat) (meta : bytes) (serverInfos : list ServerInfo) :
  impl d = Some i ->
  State (task d) = TaskStateCancelling ->
  0 < retrySQLTimes ->
  faults w = [] ->
  persisted_state (taskMgr w) (ID (task d)) = Some TaskStateCancelling ->
  OnErrStage i (implState w) (as_handle d w) (task d) [errors_New "cancel"]
  = (s1, Ok meta) ->
  GetEligibleInstances i s1 (task d) = (s2, Ok serverInfos) ->
  (forall id, In id (scheduler_ids_for_task (taskMgr w) (ID (task d))) ->
              ~ In id (execIDs GenerateExecID serverInfos)) ->
  count_subtasks_in_states (taskMgr w) (ID (task d))
    [TaskStateRevertPending; TaskStateReverting] = 0 ->
  exists d1 w1 d2 w2,
    onCancelling GenerateExecID retrySQLTimes d w = Done None d1 w1
    /\ persisted_state (taskMgr w1) (ID (task d)) = Some TaskStateReverting
    /\ subtask (taskMgr w1) = subtask (taskMgr w)
    /\ onReverting retrySQLTimes d1 w1 = Done None d2 w2
    /\ persisted_state (taskMgr w2) (ID (task d)) = Some TaskStateReverted
    /\ subtask (taskMgr w2) = subtask (taskMgr w).
Proof using Type.
  intros Hi Hst Hrt Hf Hrow Hr Hel Hnone Hcnt.
  rewrite <- Hst in Hrow.
  destruct (onErrHandlingStage_healthy i [errors_New "cancel"] d w s1 s2 meta
              serverInfos Hi (or_intror Hst) Hrt Hf Hrow Hr Hel)
    as (w1 & Hrun & Hf1 & _ & Hmgr & Hps).
  cbv zeta in Hmgr.
  assert (Hids : filter (MatchServerInfo GenerateExecID serverInfos)
                   (scheduler_ids_for_task (taskMgr w) (ID (task d))) = []).
  { destruct (filter _ _) as [|id ids] eqn:E; [reflexivity|].
    assert (Hin : In id (id :: ids)) by now left.
    rewrite <- E in Hin. apply filter_In in Hin. destruct Hin as [H1 H2].
    apply MatchServerInfo_In in H2. exfalso. now apply (Hnone id). }
  rewrite Hids in Hmgr. cbn [revert_subTasks map] in Hmgr.
  set (d1 := set_task (set_State TaskStateReverting (task d)) d) in *.
  assert (Hsub1 : subtask (taskMgr w1) = subtask (taskMgr w))
    by (rewrite Hmgr; cbn; apply app_nil_r).
  exists d1, w1.
  unfold onReverting, bind, get_task.
  rewrite GetSubtaskInStatesCnt_eq, Hf1. cbn [hd tl].
  assert (Hcnt1 : count_subtasks_in_states (taskMgr w1) (ID (task d1))
                    [TaskStateRevertPending; TaskStateReverting] = 0)
    by (unfold count_subtasks_in_states in *; rewrite Hsub1; exact Hcnt).
  rewrite Hcnt1. cbn [Z.eqb].
  match goal with
  | |- context [updateTask ?st ?subs ?rt d1 ?w0] => set (w1' := w0)
  end.
  assert (Hv : VerifyTaskStateTransform (State (task d1)) TaskStateReverted
               = true) by reflexivity.
  assert (Hf1' : faults w1' = []) by reflexivity.
  assert (Hrow1 : persisted_state (taskMgr w1') (ID (task d1))
                  = Some (State (task d1))) by exact Hps.
  destruct (updateTask_healthy TaskStateReverted [] retrySQLTimes d1 w1'
              Hv Hrt Hf1' Hrow1) as (Hrun2 & Hps2 & _).
  cbv zeta in Hrun2, Hps2. rewrite Hrun2.
  eexists _, _. split; [exact Hrun|]. split; [exact Hps|].
  split; [exact Hsub1|]. split; [reflexivity|]. split; [exact Hps2|].
  cbn. rewrite app_nil_r. exact Hsub1.
Qed.

(** ** Liveness: the replacement of dead nodes *)

Lemma replace_first_length (k v : string) (l : list string) :
  List.length (replace_first k v l) = List.length l.
Proof using Type.
  induction l as [|x l IH]; cbn; [reflexivity|].
  destruct (String.eqb x k); cbn; [reflexivity | now rewrite IH].
Qed.

Lemma replace_first_In (k v x : string) (l : list string) :
  In x (replace_first k v l) -> x = v \/ In x l.
Proof using Type.
  clear GenerateExecID retrySQLTimes update_failed_scheduler_ids.
  induction l as [|y l IH]; cbn; [tauto|].
  destruct (String.eqb y k); cbn; intuition.
Qed.

Lemma replace_first_keeps (k v x : string) (l : list string) (p : nat) :
  x <> k ->
  nth_error l p = Some x -> nth_error (replace_first k v l) p = Some x.
Proof using Type.
  clear GenerateExecID rand_Int retrySQLTimes update_failed_scheduler_ids.
  intro Hne. revert p. induction l as [|y l IH]; intros p; cbn.
  - destruct p; discriminate.
  - destruct (String.eqb_spec y k) as [->|Hy]; destruct p as [|p]; cbn;
      try tauto.
    + intro E. injection E as ->. contradiction.
    + apply IH.
Qed.

Lemma replace_first_count_other (k v x : string) (l : list string) :
  x <> v ->
  (count_occ string_dec (replace_first k v l) x
   <= count_occ string_dec l x)%nat.
Proof using Type.
  intro Hne. induction l as [|y l IH]; cbn; [lia|].
  destruct (String.eqb_spec y k) as [->|Hy]; cbn.
  - destruct (string_dec v x); [congruence|].
    destruct (string_dec k x); lia.
  - destruct (string_dec y x); lia.
Qed.

Lemma replace_first_removes (k v : string) (l : list string) :
  v <> k ->
  (count_occ string_dec l k <= 1)%nat ->
  ~ In k (replace_first k v l).
Proof using Type.
  clear GenerateExecID retrySQLTimes update_failed_scheduler_ids.
  intros Hne. induction l as [|y l IH]; cbn; [tauto|].
  destruct (String.eqb_spec y k) as [->|Hy]; cbn.
  - destruct (string_dec k k); [|contradiction].
    intros Hc [E|Hin]; [contradiction|].
    apply (count_occ_In string_dec) in Hin. lia.
  - destruct (string_dec y k); [contradiction|].
    intros Hc [E|Hin]; [contradiction | now apply IH].
Qed.

(** The loop over the entries of [replaceNodes], in whatever order: when
    every value is live, no dead node occurs twice, and every dead node
    is a key, all nodes are live in the end. *)
Lemma replace_all_live (P : string -> bool) (entries : gomap)
  (l : list string) :
  (forall k v, In (k, v) entries -> P v = true) ->
  (forall x, P x = false -> (count_occ string_dec l x <= 1)%nat) ->
  Forall (fun x => P x = true \/ In x (map fst entries)) l ->
  Forall (fun x => P x = true)
    (fold_left (fun tn kv => replace_first (fst kv) (snd kv) tn) entries l).
Proof using Type.
  clear GenerateExecID retrySQLTimes update_failed_scheduler_ids.
  revert l. induction entries as [|[k v] rest IH]; intros l Hv Hc Hb;
    cbn [fold_left fst snd].
  - eapply Forall_impl; [|exact Hb]. cbn. tauto.
  - assert (Hlive : P v = true) by (apply (Hv k v); now left).
    apply IH.
    + intros k' v' Hin. apply (Hv k' v'). now right.
    + intros x Hx.
      assert (x <> v) by (intros ->; congruence).
      etransitivity; [now apply replace_first_count_other | now apply Hc].
    + apply Forall_forall. intros x Hx.
      destruct (P x) eqn:Px; [now left | right].
      destruct (replace_first_In k v x l Hx) as [-> | Hin]; [congruence|].
      rewrite Forall_forall in Hb. destruct (Hb x Hin) as [E | [E | E]];
        [congruence | | exact E].
      cbn in E. subst x. exfalso.
      apply (replace_first_removes k v l); [intros ->; congruence | | exact Hx].
      now apply Hc.
Qed.

Lemma replace_all_length (entries : gomap) (l : list string) :
  List.length
    (fold_left (fun tn kv => replace_first (fst kv) (snd kv) tn) entries l)
  = List.length l.
Proof using Type.
  revert l. induction entries as [|[k v] rest IH]; intro l; cbn;
    [reflexivity|].
  now rewrite IH, replace_first_length.
Qed.

Lemma replace_all_keeps (entries : gomap) (l : list string)
  (x : string) (p : nat) :
  ~ In x (map fst entries) ->
  nth_error l p = Some x ->
  nth_error
    (fold_left (fun tn kv => replace_first (fst kv) (snd kv) tn) entries l) p
  = Some x.
Proof using Type.
  clear GenerateExecID rand_Int range_order retrySQLTimes.
  revert l. induction entries as [|[k v] rest IH]; intros l Hx Hp; cbn in *;
    [exact Hp|].
  apply IH; [tauto|]. apply replace_first_keeps; [|exact Hp].
  intros ->. tauto.
Qed.

Lemma map_set_In (k v : string) (m : gomap) (kv : string * string) :
  In kv (map_set k v m) -> kv = (k, v) \/ In kv m.
Proof using Type.
  clear GenerateExecID range_order retrySQLTimes.
  induction m as [|[k' v'] m IH]; cbn; [intuition|].
  destruct (String.eqb k' k); cbn; intuition.
Qed.

Lemma map_set_keys (k v x : string) (m : gomap) :
  In x (map fst (map_set k v m)) <-> x = k \/ In x (map fst m).
Proof using Type.
  clear GenerateExecID range_order retrySQLTimes.
  induction m as [|[k' v'] m IH]; cbn; [intuition|].
  destruct (String.eqb_spec k' k) as [->|Hk]; cbn; intuition.
Qed.

(** What [replaceNodes] holds after the loop over the task nodes: its
    keys are the dead task nodes, its values exec IDs of live nodes. *)
Lemma collect_replaceNodes_entries (live : list ServerInfo) (tn : list string)
  (c : nat) (m0 : gomap) (k v : string) :
  live <> [] ->
  In (k, v) (collect_replaceNodes GenerateExecID rand_Int live c tn m0) ->
  In (k, v) m0
  \/ (MatchServerInfo GenerateExecID live k = false
      /\ In k tn
      /\ MatchServerInfo GenerateExecID live v = true).
Proof using Type.
  clear range_order retrySQLTimes.
  intro Hlive. revert c m0.
  induction tn as [|x tn IH]; intros c m0; cbn [collect_replaceNodes];
    [tauto|].
  destruct (MatchServerInfo GenerateExecID live x) eqn:Hx.
  - intro H. destruct (IH c m0 H) as [H1 | (H1 & H2 & H3)];
      [now left | right; cbn; tauto].
  - intro H. destruct (IH _ _ H) as [H1 | (H1 & H2 & H3)];
      [|right; cbn; tauto].
    apply map_set_In in H1. destruct H1 as [E | H1]; [|now left].
    injection E as -> ->. right. split; [exact Hx|]. split; [now left|].
    apply MatchServerInfo_In. unfold execIDs.
    apply (in_map (fun n => GenerateExecID (IP n) (Port n))).
    apply nth_In. apply Nat.mod_upper_bound.
    destruct live; [contradiction | cbn; lia].
Qed.

Lemma collect_replaceNodes_keys (live : list ServerInfo) (tn : list string)
  (c : nat) (m0 : gomap) (x : string) :
  In x (map fst m0)
  \/ (In x tn /\ MatchServerInfo GenerateExecID live x = false) ->
  In x (map fst (collect_replaceNodes GenerateExecID rand_Int live c tn m0)).
Proof using Type.
  clear range_order retrySQLTimes.
  revert c m0. induction tn as [|y tn IH]; intros c m0;
    cbn [collect_replaceNodes].
  - cbn. tauto.
  - intros [H | [[-> | H] Hx]].
    + destruct (MatchServerInfo GenerateExecID live y); apply IH; left;
        [exact H | apply map_set_keys; now right].
    + rewrite Hx. apply IH. left. apply map_set_keys. now left.
    + destruct (MatchServerInfo GenerateExecID live y); apply IH; right;
        tauto.
Qed.

Lemma replaceDeadNodesIfAny_eq (i : Dispatcher Strat)
  (d : dispatcher Strat) (w : World Strat) :
  impl d = Some i ->
  taskNodes d <> [] ->
  replaceDeadNodesIfAny GenerateExecID update_failed_scheduler_ids
    GetAllServerInfo rand_Int range_order d w
  = let d1 := set_liveNodeFetchTick (wrap_int (liveNodeFetchTick d + 1)) d in
    if liveNodeFetchTick d1 =? liveNodeFetchInterval d1
    then
      let d1' := set_liveNodeFetchTick 0 d1 in
      match call_GenerateSchedulerNodes GetAllServerInfo with
      | Err err => Done (Some err) d1' w
      | Ok serverInfos =>
          let '(s', r) := GetEligibleInstances i (implState w) (task d) in
          match r with
          | Err err => Done (Some err) d1' (set_implState s' w)
          | Ok eligibleServerInfos =>
              replace_step GenerateExecID update_failed_scheduler_ids
                rand_Int range_order
                (set_liveNodes
                   (eligible_live serverInfos eligibleServerInfos) d1')
                (set_implState s' w)
          end
      end
    else
      replace_step GenerateExecID update_failed_scheduler_ids rand_Int
        range_order d1 w.
Proof using Type.
  intros Hi Hn.
  unfold replaceDeadNodesIfAny, replace_step, bind, get_driver, modify_driver,
    ret, call_GetEligibleInstances, bind, get_impl, UpdateFailedSchedulerIDs,
    bind, next_fault, ret, put_taskNodes.
  destruct d as [t sid im ln li lt tn].
  cbn [taskNodes impl] in Hi, Hn. subst im.
  destruct tn as [|n0 tn]; [contradiction|].
  cbv beta iota zeta delta
    [taskNodes impl task liveNodes liveNodeFetchInterval liveNodeFetchTick
     set_liveNodeFetchTick set_liveNodes set_taskNodes].
  destruct (wrap_int (lt + 1) =? li).
  - destruct (call_GenerateSchedulerNodes GetAllServerInfo) as [infos|err];
      [|reflexivity].
    destruct (GetEligibleInstances i (implState w) t) as [s' [el|err]];
      [|reflexivity].
    destruct (eligible_live infos el); [reflexivity|].
    destruct w as [tm [|[|] fs] tr c s0]; reflexivity.
  - destruct ln; [reflexivity|].
    destruct w as [tm [|[|] fs] tr c s0]; reflexivity.
Qed.

Lemma replace_step_spec (d2 : dispatcher Strat) (w2 : World Strat) :
  visits_the_entries range_order ->
  exists e d' w',
    replace_step GenerateExecID update_failed_scheduler_ids rand_Int
      range_order d2 w2 = Done e d' w'
    /\ trace w' = trace w2
    /\ task d' = task d2
    /\ impl d' = impl d2
    /\ liveNodes d' = liveNodes d2
    /\ List.length (taskNodes d') = List.length (taskNodes d2)
    /\ (e <> None -> taskNodes d' = taskNodes d2)
    /\ (liveNodes d2 = [] ->
        taskNodes d' = taskNodes d2 /\ taskMgr w' = taskMgr w2)
    /\ (forall p x,
          nth_error (taskNodes d2) p = Some x ->
          MatchServerInfo GenerateExecID (liveNodes d2) x = true ->
          nth_error (taskNodes d') p = Some x)
    /\ (e = None -> liveNodes d2 <> [] -> NoDup (taskNodes d2) ->
        Forall (fun x => MatchServerInfo GenerateExecID (liveNodes d2) x
                         = true) (taskNodes d')).
Proof using Type.
  clear retrySQLTimes.
  intro Hrange. unfold replace_step.
  destruct (liveNodes d2) as [|n ns] eqn:Hlive.
  - eexists _, _, _. split; [reflexivity|].
    repeat split; auto; try contradiction.
  - cbv zeta. rewrite <- Hlive.
    set (m := collect_replaceNodes GenerateExecID rand_Int (liveNodes d2) 0
                (taskNodes d2) []).
    assert (Hne : liveNodes d2 <> []) by (rewrite Hlive; discriminate).
    assert (Hentries : forall k v, In (k, v) (range_order m) ->
               MatchServerInfo GenerateExecID (liveNodes d2) k = false
               /\ MatchServerInfo GenerateExecID (liveNodes d2) v = true).
    { intros k v Hin. apply (proj1 (Hrange m (k, v))) in Hin.
      destruct (collect_replaceNodes_entries (liveNodes d2) (taskNodes d2) 0 []
                  k v Hne Hin) as [[] | (H1 & _ & H3)]. tauto. }
    destruct (hd false (faults w2)).
    + eexists _, _, _. split; [reflexivity|]. cbn.
      repeat split; auto; try discriminate; try congruence.
    + eexists _, _, _. split; [reflexivity|].
      cbn [trace task impl liveNodes taskNodes set_taskNodes set_taskMgr
           set_faults taskMgr].
      unfold replace_local.
      split; [reflexivity|]. split; [reflexivity|]. split; [reflexivity|].
      split; [reflexivity|]. split; [apply replace_all_length|].
      split; [intro E; now contradiction E|].
      split; [intro E; rewrite Hlive in E; discriminate E|].
      split.
      * intros p x Hp Hx.
        apply replace_all_keeps; [|exact Hp].
        intro Hin. apply in_map_iff in Hin. destruct Hin as ([k v] & E & Hin).
        cbn in E. subst k. destruct (Hentries x v Hin) as [Hd _]. congruence.
      * intros _ _ Hnd.
        apply replace_all_live.
        -- intros k v Hin. now destruct (Hentries k v Hin).
        -- intros x _. now apply NoDup_count_occ.
        -- apply Forall_forall. intros x Hx.
           destruct (MatchServerInfo GenerateExecID (liveNodes d2) x) eqn:Px;
             [now left | right].
           assert (Hk : In x (map fst m))
             by (apply collect_replaceNodes_keys; right; tauto).
           apply in_map_iff in Hk. destruct Hk as ([k v] & E & Hin).
           cbn in E. subst k. apply in_map_iff. exists (x, v).
           split; [reflexivity | now apply Hrange].
Qed.

Lemma replaceDeadNodesIfAny_spec (i : Dispatcher Strat)
  (d : dispatcher Strat) (w : World Strat) :
  impl d = Some i ->
  visits_the_entries range_order ->
  exists e d' w',
    replaceDeadNodesIfAny GenerateExecID update_failed_scheduler_ids
      GetAllServerInfo rand_Int range_order d w = Done e d' w'
    /\ trace w' = trace w
    /\ task d' = task d
    /\ impl d' = impl d
    /\ List.length (taskNodes d') = List.length (taskNodes d)
    /\ (e <> None -> taskNodes d' = taskNodes d)
    /\ (liveNodes d' = [] ->
        taskNodes d' = taskNodes d /\ taskMgr w' = taskMgr w)
    /\ (forall p x,
          nth_error (taskNodes d) p = Some x ->
          MatchServerInfo GenerateExecID (liveNodes d') x = true ->
          nth_error (taskNodes d') p = Some x)
    /\ (e = None -> liveNodes d' <> [] -> NoDup (taskNodes d) ->
        Forall (fun x => MatchServerInfo GenerateExecID (liveNodes d') x
                         = true) (taskNodes d')).
Proof using Type.
  intros Hi Hrange.
  destruct (taskNodes d) as [|n0 tn] eqn:Htn.
  - unfold replaceDeadNodesIfAny, bind, get_driver, ret. rewrite Htn.
    eexists _, _, _. split; [reflexivity|]. rewrite Htn.
    repeat split; auto; try discriminate.
  - rewrite (replaceDeadNodesIfAny_eq i d w Hi)
      by (rewrite Htn; discriminate).
    cbv zeta.
    assert (Hstep : forall d2 w2,
               task d2 = task d -> impl d2 = impl d ->
               taskNodes d2 = taskNodes d -> trace w2 = trace w ->
               taskMgr w2 = taskMgr w ->
               exists e d' w',
                 replace_step GenerateExecID update_failed_scheduler_ids
                   rand_Int range_order d2 w2 = Done e d' w'
                 /\ trace w' = trace w
                 /\ task d' = task d
                 /\ impl d' = impl d
                 /\ List.length (taskNodes d') = List.length (taskNodes d)
                 /\ (e <> None -> taskNodes d' = taskNodes d)
                 /\ (liveNodes d' = [] ->
                     taskNodes d' = taskNodes d /\ taskMgr w' = taskMgr w)
                 /\ (forall p x,
                       nth_error (taskNodes d) p = Some x ->
                       MatchServerInfo GenerateExecID (liveNodes d') x = true ->
                       nth_error (taskNodes d') p = Some x)
                 /\ (e = None -> liveNodes d' <> [] -> NoDup (taskNodes d) ->
                     Forall (fun x => MatchServerInfo GenerateExecID
                                        (liveNodes d') x = true)
                            (taskNodes d'))).
    { intros d2 w2 Ht Him Hnodes Htr Hmgr.
      destruct (replace_step_spec d2 w2 Hrange)
        as (e & d' & w' & Hrun & H1 & H2 & H3 & H4 & H5 & H6 & H7 & H8 & H9).
      exists e, d', w'. split; [exact Hrun|].
      rewrite H4, <- Hnodes, <- Ht, <- Him, <- Htr, <- Hmgr.
      repeat split; auto; now apply H7. }
    rewrite <- Htn.
    destruct (_ =? _).
    + destruct (call_GenerateSchedulerNodes GetAllServerInfo) as [infos|err].
      * destruct (GetEligibleInstances i (implState w) (task d))
          as [s' [el|err]].
        -- apply Hstep; reflexivity.
        -- eexists _, _, _. split; [reflexivity|]. cbn.
           repeat split; auto; try discriminate.
      * eexists _, _, _. split; [reflexivity|]. cbn.
        repeat split; auto; try discriminate.
    + apply Hstep; reflexivity.
Qed.

(** X16: dead nodes are replaced by live ones.  When the task nodes are
    pairwise distinct and [replaceDeadNodesIfAny] returns nil knowing at
    least one live node, every task node is the exec ID of a live node
    afterwards, whatever the random draws and the order in which the map
    of replacements is visited. *)
Theorem replaceDeadNodesIfAny_all_live (i : Dispatcher Strat)
  (d : dispatcher Strat) (w : World Strat) :
  impl d = Some i ->
  visits_the_entries range_order ->
  NoDup (taskNodes d) ->
  exists e d' w',
    replaceDeadNodesIfAny GenerateExecID update_failed_scheduler_ids
      GetAllServerInfo rand_Int range_order d w = Done e d' w'
    /\ (e = None -> liveNodes d' <> [] ->
        Forall (fun id => In id (execIDs GenerateExecID (liveNodes d')))
               (taskNodes d')).
Proof using Type.
  intros Hi Hrange Hnd.
  destruct (replaceDeadNodesIfAny_spec i d w Hi Hrange)
    as (e & d' & w' & Hrun & _ & _ & _ & _ & _ & _ & _ & Hall).
  exists e, d', w'. split; [exact Hrun|].
  intros He Hlive. specialize (Hall He Hlive Hnd).
  eapply Forall_impl; [|exact Hall].
  intros id H. now apply MatchServerInfo_In.
Qed.

(** X17: the replacement touches nothing else.  [replaceDeadNodesIfAny]
    keeps the number of task nodes and the place of every node that is
    live, leaves the task and the trace of task-row updates alone, and
    changes the task nodes only when it returns nil; when it knows no
    live node in the end, the task nodes and the storage are as they
    were. *)
Theorem replaceDeadNodesIfAny_keeps_live_nodes (i : Dispatcher Strat)
  (d : dispatcher Strat) (w : World Strat) :
  impl d = Some i ->
  visits_the_entries range_order ->
  exists e d' w',
    replaceDeadNodesIfAny GenerateExecID update_failed_scheduler_ids
      GetAllServerInfo rand_Int range_order d w = Done e d' w'
    /\ trace w' = trace w
    /\ task d' = task d
    /\ List.length (taskNodes d') = List.length (taskNodes d)
    /\ (e <> None -> taskNodes d' = taskNodes d)
    /\ (liveNodes d' = [] ->
        taskNodes d' = taskNodes d /\ taskMgr w' = taskMgr w)
    /\ (forall p id,
          nth_error (taskNodes d) p = Some id ->
          In id (execIDs GenerateExecID (liveNodes d')) ->
          nth_error (taskNodes d') p = Some id).
Proof using Type.
  intros Hi Hrange.
  destruct (replaceDeadNodesIfAny_spec i d w Hi Hrange)
    as (e & d' & w' & Hrun & H1 & H2 & _ & H4 & H5 & H6 & H7 & _).
  exists e, d', w'. repeat split; auto.
  - now apply H6.
  - now apply H6.
  - intros p id Hp Hin. apply (H7 p id Hp). now apply MatchServerInfo_In.
Qed.

(** *** The Running state *)

Lemma CollectSubTaskError_eq (taskID : Z)
  (d : dispatcher Strat) (w : World Strat) :
  CollectSubTaskError collect_subtask_errors taskID d w
  = Done (if hd false (faults w) then Err errTransient
          else Ok (collect_subtask_errors (taskMgr w) taskID)) d
      (set_faults (tl (faults w)) w).
Proof using Type.
  unfold CollectSubTaskError, bind, next_fault, ret.
  destruct w as [tm [|[|] fs] tr c s]; reflexivity.
Qed.

Lemma onRunning_in_flight_eq (d : dispatcher Strat) (w : World Strat) :
  collect_subtask_errors (taskMgr w) (ID (task d)) = [] ->
  count_subtasks_in_states (taskMgr w) (ID (task d))
    [TaskStatePending; TaskStateRunning] <> 0 ->
  let w1 := set_faults (tl (faults w)) w in
  let w2 := set_faults (tl (faults w1))
              (set_trace
                 (EvGetSubtaskInStatesCnt (ID (task d))
                    [TaskStatePending; TaskStateRunning] :: trace w1) w1) in
  onRunning GenerateExecID retrySQLTimes collect_subtask_errors
    update_failed_scheduler_ids GetAllServerInfo rand_Int range_order d w
  = if hd false (faults w) then Done (Some errTransient) d w1
    else if hd false (faults w1) then Done (Some errTransient) d w2
    else
      match replaceDeadNodesIfAny GenerateExecID update_failed_scheduler_ids
              GetAllServerInfo rand_Int range_order d w2 with
      | Done (Some err) d' w' => Done (Some err) d' w'
      | Done None d' w' =>
          match call_OnTick d' w' with
          | Done _ d3 w3 => Done None d3 w3
          | Panic => Panic
          end
      | Panic => Panic
      end.
Proof using Type.
  intros Herrs Hcnt. cbv zeta.
  unfold onRunning, bind, get_task.
  rewrite CollectSubTaskError_eq.
  destruct (hd false (faults w)); [reflexivity|].
  rewrite Herrs, GetSubtaskInStatesCnt_eq.
  destruct (hd false (faults (set_faults (tl (faults w)) w)));
    [reflexivity|].
  cbn [taskMgr set_faults set_trace].
  apply Z.eqb_neq in Hcnt. rewrite Hcnt.
  destruct (replaceDeadNodesIfAny _ _ _ _ _ _ _) as [[err|] d' w'|];
    reflexivity.
Qed.

(** X18: waiting writes nothing.  While no subtask has reported an error
    and some subtask of the task is still Pending or Running, [onRunning]
    returns without a single attempt to write the task row and with the
    task of the driver as it was, whatever the storage and the cluster
    do; it calls [OnTick] once when it returns nil and not at all when it
    returns an error. *)
Theorem onRunning_in_flight_writes_nothing (i : Dispatcher Strat)
  (d : dispatcher Strat) (w : World Strat) :
  impl d = Some i ->
  visits_the_entries range_order ->
  collect_subtask_errors (taskMgr w) (ID (task d)) = [] ->
  count_subtasks_in_states (taskMgr w) (ID (task d))
    [TaskStatePending; TaskStateRunning] <> 0 ->
  exists e d' w',
    onRunning GenerateExecID retrySQLTimes collect_subtask_errors
      update_failed_scheduler_ids GetAllServerInfo rand_Int range_order d w
    = Done e d' w'
    /\ attempts (trace w') = attempts (trace w)
    /\ task d' = task d
    /\ ticks (trace w')
       = match e with
         | None => S (ticks (trace w))
         | Some _ => ticks (trace w)
         end.
Proof using Type.
  intros Hi Hrange Herrs Hcnt.
  rewrite (onRunning_in_flight_eq d w Herrs Hcnt). cbv zeta.
  destruct (hd false (faults w)).
  { eexists _, _, _. split; [reflexivity|]. now cbn. }
  destruct (hd false (faults (set_faults (tl (faults w)) w))).
  { eexists _, _, _. split; [reflexivity|]. now cbn. }
  match goal with
  | |- context [replaceDeadNodesIfAny _ _ _ _ _ d ?w2] =>
      destruct (replaceDeadNodesIfAny_spec i d w2 Hi Hrange)
        as (e & d' & w' & Hrun & Htr & Ht & Him & _)
  end.
  rewrite Hrun. cbn [trace set_faults set_trace] in Htr.
  destruct e as [err|].
  - eexists _, _, _. split; [reflexivity|]. rewrite Htr. now cbn.
  - unfold call_OnTick, bind, get_impl. rewrite Him, Hi.
    eexists _, _, _. split; [reflexivity|].
    cbn [trace set_implState set_trace]. rewrite Htr. now cbn.
Qed.

(** X19: [onRunning] needs the nodes of the stage.  On a driver that holds
    no task nodes, as a driver fresh from [newDispatcher] does, with a
    storage that answers and subtasks still in flight, [onRunning] returns
    the error of [replaceDeadNodesIfAny], calls neither [OnTick] nor the
    task-row update, and leaves the driver and the stored rows as they
    were. *)
Theorem onRunning_without_task_nodes (i : Dispatcher Strat)
  (d : dispatcher Strat) (w : World Strat) :
  impl d = Some i ->
  taskNodes d = [] ->
  hd false (faults w) = false ->
  hd false (tl (faults w)) = false ->
  collect_subtask_errors (taskMgr w) (ID (task d)) = [] ->
  count_subtasks_in_states (taskMgr w) (ID (task d))
    [TaskStatePending; TaskStateRunning] <> 0 ->
  exists w',
    onRunning GenerateExecID retrySQLTimes collect_subtask_errors
      update_failed_scheduler_ids GetAllServerInfo rand_Int range_order d w
    = Done (Some errNoTaskNodes) d w'
    /\ taskMgr w' = taskMgr w
    /\ implState w' = implState w
    /\ ticks (trace w') = ticks (trace w)
    /\ attempts (trace w') = attempts (trace w).
Proof using Type.
  intros Hi Hn Hf1 Hf2 Herrs Hcnt.
  rewrite (onRunning_in_flight_eq d w Herrs Hcnt). cbv zeta.
  rewrite Hf1. cbn [faults set_faults]. rewrite Hf2.
  unfold replaceDeadNodesIfAny, bind, get_driver, ret. rewrite Hn.
  eexists. split; [reflexivity|]. now cbn.
Qed.
End MoreProperties.

(** ** Round-robin dispatch on concrete inputs *)

(** C5, as the code has it, on the three metas of
    [numberExampleDispatcher] and the two servers of [TestGetInstance]:
    the rows are written, two on the first server and one on the
    second. *)
Lemma dispatchSubTask_round_robin_witness :
  exists subTasks d' w' rows,
    dispatchSubTask disttaskutil.GenerateExecID DefTiDBDDLErrorCountLimit
      (repeat [Byte.x31] subtaskCnt)
      (a_driver numberExampleDispatcher pendingTask)
      (healthy mockedAllServerInfos pendingTask)
    = Done None d' w'
    /\ (0 < attempts (trace w'))%nat
    /\ List.length subTasks = 3%nat
    /\ nth_error subTasks 2
       = Some (NewSubtask 1 taskTypeExample "10.123.124.10:32457" [Byte.x31])
    /\ subtask (taskMgr w') = rows
    /\ map SchedulerID rows = map SchedulerID subTasks
    /\ (subtasks_on "10.123.124.10:32457" rows
        <= subtasks_on "[ABCD:EF01:2345:6789:ABCD:EF01:2345:6789]:65535"
             rows + 1)%nat.
Proof.
  destruct (dispatchSubTask_round_robin disttaskutil.GenerateExecID
              DefTiDBDDLErrorCountLimit numberExampleDispatcher
              [Byte.x31] (repeat [Byte.x31] 2)
              (a_driver numberExampleDispatcher pendingTask)
              (healthy mockedAllServerInfos pendingTask)
              mockedAllServerInfos
              (mkServerInfo "ddl_id_1" "10.123.124.10" 32457)
              [mkServerInfo "ddl_id_2"
                 "ABCD:EF01:2345:6789:ABCD:EF01:2345:6789" 65535]
              eq_refl eq_refl)
    as (subTasks & err & d' & w' & evs & Hrun & Htr & _ & Hpos & _ & Hlen
        & Hnth & _ & Hfair & Hok).
  destruct (Hok eq_refl (or_introl eq_refl) eq_refl eq_refl)
    as (-> & rows & Hsub & Hsid & _ & _ & Hon).
  exists subTasks, d', w', rows. split; [exact Hrun|].
  split.
  { rewrite Htr, app_nil_r.
    apply Hpos; [reflexivity | left; reflexivity]. }
  split; [exact Hlen|]. split; [apply (Hnth 2%nat); cbn; lia|].
  split; [exact Hsub|]. split; [exact Hsid|].
  rewrite !Hon.
  apply (Hfair mockedAllServerInfos_distinct); cbn; tauto.
Defined.

(** C5 as the spec has it fails on a membership that lists one server
    twice: of four metas dispatched to the three entries of
    [reregistered], indices 0, 2 and 3 go to the entries of 10.0.0.1:4000
    and index 1 to 10.0.0.2:4000, so the first node gets three subtask
    rows and the second gets one. *)
Lemma dispatchSubTask_round_robin_shared_exec_id :
  exists d' w',
    dispatchSubTask disttaskutil.GenerateExecID DefTiDBDDLErrorCountLimit
      (repeat [Byte.x31] 4)
      (a_driver testDispatcher pendingTask) (healthy reregistered pendingTask)
    = Done None d' w'
    /\ Forall (fun s => In (SchedulerID s)
                           (execIDs disttaskutil.GenerateExecID reregistered))
              (subtask (taskMgr w'))
    /\ subtasks_on "10.0.0.1:4000" (subtask (taskMgr w')) = 3%nat
    /\ subtasks_on "10.0.0.2:4000" (subtask (taskMgr w')) = 1%nat
    /\ ~ (subtasks_on "10.0.0.1:4000" (subtask (taskMgr w'))
          <= subtasks_on "10.0.0.2:4000" (subtask (taskMgr w')) + 1)%nat.
Proof.
  eexists _, _. split; [vm_compute; reflexivity|].
  split.
  { cbn [taskMgr subtask]. repeat constructor; cbn; tauto. }
  split; [vm_compute; reflexivity|].
  split; [vm_compute; reflexivity|].
  vm_compute. intro H. repeat apply le_S_n in H. inversion H.
Qed.

(** ** The further properties on concrete inputs *)

(** X1 on a cancelled task that has been rolled back. *)
Lemma rollback_is_one_way_witness :
  In TaskStateReverted
     [TaskStateCancelling; TaskStateReverting; TaskStateReverted].
Proof.
  apply (rollback_is_one_way TaskStateCancelling TaskStateReverted).
  - cbn. tauto.
  - apply (reach_step _ TaskStateReverting).
    + apply (reach_step _ TaskStateCancelling);
        [apply reach_refl | reflexivity].
    + reflexivity.
Defined.

(** X2 on a task that ended Succeed and is written again as Succeed. *)
Lemma sink_states_are_absorbing_witness :
  reachable TaskStateSucceed TaskStateSucceed
  /\ TaskStateSucceed = TaskStateSucceed.
Proof.
  assert (H : reachable TaskStateSucceed TaskStateSucceed).
  { apply (reach_step _ TaskStateSucceed); [apply reach_refl | reflexivity]. }
  split; [exact H|].
  apply (sink_states_are_absorbing TaskStateSucceed TaskStateSucceed);
    [cbn; tauto | exact H].
Defined.

(** X3 on Running and Paused. *)
Lemma only_cycle_is_the_pause_loop_witness :
  In TaskStateRunning
     [TaskStateRunning; TaskStatePausing; TaskStatePaused; TaskStateResuming]
  /\ In TaskStatePaused
        [TaskStateRunning; TaskStatePausing; TaskStatePaused;
         TaskStateResuming].
Proof.
  apply (only_cycle_is_the_pause_loop TaskStateRunning TaskStatePaused).
  - discriminate.
  - apply (reach_step _ TaskStatePausing);
      [apply (reach_step _ TaskStateRunning);
         [apply reach_refl | reflexivity]
      | reflexivity].
  - apply (reach_step _ TaskStateResuming);
      [apply (reach_step _ TaskStatePaused);
         [apply reach_refl | reflexivity]
      | reflexivity].
Defined.

(** X4 on Pending. *)
Lemma never_entered_witness :
  reachable TaskStatePending TaskStatePending
  /\ TaskStatePending = TaskStatePending.
Proof.
  assert (H : reachable TaskStatePending TaskStatePending)
    by apply reach_refl.
  split; [exact H|].
  apply (never_entered TaskStatePending TaskStatePending);
    [cbn; tauto | exact H].
Defined.

(** X6 on a Pending task sent to Running with no retry allowed. *)
Lemma updateTask_without_attempt_witness :
  updateTask TaskStateRunning [] 0
    (a_driver testDispatcher pendingTask) (healthy [] pendingTask)
  = Done None
      (set_task (set_State TaskStateRunning pendingTask)
         (a_driver testDispatcher pendingTask))
      (healthy [] pendingTask)
  /\ persisted_state (taskMgr (healthy (Strat := list ServerInfo) []
                                 pendingTask)) 1
     = Some TaskStatePending.
Proof.
  split; [|reflexivity].
  apply (updateTask_without_attempt TaskStateRunning [] 0
           (a_driver testDispatcher pendingTask) (healthy [] pendingTask)).
  - reflexivity.
  - lia.
Defined.

(** X7 on a driver that holds the task as Pending while the stored row is
    Reverting. *)
Lemma updateTask_stops_on_state_conflict_witness :
  returned
    (updateTask TaskStateRunning [] DefTiDBDDLErrorCountLimit
       (a_driver testDispatcher pendingTask) (healthy [] revertingTask))
  = Some (Some errPrecondition).
Proof.
  rewrite (updateTask_stops_on_state_conflict TaskStateRunning []
             DefTiDBDDLErrorCountLimit
             (a_driver testDispatcher pendingTask)
             (healthy [] revertingTask)); reflexivity.
Defined.

(** X8 on a storage that fails twice and then answers. *)
Lemma updateTask_retries_until_success_witness :
  exists w',
    updateTask TaskStateRunning [] 3
      (a_driver testDispatcher pendingTask) (failing [] pendingTask 2)
    = Done None
        (set_task (set_State TaskStateRunning pendingTask)
           (a_driver testDispatcher pendingTask)) w'
    /\ persisted_state (taskMgr w') 1 = Some TaskStateRunning
    /\ attempts (trace w') = 3%nat
    /\ sleeps (trace w') = 2%nat.
Proof.
  destruct (updateTask_retries_until_success TaskStateRunning [] 3
              (a_driver testDispatcher pendingTask)
              (failing [] pendingTask 2) 2 [])
    as (w' & Hrun & Hmgr & Hatt & Hsl).
  - reflexivity.
  - reflexivity.
  - reflexivity.
  - cbn. lia.
  - reflexivity.
  - exists w'. split; [exact Hrun|]. rewrite Hmgr, Hatt, Hsl.
    repeat split; reflexivity.
Defined.

(** X9 on a storage that fails on each of the three attempts allowed. *)
Lemma updateTask_gives_up_witness :
  exists w',
    updateTask TaskStateRunning [] 3
      (a_driver testDispatcher pendingTask) (failing [] pendingTask 3)
    = Done (Some errTransient)
        (set_task (set_State TaskStateRunning pendingTask)
           (a_driver testDispatcher pendingTask)) w'
    /\ persisted_state (taskMgr w') 1 = Some TaskStatePending
    /\ attempts (trace w') = 3%nat
    /\ sleeps (trace w') = 3%nat.
Proof.
  destruct (updateTask_gives_up TaskStateRunning [] 3
              (a_driver testDispatcher pendingTask)
              (failing [] pendingTask 3) [])
    as (w' & Hrun & Hmgr & Hatt & Hsl).
  - reflexivity.
  - lia.
  - reflexivity.
  - exists w'. split; [exact Hrun|]. rewrite Hmgr, Hatt, Hsl.
    repeat split; reflexivity.
Defined.

(** X10 on the first stage of [numberExampleDispatcher] with two nodes. *)
Lemma dispatchSubTask_adds_pending_subtasks_witness :
  exists d' w',
    dispatchSubTask disttaskutil.GenerateExecID DefTiDBDDLErrorCountLimit
      (repeat [Byte.x31] subtaskCnt)
      (a_driver numberExampleDispatcher pendingTask)
      (healthy mockedAllServerInfos pendingTask)
    = Done None d' w'
    /\ count_subtasks_in_states (taskMgr w') 1
         [TaskStatePending; TaskStateRunning] = 3
    /\ count_subtasks_in_states (taskMgr w') 1
         [TaskStateRevertPending; TaskStateReverting] = 0.
Proof.
  destruct (dispatchSubTask_adds_pending_subtasks
              disttaskutil.GenerateExecID DefTiDBDDLErrorCountLimit
              numberExampleDispatcher [Byte.x31] (repeat [Byte.x31] 2)
              (a_driver numberExampleDispatcher pendingTask)
              (healthy mockedAllServerInfos pendingTask)
              mockedAllServerInfos
              (mkServerInfo "ddl_id_1" "10.123.124.10" 32457)
              (tl mockedAllServerInfos))
    as (d' & w' & rows & Hrun & _ & _ & _ & _ & Hcnt).
  - reflexivity.
  - left. reflexivity.
  - reflexivity.
  - reflexivity.
  - reflexivity.
  - reflexivity.
  - exists d', w'. split; [exact Hrun|].
    rewrite !Hcnt. split; reflexivity.
Defined.


(** X12 on the Running task with a subtask on each of the two servers. *)
Lemma GetAllSchedulerIDs_spec_witness :
  exists ids w',
    GetAllSchedulerIDs disttaskutil.GenerateExecID runningTask
      (a_driver numberExampleDispatcher runningTask) (in_flight runningTask)
    = Done (Ok ids) (a_driver numberExampleDispatcher runningTask) w'
    /\ NoDup ids
    /\ In "10.123.124.10:32457" ids.
Proof.
  destruct (GetAllSchedulerIDs_spec disttaskutil.GenerateExecID
              numberExampleDispatcher runningTask
              (a_driver numberExampleDispatcher runningTask)
              (in_flight runningTask)
              mockedAllServerInfos mockedAllServerInfos)
    as (ids & w' & Hrun & _ & _ & Hnd & Hin & _).
  - reflexivity.
  - reflexivity.
  - reflexivity.
  - exists ids, w'. split; [exact Hrun|]. split; [exact Hnd|].
    apply Hin. split.
    + left. reflexivity.
    + eexists. split; [left; reflexivity|]. split; reflexivity.
Defined.

(** X13 on a rollback of the Running task after a subtask error. *)
Lemma onErrHandlingStage_only_Reverting_witness :
  exists err d' w' evs,
    onErrHandlingStage disttaskutil.GenerateExecID DefTiDBDDLErrorCountLimit
      [errors_New "subtask failed"]
      (a_driver numberExampleDispatcher runningTask) (in_flight runningTask)
    = Done err d' w'
    /\ trace w' = evs ++ []
    /\ forall gTask subs prev,
         In (EvUpdateGlobalTaskAndAddSubTasks gTask subs prev) evs ->
         gTask = set_State TaskStateReverting runningTask
         /\ prev = TaskStateRunning.
Proof.
  destruct (onErrHandlingStage_only_Reverting disttaskutil.GenerateExecID
              DefTiDBDDLErrorCountLimit numberExampleDispatcher
              [errors_New "subtask failed"]
              (a_driver numberExampleDispatcher runningTask)
              (in_flight runningTask) eq_refl)
    as (err & d' & w' & evs & Hrun & Htr & Hev & _).
  exists err, d', w', evs. split; [exact Hrun|]. split; [exact Htr|].
  exact Hev.
Defined.

(** X14 on the same rollback: one revert subtask per server. *)
Lemma onErrHandlingStage_fans_out_witness :
  exists d' w' rows,
    onErrHandlingStage disttaskutil.GenerateExecID DefTiDBDDLErrorCountLimit
      [errors_New "subtask failed"]
      (a_driver numberExampleDispatcher runningTask) (in_flight runningTask)
    = Done None d' w'
    /\ persisted_state (taskMgr w') 1 = Some TaskStateReverting
    /\ subtask (taskMgr w') = in_flight_rows ++ rows
    /\ map SchedulerID rows
       = ["10.123.124.10:32457";
          "[ABCD:EF01:2345:6789:ABCD:EF01:2345:6789]:65535"].
Proof.
  destruct (onErrHandlingStage_fans_out disttaskutil.GenerateExecID
              DefTiDBDDLErrorCountLimit numberExampleDispatcher
              [errors_New "subtask failed"]
              (a_driver numberExampleDispatcher runningTask)
              (in_flight runningTask)
              mockedAllServerInfos mockedAllServerInfos []
              mockedAllServerInfos)
    as (d' & w' & rows & Hrun & _ & Hps & Hsub & Hids & _).
  - reflexivity.
  - left. reflexivity.
  - reflexivity.
  - reflexivity.
  - reflexivity.
  - reflexivity.
  - reflexivity.
  - exists d', w', rows. split; [exact Hrun|]. split; [exact Hps|].
    split; [exact Hsub|]. rewrite Hids. reflexivity.
Defined.

(** X15 on a task cancelled before any subtask was dispatched. *)
Lemma onCancelling_with_nothing_to_revert_witness :
  exists d1 w1 d2 w2,
    onCancelling disttaskutil.GenerateExecID DefTiDBDDLErrorCountLimit
      (a_driver numberExampleDispatcher cancellingTask)
      (healthy mockedAllServerInfos cancellingTask)
    = Done None d1 w1
    /\ onReverting DefTiDBDDLErrorCountLimit d1 w1 = Done None d2 w2
    /\ persisted_state (taskMgr w2) 1 = Some TaskStateReverted
    /\ subtask (taskMgr w2) = [].
Proof.
  destruct (onCancelling_with_nothing_to_revert disttaskutil.GenerateExecID
              DefTiDBDDLErrorCountLimit numberExampleDispatcher
              (a_driver numberExampleDispatcher cancellingTask)
              (healthy mockedAllServerInfos cancellingTask)
              mockedAllServerInfos mockedAllServerInfos []
              mockedAllServerInfos)
    as (d1 & w1 & d2 & w2 & Hc & _ & _ & Hr & Hps & Hsub).
  - reflexivity.
  - reflexivity.
  - reflexivity.
  - reflexivity.
  - reflexivity.
  - reflexivity.
  - reflexivity.
  - intros id [].
  - reflexivity.
  - exists d1, w1, d2, w2. repeat split; assumption.
Defined.

Lemma in_insertion_order_visits : visits_the_entries in_insertion_order.
Proof. intros m kv. unfold in_insertion_order. tauto. Defined.

(** X16 on the driver that has seen the first server leave. *)
Lemma replaceDeadNodesIfAny_all_live_witness :
  exists e d' w',
    replaceDeadNodesIfAny disttaskutil.GenerateExecID move_subtasks
      (Ok mockedAllServerInfos) (fun k => k) in_insertion_order
      running_driver (in_flight runningTask)
    = Done e d' w'
    /\ (e = None -> liveNodes d' <> [] ->
        Forall (fun id => In id (execIDs disttaskutil.GenerateExecID
                                   (liveNodes d')))
               (taskNodes d')).
Proof.
  apply (replaceDeadNodesIfAny_all_live disttaskutil.GenerateExecID
           move_subtasks (Ok mockedAllServerInfos) (fun k => k)
           in_insertion_order numberExampleDispatcher
           running_driver (in_flight runningTask)).
  - reflexivity.
  - exact in_insertion_order_visits.
  - exact mockedAllServerInfos_distinct.
Defined.

(** X17 on the same driver. *)
Lemma replaceDeadNodesIfAny_keeps_live_nodes_witness :
  exists e d' w',
    replaceDeadNodesIfAny disttaskutil.GenerateExecID move_subtasks
      (Ok mockedAllServerInfos) (fun k => k) in_insertion_order
      running_driver (in_flight runningTask)
    = Done e d' w'
    /\ task d' = runningTask
    /\ List.length (taskNodes d') = 2%nat.
Proof.
  destruct (replaceDeadNodesIfAny_keeps_live_nodes
              disttaskutil.GenerateExecID move_subtasks
              (Ok mockedAllServerInfos) (fun k => k) in_insertion_order
              numberExampleDispatcher running_driver (in_flight runningTask)
              eq_refl in_insertion_order_visits)
    as (e & d' & w' & Hrun & _ & Ht & Hlen & _).
  exists e, d', w'. split; [exact Hrun|]. split; [exact Ht | exact Hlen].
Defined.

(** X18 on the same driver with the two subtasks still Pending. *)
Lemma onRunning_in_flight_writes_nothing_witness :
  exists e d' w',
    onRunning disttaskutil.GenerateExecID DefTiDBDDLErrorCountLimit
      no_subtask_errors move_subtasks (Ok mockedAllServerInfos) (fun k => k)
      in_insertion_order running_driver (in_flight runningTask)
    = Done e d' w'
    /\ attempts (trace w') = 0%nat
    /\ task d' = runningTask.
Proof.
  destruct (onRunning_in_flight_writes_nothing disttaskutil.GenerateExecID
              DefTiDBDDLErrorCountLimit no_subtask_errors move_subtasks
              (Ok mockedAllServerInfos) (fun k => k) in_insertion_order
              numberExampleDispatcher running_driver (in_flight runningTask)
              eq_refl in_insertion_order_visits eq_refl)
    as (e & d' & w' & Hrun & Hatt & Ht & _).
  - discriminate.
  - exists e, d', w'. split; [exact Hrun|]. split; [exact Hatt | exact Ht].
Defined.

(** X19 on a driver fresh from [newDispatcher] for the Running task. *)
Lemma onRunning_without_task_nodes_witness :
  exists w',
    onRunning disttaskutil.GenerateExecID DefTiDBDDLErrorCountLimit
      no_subtask_errors move_subtasks (Ok mockedAllServerInfos) (fun k => k)
      in_insertion_order (a_driver numberExampleDispatcher runningTask)
      (in_flight runningTask)
    = Done (Some errNoTaskNodes)
        (a_driver numberExampleDispatcher runningTask) w'
    /\ taskMgr w' = taskMgr (in_flight runningTask)
    /\ ticks (trace w') = 0%nat.
Proof.
  destruct (onRunning_without_task_nodes disttaskutil.GenerateExecID
              DefTiDBDDLErrorCountLimit no_subtask_errors move_subtasks
              (Ok mockedAllServerInfos) (fun k => k) in_insertion_order
              numberExampleDispatcher
              (a_driver numberExampleDispatcher runningTask)
              (in_flight runningTask)
              eq_refl eq_refl eq_refl eq_refl eq_refl)
    as (w' & Hrun & Hmgr & _ & Hticks & _).
  - discriminate.
  - exists w'. split; [exact Hrun|]. split; [exact Hmgr | exact Hticks].
Defined.
